(** * nwcli: the interactive pager of [pkg/tui]

    A shallow embedding of the pager of nwcli ([pkg/tui/model.go],
    [pkg/tui/pager.go] and the image placeholder helper of the same
    package) together with the properties of its view-state machine, its
    scroll arithmetic, its mouse mapping, its content pipeline and its
    relative time formatting.

    Go's [int] and [time.Duration] are 64-bit two's complement integers:
    they are values of [Z], and the additions, subtractions and divisions
    of the source are followed by [wrap].  [float64] is Rocq's primitive
    binary64 float.  Strings are byte strings, as in Go.  A function that
    can panic returns a [result]. *)

From Stdlib Require Import ZArith String Ascii List Bool Lia.
From Stdlib Require Import DecimalString.
From Stdlib Require Import Floats.PrimFloat Floats.FloatOps Floats.SpecFloat.
From Stdlib Require Import Numbers.Cyclic.Int63.Uint63.
Import ListNotations.

Local Open Scope string_scope.
Local Open Scope Z_scope.

(* ================================================================= *)
(** ** Go integers *)

Module GoInt.

Definition minInt : Z := - 2 ^ 63.
Definition maxInt : Z := 2 ^ 63 - 1.

(** Two's complement reduction to 64 bits. *)
Definition wrap (z : Z) : Z := (z + 2 ^ 63) mod 2 ^ 64 - 2 ^ 63.

Definition is_int (z : Z) : Prop := minInt <= z <= maxInt.

Definition add (a b : Z) : Z := wrap (a + b).
Definition sub (a b : Z) : Z := wrap (a - b).
Definition mul (a b : Z) : Z := wrap (a * b).
(** [a / b] truncates toward zero; the divisors of the source are
    non-zero constants. *)
Definition quo (a b : Z) : Z := wrap (Z.quot a b).
Definition rem (a b : Z) : Z := wrap (Z.rem a b).

(** [len(s)] of a slice. *)
Definition len {A : Type} (l : list A) : Z := Z.of_nat (List.length l).

(** [fmt]'s [%d]. *)
Definition itoa (z : Z) : string := NilZero.string_of_int (Z.to_int z).

End GoInt.

Notation "a +! b" := (GoInt.add a b) (at level 50, left associativity).
Notation "a -! b" := (GoInt.sub a b) (at level 50, left associativity).
Notation "a /! b" := (GoInt.quo a b) (at level 40, left associativity).

(* ================================================================= *)
(** ** Go floats *)

Module GoFloat.

(** [float64(n)] for an integer [n]: rounds to nearest even. *)
Definition of_int (z : Z) : float :=
  if z =? GoInt.minInt then PrimFloat.opp (Z.ldexp 1%float 63)
  else if z <? 0 then PrimFloat.opp (PrimFloat.of_uint63 (Uint63.of_Z (- z)))
  else PrimFloat.of_uint63 (Uint63.of_Z z).

(** [int(f)]: the fraction is discarded (truncation toward zero).  A
    value that does not fit (NaN, infinities, magnitudes of [2^63] and
    more) converts to the smallest integer, as on amd64. *)
Definition to_int (f : float) : Z :=
  match Prim2SF f with
  | S754_zero _ => 0
  | S754_finite s m e =>
      let a := if 0 <=? e then Z.pos m * 2 ^ e else Z.pos m / 2 ^ (- e) in
      let v := if s then - a else a in
      if (GoInt.minInt <=? v) && (v <=? GoInt.maxInt) then v else GoInt.minInt
  | S754_infinity _ | S754_nan => GoInt.minInt
  end.

End GoFloat.

(* ================================================================= *)
(** ** Package [strings] *)

Module strings.

Definition newline : ascii := "010"%char.
(** The string literal ["\n"]. *)
Definition nl : string := String newline "".

(** [strings.Count(s, sep)] for a separator of one byte. *)
Fixpoint Count (s : string) (sep : ascii) : Z :=
  match s with
  | EmptyString => 0
  | String c s' => (if Ascii.eqb c sep then 1 else 0) + Count s' sep
  end.

(** [strings.Split(s, sep)] for a separator of one byte: the fields
    between the separators, always at least one. *)
Fixpoint Split (s : string) (sep : ascii) : list string :=
  match s with
  | EmptyString => [""]
  | String c s' =>
      if Ascii.eqb c sep then "" :: Split s' sep
      else match Split s' sep with
           | [] => [String c ""]
           | f :: fs => String c f :: fs
           end
  end.

(** [strings.Join(elems, sep)]. *)
Fixpoint Join (elems : list string) (sep : string) : string :=
  match elems with
  | [] => ""
  | [e] => e
  | e :: rest => e ++ sep ++ Join rest sep
  end.

(** [strings.Contains(s, substr)]. *)
Fixpoint Contains (s substr : string) : bool :=
  String.prefix substr s
  || match s with
     | EmptyString => false
     | String _ s' => Contains s' substr
     end.

End strings.

(* ================================================================= *)
(** ** Package [time] *)

Module time.

(** [time.Duration]: a count of nanoseconds, an [int64]. *)
Definition Duration := Z.

Definition Nanosecond : Duration := 1.
Definition Second : Duration := 1000000000.
Definition Minute : Duration := 60 * Second.
Definition Hour : Duration := 60 * Minute.

Definition minDuration : Duration := GoInt.minInt.
Definition maxDuration : Duration := GoInt.maxInt.

(** An instant: nanoseconds since the Unix epoch, and the name of the
    location it is displayed in. *)
Record Time : Type := mkTime { unixNano : Z; location : string }.

(** [t.Sub(u)]: the difference, or the largest (smallest) duration when
    it does not fit. *)
Definition Sub (t u : Time) : Duration :=
  let d := unixNano t - unixNano u in
  if d <? minDuration then minDuration
  else if maxDuration <? d then maxDuration
  else d.

(** [d.Minutes()]:
    [min := d / Minute; nsec := d % Minute;
     return float64(min) + float64(nsec)/(60*1e9)]. *)
Definition Minutes (d : Duration) : float :=
  let min := GoInt.quo d Minute in
  let nsec := GoInt.rem d Minute in
  PrimFloat.add (GoFloat.of_int min)
    (PrimFloat.div (GoFloat.of_int nsec) 60e9%float).

(** [d.Hours()]:
    [hour := d / Hour; nsec := d % Hour;
     return float64(hour) + float64(nsec)/(60*60*1e9)]. *)
Definition Hours (d : Duration) : float :=
  let hour := GoInt.quo d Hour in
  let nsec := GoInt.rem d Hour in
  PrimFloat.add (GoFloat.of_int hour)
    (PrimFloat.div (GoFloat.of_int nsec) 3600e9%float).

End time.

(* ================================================================= *)
(** ** The host of the program

    What the pager reads from its surroundings and the library calls
    whose results it only passes on: the wall clock, the calendar
    formatting of package [time], the process environment, the state of
    standard output, and the styling of package [lipgloss].  A host is
    the surroundings during one call: the clock shows one instant. *)

(** An [error] value. *)
Inductive error : Type := errorString (msg : string).

(** A style of [lipgloss]: the options set on it, in the order of the
    calls. *)
Inductive StyleOption : Type :=
| StyleBold (b : bool)
| StyleItalic (b : bool)
| StyleForeground (color : string)
| StyleBackground (color : string)
| StyleBorderForeground (color : string)
| StylePadding (sides : list Z)
| StyleBorderStyle (border : string)
| StyleWidth (w : Z)
| StyleHeight (h : Z)
| StyleAlign (position : string)
| StyleMarginTop (n : Z)
| StyleMarginBottom (n : Z).

Definition Style : Type := list StyleOption.

(** [os.FileMode] bits. *)
Definition ModeCharDevice : Z := Z.shiftl 1 21.

Class Host : Type := {
  (** [time.Now()] *)
  time_Now : time.Time;
  (** [t.Format(layout)] *)
  time_Format : time.Time -> string -> string;
  (** [os.LookupEnv(key)] *)
  os_LookupEnv : string -> option string;
  (** [os.Stdout.Stat()], reduced to the mode of the file *)
  os_Stdout_Stat : Z + error;
  (** [style.Render(text)] *)
  lipgloss_Render : Style -> string -> string
}.

(** [os.Getenv(key)]: the empty string when the variable is unset. *)
Definition os_Getenv `{Host} (key : string) : string :=
  match os_LookupEnv key with
  | Some v => v
  | None => ""
  end.

(* ================================================================= *)
(** ** Package [news]: the article record *)

Record Article : Type := mkArticle {
  Title : string;
  Description : string;
  Content : string;
  Link : string;
  Published : time.Time;
  Source : string;
  ImageURL : string;
  Categories : list string
}.

(* ================================================================= *)
(** ** Packages [glamour] and [bubbletea] *)

(** A [glamour.TermRenderer]: its [Render] method gives the styled text
    and an error, [nil] ([None]) on success. *)
Record TermRenderer : Type := mkTermRenderer {
  Render : string -> string * option error
}.

Inductive MouseAction : Type :=
| MouseActionPress | MouseActionRelease | MouseActionMotion.

Inductive MouseButton : Type :=
| MouseButtonNone | MouseButtonLeft | MouseButtonMiddle | MouseButtonRight
| MouseButtonWheelUp | MouseButtonWheelDown
| MouseButtonWheelLeft | MouseButtonWheelRight
| MouseButtonBackward | MouseButtonForward
| MouseButton10 | MouseButton11.

Record MouseEvent : Type := mkMouseEvent {
  X : Z;
  Y : Z;
  Action : MouseAction;
  Button : MouseButton
}.

(** The messages of the event loop.  A key message is represented by the
    result of its [String()] method; [OtherMsg] stands for the messages
    of any other type. *)
Inductive Msg : Type :=
| WindowSizeMsg (Width Height : Z)
| MouseMsg (e : MouseEvent)
| KeyMsg (key : string)
| OtherMsg.

(** A [tea.Cmd]: [nil] or [tea.Quit]. *)
Inductive Cmd : Type := CmdNil | Quit.

(* ================================================================= *)
(** ** Package [tui]: the model ([model.go]) *)

(** [ViewType] *)
Inductive ViewType : Type := IndexView | ArticleView.

(** [Viewport]: a scrollable content area. *)
Record Viewport : Type := mkViewport {
  content : string;
  scrollOffset : Z;
  height : Z
}.

(** [Model]: the state of the application. *)
Record Model : Type := mkModel {
  articles : list Article;
  currentView : ViewType;
  selectedIndex : Z;
  title : string;
  renderer : TermRenderer;
  viewport : Viewport;
  showHelp : bool;
  windowWidth : Z;
  windowHeight : Z
}.

(** Assignments to the fields of a model. *)
Definition set_currentView (m : Model) (v : ViewType) : Model :=
  mkModel (articles m) v (selectedIndex m) (title m) (renderer m)
          (viewport m) (showHelp m) (windowWidth m) (windowHeight m).

Definition set_selectedIndex (m : Model) (i : Z) : Model :=
  mkModel (articles m) (currentView m) i (title m) (renderer m)
          (viewport m) (showHelp m) (windowWidth m) (windowHeight m).

Definition set_viewport (m : Model) (vp : Viewport) : Model :=
  mkModel (articles m) (currentView m) (selectedIndex m) (title m)
          (renderer m) vp (showHelp m) (windowWidth m) (windowHeight m).

Definition set_showHelp (m : Model) (b : bool) : Model :=
  mkModel (articles m) (currentView m) (selectedIndex m) (title m)
          (renderer m) (viewport m) b (windowWidth m) (windowHeight m).

Definition set_windowWidth (m : Model) (w : Z) : Model :=
  mkModel (articles m) (currentView m) (selectedIndex m) (title m)
          (renderer m) (viewport m) (showHelp m) w (windowHeight m).

Definition set_windowHeight (m : Model) (h : Z) : Model :=
  mkModel (articles m) (currentView m) (selectedIndex m) (title m)
          (renderer m) (viewport m) (showHelp m) (windowWidth m) h.

Definition set_content (m : Model) (c : string) : Model :=
  set_viewport m (mkViewport c (scrollOffset (viewport m)) (height (viewport m))).

Definition set_scrollOffset (m : Model) (o : Z) : Model :=
  set_viewport m (mkViewport (content (viewport m)) o (height (viewport m))).

Definition set_height (m : Model) (h : Z) : Model :=
  set_viewport m (mkViewport (content (viewport m)) (scrollOffset (viewport m)) h).

(** The zero value of [Viewport], which [NewModel] leaves in place. *)
Definition zeroViewport : Viewport := mkViewport "" 0 0.

(** [NewModel]; the first argument is the result of
    [glamour.NewTermRenderer]. *)
Definition NewModel (newTermRenderer : TermRenderer + error)
           (articles : list Article) (title : string) : Model + error :=
  match newTermRenderer with
  | inr (errorString e) =>
      inr (errorString ("failed to create renderer: " ++ e))
  | inl renderer =>
      let selectedIndex := 0 in
      let selectedIndex :=
        if GoInt.len articles =? 0 then -1 else selectedIndex in
      inl (mkModel articles IndexView selectedIndex title renderer
                   zeroViewport false 80 24)
  end.

(** [NewModel] as the keyboard-only variant of the model has it: the
    first article is selected whatever the list. *)
Definition NewModel_basic (newTermRenderer : TermRenderer + error)
           (articles : list Article) (title : string) : Model + error :=
  match newTermRenderer with
  | inr (errorString e) =>
      inr (errorString ("failed to create renderer: " ++ e))
  | inl renderer =>
      inl (mkModel articles IndexView 0 title renderer
                   zeroViewport false 80 24)
  end.

(** [Init] *)
Definition Init (m : Model) : Cmd := CmdNil.

(** [updateViewport] *)
Definition updateViewport (m : Model) : Model :=
  match currentView m with
  | ArticleView =>
      let m := set_scrollOffset m 0 in
      set_height m (windowHeight m -! 4)
  | IndexView => m
  end.

(** The line count of the scroll arithmetic: [strings.Count(content, "\n")]. *)
Definition totalLines (c : string) : Z := strings.Count c strings.newline.

(** [scrollUp] *)
Definition scrollUp (m : Model) : Model :=
  if 0 <? scrollOffset (viewport m)
  then set_scrollOffset m (scrollOffset (viewport m) -! 1)
  else m.

(** [scrollDown] *)
Definition scrollDown (m : Model) : Model :=
  let lines := totalLines (content (viewport m)) in
  let maxScroll := lines -! height (viewport m) +! 1 in
  if (0 <? maxScroll) && (scrollOffset (viewport m) <? maxScroll)
  then set_scrollOffset m (scrollOffset (viewport m) +! 1)
  else m.

(** [pageUp] *)
Definition pageUp (m : Model) : Model :=
  let m := set_scrollOffset m
             (scrollOffset (viewport m) -! (height (viewport m) -! 2)) in
  if scrollOffset (viewport m) <? 0 then set_scrollOffset m 0 else m.

(** [pageDown] *)
Definition pageDown (m : Model) : Model :=
  let lines := totalLines (content (viewport m)) in
  let maxScroll := lines -! height (viewport m) +! 1 in
  let m := set_scrollOffset m
             (scrollOffset (viewport m) +! (height (viewport m) -! 2)) in
  if (0 <? maxScroll) && (maxScroll <? scrollOffset (viewport m))
  then set_scrollOffset m maxScroll
  else m.

(** The layout constants of the click mapping: the header is taken to be
    six lines high, and so is every article. *)
Definition headerHeight : Z := 6.
Definition itemRowHeight : Z := 6.

(** [case a, b:] of a [switch] on a string. *)
Definition is_key (key : string) (names : list string) : bool :=
  existsb (String.eqb key) names.

(** [Update]: handles a message and gives the new model. *)
Definition Update (m : Model) (msg : Msg) : Model * Cmd :=
  match msg with
  | WindowSizeMsg Width Height =>
      let m := set_windowWidth m Width in
      let m := set_windowHeight m Height in
      let m := set_height m (Height -! 4) in
      (m, CmdNil)

  | MouseMsg msg =>
      match Action msg with
      | MouseActionPress =>
          match Button msg with
          | MouseButtonWheelUp =>
              match currentView m with
              | IndexView =>
                  if 0 <? selectedIndex m
                  then (set_selectedIndex m (selectedIndex m -! 1), CmdNil)
                  else (m, CmdNil)
              | ArticleView => (scrollUp m, CmdNil)
              end
          | MouseButtonWheelDown =>
              match currentView m with
              | IndexView =>
                  if selectedIndex m <? GoInt.len (articles m) -! 1
                  then (set_selectedIndex m (selectedIndex m +! 1), CmdNil)
                  else (m, CmdNil)
              | ArticleView => (scrollDown m, CmdNil)
              end
          | MouseButtonLeft =>
              match currentView m with
              | IndexView =>
                  if 0 <? GoInt.len (articles m) then
                    if headerHeight <=? Y msg then
                      let clickedIndex := (Y msg -! headerHeight) /! itemRowHeight in
                      if (0 <=? clickedIndex)
                         && (clickedIndex <? GoInt.len (articles m))
                      then
                        let m := set_selectedIndex m clickedIndex in
                        let m := set_currentView m ArticleView in
                        (updateViewport m, CmdNil)
                      else (m, CmdNil)
                    else (m, CmdNil)
                  else (m, CmdNil)
              | ArticleView => (m, CmdNil)
              end
          | _ => (m, CmdNil)
          end
      | _ => (m, CmdNil)
      end

  | KeyMsg key =>
      if is_key key ["q"; "ctrl+c"] then (m, Quit)
      else if is_key key ["h"; "?"] then
        (set_showHelp m (negb (showHelp m)), CmdNil)
      else if is_key key ["esc"] then
        match currentView m with
        | ArticleView =>
            let m := set_currentView m IndexView in
            (updateViewport m, CmdNil)
        | IndexView => (m, CmdNil)
        end
      else if is_key key ["enter"] then
        match currentView m with
        | IndexView =>
            if (0 <? GoInt.len (articles m)) && (0 <=? selectedIndex m) then
              let m := set_currentView m ArticleView in
              (updateViewport m, CmdNil)
            else (m, CmdNil)
        | ArticleView => (m, CmdNil)
        end
      else if is_key key ["up"; "k"] then
        match currentView m with
        | IndexView =>
            if 0 <? selectedIndex m
            then (set_selectedIndex m (selectedIndex m -! 1), CmdNil)
            else (m, CmdNil)
        | ArticleView => (scrollUp m, CmdNil)
        end
      else if is_key key ["down"; "j"] then
        match currentView m with
        | IndexView =>
            if selectedIndex m <? GoInt.len (articles m) -! 1
            then (set_selectedIndex m (selectedIndex m +! 1), CmdNil)
            else (m, CmdNil)
        | ArticleView => (scrollDown m, CmdNil)
        end
      else if is_key key ["pgup"] then (pageUp m, CmdNil)
      else if is_key key ["pgdown"] then (pageDown m, CmdNil)
      else if is_key key ["home"; "g"] then
        match currentView m with
        | IndexView => (set_selectedIndex m 0, CmdNil)
        | ArticleView => (set_scrollOffset m 0, CmdNil)
        end
      else if is_key key ["end"; "G"] then
        match currentView m with
        | IndexView =>
            (set_selectedIndex m (GoInt.len (articles m) -! 1), CmdNil)
        | ArticleView =>
            (* Scroll to bottom *)
            let lines := totalLines (content (viewport m)) in
            let maxScroll := lines -! height (viewport m) +! 1 in
            if 0 <? maxScroll
            then (set_scrollOffset m maxScroll, CmdNil)
            else (m, CmdNil)
        end
      else (m, CmdNil)

  | OtherMsg => (m, CmdNil)
  end.

(* ================================================================= *)
(** ** Results of functions that can panic *)

Inductive result (A : Type) : Type :=
| Ok (a : A)
| Panic (reason : string).
Arguments Ok {A} a.
Arguments Panic {A} reason.

Definition bind {A B : Type} (r : result A) (k : A -> result B) : result B :=
  match r with
  | Ok a => k a
  | Panic reason => Panic reason
  end.

Notation "x <- r ;; k" := (bind r (fun x => k))
  (at level 61, r at next level, right associativity).

(** [l[i]] *)
Definition index {A : Type} (l : list A) (i : Z) : result A :=
  if (0 <=? i) && (i <? GoInt.len l) then
    match nth_error l (Z.to_nat i) with
    | Some a => Ok a
    | None => Panic "index out of range"
    end
  else Panic "index out of range".

(** [l[lo:hi]], for a slice as long as its capacity. *)
Definition slice {A : Type} (l : list A) (lo hi : Z) : result (list A) :=
  if (0 <=? lo) && (lo <=? hi) && (hi <=? GoInt.len l)
  then Ok (firstn (Z.to_nat (hi - lo)) (skipn (Z.to_nat lo) l))
  else Panic "slice bounds out of range".

(* ================================================================= *)
(** ** Relative time ([formatTimeAgo], [model.go]) *)

Definition formatTimeAgo `{Host} (t : time.Time) : string :=
  let now := time_Now in
  let diff := time.Sub now t in
  if diff <? time.Minute then "just now"
  else if diff <? time.Hour then
    let minutes := GoFloat.to_int (time.Minutes diff) in
    if minutes =? 1 then "1 minute ago"
    else GoInt.itoa minutes ++ " minutes ago"
  else if diff <? 24 * time.Hour then
    let hours := GoFloat.to_int (time.Hours diff) in
    if hours =? 1 then "1 hour ago"
    else GoInt.itoa hours ++ " hours ago"
  else if diff <? 7 * 24 * time.Hour then
    let days := GoFloat.to_int (PrimFloat.div (time.Hours diff) 24) in
    if days =? 1 then "1 day ago"
    else GoInt.itoa days ++ " days ago"
  else time_Format t "January 2, 2006".

(* ================================================================= *)
(** ** Image placeholders (the image helpers of package [tui]) *)

Record TerminalImageSupport : Type := mkTerminalImageSupport {
  SupportsKitty : bool;
  SupportsSixel : bool;
  SupportsITerm : bool
}.

(** [DetectImageSupport] *)
Definition DetectImageSupport `{Host} : TerminalImageSupport :=
  let kitty :=
    strings.Contains (os_Getenv "TERM") "kitty"
    || negb (os_Getenv "KITTY_WINDOW_ID" =? "")%string in
  let iterm := (os_Getenv "TERM_PROGRAM" =? "iTerm.app")%string in
  let termFeatures := os_Getenv "TERM_FEATURES" in
  let sixel := strings.Contains termFeatures "sixel" in
  mkTerminalImageSupport kitty sixel iterm.

(** [RenderImage] *)
Definition RenderImage (support : TerminalImageSupport) (imageURL : string)
  : string :=
  if (imageURL =? "")%string then ""
  else if SupportsKitty support || SupportsSixel support || SupportsITerm support
  then "
🖼️  Image: " ++ imageURL ++ "
(Terminal image rendering is detected but not yet implemented)

"
  else "
🔗 Image available: " ++ imageURL ++ "

".

(** [GetImagePlaceholder] *)
Definition GetImagePlaceholder `{Host} (imageURL : string) : string :=
  if (imageURL =? "")%string then ""
  else
    let support := DetectImageSupport in
    RenderImage support imageURL.

(* ================================================================= *)
(** ** The frames ([View] and its helpers, [model.go]) *)

(** The layout of the absolute dates. *)
Definition longLayout : string := "Monday, January 2, 2006 at 15:04".

(** The loop of [renderArticle] over the categories, on the text built
    so far. *)
Fixpoint writeCategories (i : Z) (cats : list string) (md : string) : string :=
  match cats with
  | [] => md
  | cat :: rest =>
      let md := if 0 <? i then md ++ ", " else md in
      let md := md ++ "`" ++ cat ++ "`" in
      writeCategories (i +! 1) rest md
  end.

(** The markdown document that [renderArticle] builds in [md]. *)
Definition articleMarkdown `{Host} (article : Article) : string :=
  let md := "" in
  let md := md ++ "# " ++ Title article ++ strings.nl ++ strings.nl in
  let md := md ++ "**Source:** " ++ Source article ++ strings.nl in
  let md := md ++ "**Published:** "
               ++ time_Format (Published article) longLayout
               ++ " (" ++ formatTimeAgo (Published article) ++ ")"
               ++ strings.nl in
  let md := md ++ "**URL:** " ++ Link article ++ strings.nl ++ strings.nl in
  let md :=
    if 0 <? GoInt.len (Categories article) then
      let md := md ++ "**Categories:** " in
      let md := writeCategories 0 (Categories article) md in
      md ++ strings.nl ++ strings.nl
    else md in
  let md := md ++ "---" ++ strings.nl ++ strings.nl in
  let md :=
    if negb (ImageURL article =? "")%string then
      let imagePlaceholder := GetImagePlaceholder (ImageURL article) in
      md ++ imagePlaceholder
    else md in
  if negb (Content article =? "")%string then
    md ++ Content article ++ strings.nl ++ strings.nl
  else if negb (Description article =? "")%string then
    md ++ Description article ++ strings.nl ++ strings.nl
  else md.

(** [renderScrollableContent] *)
Definition renderScrollableContent `{Host} (m : Model) : result string :=
  let lines := strings.Split (content (viewport m)) strings.newline in

  let start := scrollOffset (viewport m) in
  let end_ := start +! height (viewport m) -! 3 in

  let start := if start <? 0 then 0 else start in
  let end_ := if GoInt.len lines <? end_ then GoInt.len lines else end_ in
  let start :=
    if end_ <=? start then
      let start := end_ -! 1 in
      if start <? 0 then 0 else start
    else start in

  visible <- (if start <? GoInt.len lines then slice lines start end_
              else Ok []) ;;

  let headerStyle :=
    [StyleBold true; StyleForeground "#FFFFFF"; StyleBackground "#5F87D7";
     StylePadding [0; 2]; StyleBorderStyle "rounded";
     StyleWidth (windowWidth m -! 4); StyleAlign "center"] in

  article <- index (articles m) (selectedIndex m) ;;
  let header :=
    "ðŸ“– Article " ++ GoInt.itoa (selectedIndex m +! 1)
    ++ " of " ++ GoInt.itoa (GoInt.len (articles m))
    ++ " â€¢ " ++ Source article in

  let scrollPercent :=
    if height (viewport m) <? GoInt.len lines then
      GoFloat.to_int
        (PrimFloat.mul
           (PrimFloat.div (GoFloat.of_int start)
              (GoFloat.of_int (GoInt.len lines -! height (viewport m))))
           100)
    else 0 in

  let footerStyle :=
    [StyleForeground "#888888"; StyleBackground "#1A1A1A";
     StylePadding [0; 2]; StyleBorderStyle "rounded";
     StyleBorderForeground "#3C3C3C";
     StyleWidth (windowWidth m -! 4); StyleAlign "center"] in

  let footer :=
    "ðŸ“Š " ++ GoInt.itoa scrollPercent ++ "% â€¢ ðŸ–±ï¸ Mouse wheel supported â€¢ â¬… ESC back â€¢ â†‘/â†“ scroll â€¢ h help" in
  let footer := if showHelp m then "ðŸ–±ï¸ Mouse wheel or â†‘/â†“ j/k: scroll â€¢ PgUp/PgDn: page â€¢ g/G: top/bottom â€¢ â¬… ESC: back to index â€¢ q: quit â€¢ h: toggle help" else footer in

  Ok (lipgloss_Render headerStyle header
      ++ strings.nl ++ strings.nl
      ++ strings.Join visible strings.nl
      ++ strings.nl ++ strings.nl
      ++ lipgloss_Render footerStyle footer).

(** The content pipeline of [renderArticle], from the selection of the
    article to the assignment [m.viewport.content = rendered]: the
    markdown document is built and rendered, the document itself stands
    in when the renderer fails, and the text goes into the viewport of
    the receiver, which is a copy of the model. *)
Definition loadArticle `{Host} (m : Model) : result Model :=
  article <- index (articles m) (selectedIndex m) ;;
  let md := articleMarkdown article in
  let '(rendered, err) := Render (renderer m) md in
  let rendered :=
    match err with
    | Some _ => md   (* Fallback to plain text *)
    | None => rendered
    end in
  Ok (set_content m rendered).

(** [renderArticle]: the frame of the selected article.  The copy of the
    model that carries the rendered text is seen by
    [renderScrollableContent] and by nothing else. *)
Definition renderArticle `{Host} (m : Model) : result string :=
  if GoInt.len (articles m) <=? selectedIndex m
  then Ok "Error: Invalid article selection"
  else
    m <- loadArticle m ;;
    renderScrollableContent m.

(** [renderEmpty] *)
Definition renderEmpty `{Host} (m : Model) : string :=
  let style :=
    [StyleAlign "center"; StyleForeground "241";
     StyleHeight (windowHeight m); StyleWidth (windowWidth m)] in
  lipgloss_Render style "ðŸ“­ No articles found

Press 'q' to quit".

(** The body of the loop of [renderIndex] for the article at index [i]:
    the block of the article, appended to the builder [b]. *)
Definition renderIndexItem `{Host} (m : Model) (i : Z) (article : Article)
           (b : string) : string :=
  let isSelected := i =? selectedIndex m in

  let containerStyle :=
    [StyleWidth (windowWidth m -! 4); StyleMarginBottom 1; StylePadding [1];
     StyleBorderStyle "rounded"] in
  let containerStyle :=
    if isSelected then
      (containerStyle ++ [StyleBorderForeground "#FF6B9D";
                          StyleBackground "#2D1B4E"; StyleBold true])%list
    else
      (containerStyle ++ [StyleBorderForeground "#3C3C3C";
                          StyleBackground "#1A1A1A"])%list in

  let titleStyle := [StyleForeground "#FFFFFF"; StyleBold true] in
  let titleStyle :=
    if isSelected then (titleStyle ++ [StyleForeground "#FFB6D9"])%list
    else titleStyle in

  let metaStyle :=
    [StyleForeground "#888888"; StyleItalic true; StyleMarginTop 1] in
  let metaStyle :=
    if isSelected then (metaStyle ++ [StyleForeground "#BBBBBB"])%list
    else metaStyle in

  let descStyle := [StyleForeground "#CCCCCC"; StyleMarginTop 1] in
  let descStyle :=
    if isSelected then (descStyle ++ [StyleForeground "#EEEEEE"])%list
    else descStyle in

  let indicator := "  " in
  let indicator := if isSelected then "â–¶ " else indicator in
  let articleContent := indicator ++ lipgloss_Render titleStyle (Title article) in

  let sourceTime :=
    "ðŸ“¡ " ++ Source article
    ++ " â€¢ ðŸ•’ " ++ formatTimeAgo (Published article) in
  let articleContent :=
    articleContent ++ strings.nl ++ lipgloss_Render metaStyle sourceTime in

  let articleContent :=
    if negb (Description article =? "")%string then
      let desc := Description article in
      let desc :=
        if 120 <? Z.of_nat (String.length desc)
        then substring 0 117 desc ++ "..."
        else desc in
      articleContent ++ strings.nl
        ++ lipgloss_Render descStyle ("ðŸ’¬ " ++ desc)
    else articleContent in

  b ++ lipgloss_Render containerStyle articleContent ++ strings.nl.

(** The loop of [renderIndex] over the articles, from index [i] on. *)
Fixpoint renderIndexItems `{Host} (m : Model) (i : Z) (rest : list Article)
         (b : string) : string :=
  match rest with
  | [] => b
  | article :: rest' =>
      renderIndexItems m (i +! 1) rest' (renderIndexItem m i article b)
  end.

(** [renderIndex] *)
Definition renderIndex `{Host} (m : Model) : string :=
  let headerStyle :=
    [StyleBold true; StyleForeground "#FFFFFF"; StyleBackground "#5F87D7";
     StylePadding [1; 2]; StyleBorderStyle "rounded";
     StyleWidth (windowWidth m -! 4); StyleAlign "center"] in

  let header := "ðŸ“° " ++ title m in
  let subHeader :=
    time_Format time_Now longLayout
    ++ " â€¢ " ++ GoInt.itoa (GoInt.len (articles m))
    ++ " articles available" in

  let b := lipgloss_Render headerStyle header in
  let b := b ++ strings.nl in

  let subHeaderStyle :=
    [StyleForeground "#8888AA"; StyleAlign "center";
     StyleWidth (windowWidth m); StyleMarginBottom 1] in

  let b := b ++ lipgloss_Render subHeaderStyle subHeader in
  let b := b ++ strings.nl ++ strings.nl in

  if GoInt.len (articles m) =? 0 then
    let emptyStyle :=
      [StyleForeground "#888888"; StyleAlign "center";
       StyleWidth (windowWidth m); StylePadding [2]] in
    b ++ lipgloss_Render emptyStyle "ðŸ“­ No articles found

Press 'q' to quit"
  else
    let b := renderIndexItems m 0 (articles m) b in

    let footerStyle :=
      [StyleForeground "#888888"; StyleBackground "#1A1A1A"; StylePadding [1];
       StyleBorderStyle "rounded"; StyleBorderForeground "#3C3C3C";
       StyleWidth (windowWidth m -! 4); StyleAlign "center";
       StyleMarginTop 1] in

    let footer := "ðŸ–±ï¸  Mouse & scroll wheel supported â€¢ âŽ Enter to read â€¢ â†‘/â†“ or j/k to navigate â€¢ g/G first/last â€¢ h help â€¢ q quit" in
    let footer := if showHelp m then "ðŸ“– Navigation: â†‘/â†“ or j/k or mouse wheel â€¢ âŽ Enter: read article â€¢ ðŸ–±ï¸ Click: select & read â€¢ g/G: first/last â€¢ ESC: back â€¢ q: quit â€¢ h: toggle help" else footer in

    b ++ lipgloss_Render footerStyle footer.

(** [View]: the frame of the current view. *)
Definition View `{Host} (m : Model) : result string :=
  if GoInt.len (articles m) =? 0 then Ok (renderEmpty m)
  else
    match currentView m with
    | IndexView => Ok (renderIndex m)
    | ArticleView => renderArticle m
    end.

(* ================================================================= *)
(** ** The event loop *)

(** The model after the messages [msgs], handled in order by [Update]. *)
Definition feed (m : Model) (msgs : list Msg) : Model :=
  fold_left (fun m msg => fst (Update m msg)) msgs m.

(** One turn of the loop of [tea.Program]: [Update] gives the model that
    the program keeps, and [View], called on it, gives the frame.  [View]
    and the functions it calls have value receivers: what they assign to
    their copy of the model does not reach the model that is kept. *)
Definition turn `{Host} (m : Model) (msg : Msg) : Model * result string :=
  let m' := fst (Update m msg) in
  (m', View m').

(** The models that [Update] can reach from a model made by [NewModel]. *)
Inductive Reachable : Model -> Prop :=
| Reachable_new (r : TermRenderer + error) (arts : list Article)
                (title : string) (m : Model) :
    NewModel r arts title = inl m -> Reachable m
| Reachable_update (m : Model) (msg : Msg) :
    Reachable m -> Reachable (fst (Update m msg)).

(* ================================================================= *)
(** ** Package [tui]: the pager decision ([pager.go]) *)

(** [isTerminal]: whether standard output is a character device. *)
Definition isTerminal `{Host} : bool :=
  match os_Stdout_Stat with
  | inr _ => false
  | inl mode => negb (Z.land mode ModeCharDevice =? 0)
  end.

(** [ShouldUsePager] *)
Definition ShouldUsePager `{Host} (noPager : bool) : bool :=
  if noPager then false
  else if negb isTerminal then false
  else if negb (os_Getenv "NWCLI_NO_PAGER" =? "")%string then false
  else true.

(* ================================================================= *)
(** ** Notions of the properties *)

(** The largest scroll offset that the specification allows for a
    viewport: [max(0, totalLines(content) - height + 1)]. *)
Definition spec_maxScroll (vp : Viewport) : Z :=
  Z.max 0 (totalLines (content vp) - height vp + 1).

(** The messages that take the pager from the index to an article: the
    "enter" key on a list that is not empty with a selection, and a left
    click that the click mapping accepts. *)
Definition opens_article (m : Model) (msg : Msg) : Prop :=
  (msg = KeyMsg "enter"
   /\ 0 < GoInt.len (articles m) /\ 0 <= selectedIndex m)
  \/ (exists e : MouseEvent,
        msg = MouseMsg e
        /\ Action e = MouseActionPress /\ Button e = MouseButtonLeft
        /\ 0 < GoInt.len (articles m)
        /\ headerHeight <= Y e
        /\ 0 <= (Y e -! headerHeight) /! itemRowHeight < GoInt.len (articles m)).

(** A press of the left button at row [y]. *)
Definition leftClick (x y : Z) : Msg :=
  MouseMsg (mkMouseEvent x y MouseActionPress MouseButtonLeft).

(** The model after an accepted click on the article [i]: the article is
    selected and opened, at the top and with the height of the window
    less four. *)
Definition opened_at (m : Model) (i : Z) : Model :=
  mkModel (articles m) ArticleView i (title m) (renderer m)
          (mkViewport (content (viewport m)) 0 (windowHeight m -! 4))
          (showHelp m) (windowWidth m) (windowHeight m).

(** "[N] [unit](s) ago": the singular for [N = 1], the plural for every
    other count. *)
Definition ago (N : Z) (unit : string) : string :=
  if N =? 1 then "1 " ++ unit ++ " ago"
  else GoInt.itoa N ++ " " ++ unit ++ "s ago".

(** The counts of [formatTimeAgo] at both ends of the [k]-th unit: at
    [k] units and at one nanosecond less than [k + 1] units. *)
Definition minutes_at_the_ends (k : Z) : bool :=
  (GoFloat.to_int (time.Minutes (k * time.Minute)) =? k)
  && (GoFloat.to_int (time.Minutes ((k + 1) * time.Minute - 1)) =? k).

Definition hours_at_the_ends (k : Z) : bool :=
  (GoFloat.to_int (time.Hours (k * time.Hour)) =? k)
  && (GoFloat.to_int (time.Hours ((k + 1) * time.Hour - 1)) =? k).

Definition days_at_the_ends (k : Z) : bool :=
  (GoFloat.to_int (PrimFloat.div (time.Hours (k * (24 * time.Hour))) 24) =? k)
  && (GoFloat.to_int
        (PrimFloat.div (time.Hours ((k + 1) * (24 * time.Hour) - 1)) 24) =? k).

(** A press of a wheel button at column [x] and row [y]. *)
Definition wheel (b : MouseButton) (x y : Z) : Msg :=
  MouseMsg (mkMouseEvent x y MouseActionPress b).

(* ================================================================= *)
(** ** What standard output is connected to *)







(* ================================================================= *)
(** ** Sample data *)

Module Sample.

(** A renderer that styles nothing, and one that always fails. *)
Definition plainRenderer : TermRenderer :=
  mkTermRenderer (fun md => (md, None)).
Definition failingRenderer : TermRenderer :=
  mkTermRenderer (fun md => ("", Some (errorString "no style"))).

(** A host whose clock shows 1000 s, with a terminal on standard
    output, an empty environment and a styling that leaves the text as
    it is. *)
Definition host : Host := {|
  time_Now := time.mkTime (1000 * time.Second) "UTC";
  time_Format := fun t layout => layout;
  os_LookupEnv := fun key => None;
  os_Stdout_Stat := inl ModeCharDevice;
  lipgloss_Render := fun style text => text
|}.

(** Published 90 s and 45 s before the clock of [host]. *)
Definition ninetySecondsAgo : time.Time := time.mkTime (910 * time.Second) "UTC".
Definition fortyFiveSecondsAgo : time.Time := time.mkTime (955 * time.Second) "UTC".

Definition article : Article :=
  mkArticle "Title" "Summary" "" "https://example.org/a" ninetySecondsAgo
            "Source" "" ["news"; "tech"].

(** A model as [NewModel] makes it, with the fields given. *)
Definition model (r : TermRenderer) (arts : list Article) : Model :=
  mkModel arts IndexView (if GoInt.len arts =? 0 then -1 else 0) "News" r
          zeroViewport false 80 24.

(** Three articles, an empty list, and an article view over a text of
    a hundred lines in a viewport of twenty. *)
Definition three : Model := model plainRenderer [article; article; article].
Definition none : Model := model plainRenderer [].
Definition failing : Model := model failingRenderer [article].

Fixpoint newlines (n : nat) : string :=
  match n with
  | O => ""
  | S n' => String strings.newline (newlines n')
  end.

Definition hundredLines : Model :=
  mkModel [article] ArticleView 0 "News" plainRenderer
          (mkViewport (newlines 100) 0 20) false 80 24.

(** A renderer that makes a text of 100 lines of every document. *)
Definition hundredLineRenderer : TermRenderer :=
  mkTermRenderer (fun md => (newlines 100, None)).

End Sample.

(* ================================================================= *)
(** ** The library calls of package [news]

    What the packages [strings], [time], [encoding/json], [os] and
    [path/filepath] do for package [news]; the case mappings and the
    white space of [strings] are those of Unicode. *)

(** A decoded JSON value, as [json.Unmarshal] stores it in an
    [interface{}]; an object is a map, here the list of its entries. *)
#[local] Unset Elimination Schemes.
Inductive JSON : Type :=
| JNull
| JBool (b : bool)
| JNumber (f : float)
| JString (s : string)
| JArray (elems : list JSON)
| JObject (entries : list (string * JSON)).
#[local] Set Elimination Schemes.

Class Library : Type := {
  (** [strings.ToLower(s)] *)
  strings_ToLower : string -> string;
  (** [strings.EqualFold(s, t)] *)
  strings_EqualFold : string -> string -> bool;
  (** [strings.TrimSpace(s)] *)
  strings_TrimSpace : string -> string;
  (** [time.Parse(layout, value)] *)
  time_Parse : string -> string -> time.Time + error;
  (** [json.MarshalIndent(data, "", "  ")] of the data of the cache: the
      articles and the time of the last update *)
  json_MarshalIndent : list Article -> time.Time -> string + error;
  (** [json.Unmarshal(data, &cacheData)] into a map *)
  json_Unmarshal : string -> list (string * JSON) + error;
  (** [os.UserHomeDir()], without its error *)
  os_UserHomeDir : string;
  (** [filepath.Join(elem...)] *)
  filepath_Join : list string -> string;
  (** [os.ReadFile(name)] *)
  os_ReadFile : string -> string + error;
  (** the error of [os.WriteFile(name, data, perm)] *)
  os_WriteFile : string -> string -> option error
}.

(** The layouts [time.RFC3339] and [time.RFC3339Nano]. *)
Definition RFC3339 : string := "2006-01-02T15:04:05Z07:00".
Definition RFC3339Nano : string := "2006-01-02T15:04:05.999999999Z07:00".

(** The zero [time.Time]: January 1 of the year 1, 00:00 UTC. *)
Definition zeroTime : time.Time := time.mkTime (- 62135596800 * time.Second) "UTC".

(** [err.Error()] *)
Definition Error (e : error) : string :=
  match e with errorString msg => msg end.

(** What a function does to its surroundings, in the order of the
    calls. *)
Inductive Effect : Type :=
| Printed (text : string)
| MkdirAll (path : string)
| WriteFile (name data : string)
| Remove (name : string).

(** A [map[string]bool], which reads [false] for a missing key. *)
Definition StringSet : Type := string -> bool.
Definition emptySet : StringSet := fun _ => false.
Definition setTrue (m : StringSet) (key : string) : StringSet :=
  fun k => if (k =? key)%string then true else m k.

(** [data[key]] of a decoded JSON object. *)
Fixpoint lookup (key : string) (entries : list (string * JSON)) : option JSON :=
  match entries with
  | [] => None
  | (k, v) :: rest => if (k =? key)%string then Some v else lookup key rest
  end.

(** [v.(string)] with its [ok]. *)
Definition asString (v : option JSON) : option string :=
  match v with
  | Some (JString s) => Some s
  | _ => None
  end.

(* ================================================================= *)
(** ** Package [news]: the article cache ([cache.go]) *)

Module news.

(** [ArticleCache].  Its mutex has no part in a run of one goroutine. *)
Record ArticleCache : Type := mkArticleCache {
  articles : list Article;
  lastUpdate : time.Time;
  cacheDir : string
}.

(** [parseArticleFromMap] *)
Definition parseArticleFromMap `{Library} (data : list (string * JSON)) : Article :=
  let title :=
    match asString (lookup "title" data) with Some title => title | None => "" end in
  let desc :=
    match asString (lookup "description" data) with Some desc => desc | None => "" end in
  let content :=
    match asString (lookup "content" data) with Some content => content | None => "" end in
  let link :=
    match asString (lookup "link" data) with Some link => link | None => "" end in
  let source :=
    match asString (lookup "source" data) with Some source => source | None => "" end in
  let imageURL :=
    match asString (lookup "image_url" data) with Some imageURL => imageURL | None => "" end in
  let published :=
    match asString (lookup "published" data) with
    | Some publishedStr =>
        match time_Parse RFC3339 publishedStr with
        | inl parsed => parsed
        | inr _ => zeroTime
        end
    | None => zeroTime
    end in
  let categories :=
    match lookup "categories" data with
    | Some (JArray categoriesData) =>
        fold_left
          (fun categories cat =>
             match cat with
             | JString catStr => (categories ++ [catStr])%list
             | _ => categories
             end)
          categoriesData []
    | _ => []
    end in
  mkArticle title desc content link published source imageURL categories.

(** [saveToDisk] *)
Definition saveToDisk `{Library} (ac : ArticleCache) : list Effect :=
  let cacheFile := filepath_Join [cacheDir ac; "articles.json"] in
  match json_MarshalIndent (articles ac) (lastUpdate ac) with
  | inr err =>
      [Printed ("Warning: Failed to marshal cache data: " ++ Error err ++ strings.nl)]
  | inl jsonData =>
      WriteFile cacheFile jsonData
      :: match os_WriteFile cacheFile jsonData with
         | Some err =>
             [Printed ("Warning: Failed to save cache to disk: " ++ Error err
                     ++ strings.nl)]
         | None => []
         end
  end.

(** [loadFromDisk] *)
Definition loadFromDisk `{Library} (ac : ArticleCache)
  : ArticleCache * list Effect :=
  let cacheFile := filepath_Join [cacheDir ac; "articles.json"] in
  match os_ReadFile cacheFile with
  | inr _ => (ac, [])   (* Cache file doesn't exist or can't be read *)
  | inl data =>
      match json_Unmarshal data with
      | inr err =>
          (ac, [Printed ("Warning: Failed to unmarshal cache data: " ++ Error err
                       ++ strings.nl)])
      | inl cacheData =>
          (* Parse articles *)
          let arts :=
            match lookup "articles" cacheData with
            | Some (JArray articlesData) =>
                fold_left
                  (fun arts articleData =>
                     match articleData with
                     | JObject articleMap =>
                         (arts ++ [parseArticleFromMap articleMap])%list
                     | _ => arts
                     end)
                  articlesData (articles ac)
            | _ => articles ac
            end in
          (* Parse last update time *)
          let last :=
            match asString (lookup "last_update" cacheData) with
            | Some lastUpdateStr =>
                match time_Parse RFC3339 lastUpdateStr with
                | inl parsed => parsed
                | inr _ => lastUpdate ac
                end
            | None => lastUpdate ac
            end in
          (mkArticleCache arts last (cacheDir ac), [])
      end
  end.

(** [NewArticleCache] *)
Definition NewArticleCache `{Library} : ArticleCache * list Effect :=
  let homeDir := os_UserHomeDir in
  let cacheDir := filepath_Join [homeDir; ".nwcli"; "cache"] in
  let cache := mkArticleCache [] zeroTime cacheDir in
  let '(cache, out) := loadFromDisk cache in
  (cache, MkdirAll cacheDir :: out).

(** The second loop of [StoreArticles]: the new articles whose link is
    not in [existingMap] are appended, and their links recorded. *)
Fixpoint mergeArticles (cached : list Article) (existingMap : StringSet)
         (new : list Article) : list Article :=
  match new with
  | [] => cached
  | article :: rest =>
      if negb (existingMap (Link article))
      then mergeArticles (cached ++ [article])%list
                         (setTrue existingMap (Link article)) rest
      else mergeArticles cached existingMap rest
  end.

(** [StoreArticles] *)
Definition StoreArticles `{Host} `{Library} (ac : ArticleCache)
           (new : list Article) : ArticleCache * list Effect :=
  (* Merge with existing articles, avoiding duplicates *)
  let existingMap :=
    fold_left (fun existingMap article => setTrue existingMap (Link article))
              (articles ac) emptySet in
  let arts := mergeArticles (articles ac) existingMap new in
  let ac := mkArticleCache arts time_Now (cacheDir ac) in
  (* Save to disk *)
  (ac, saveToDisk ac).

(** Whether [SearchArticles] takes an article for the query, which is in
    lower case. *)
Definition matchesQuery `{Library} (query : string) (article : Article) : bool :=
  strings.Contains (strings_ToLower (Title article)) query
  || strings.Contains (strings_ToLower (Description article)) query
  || strings.Contains (strings_ToLower (Content article)) query.

(** The loop of [SearchArticles] over the articles that are left, with
    the matches found so far. *)
Fixpoint searchLoop `{Library} (query : string) (limit : Z)
         (rest matches : list Article) : list Article :=
  match rest with
  | [] => matches
  | article :: rest' =>
      let matches :=
        if matchesQuery query article then (matches ++ [article])%list
        else matches in
      if (0 <? limit) && (limit <=? GoInt.len matches) then matches
      else searchLoop query limit rest' matches
  end.

(** [SearchArticles] *)
Definition SearchArticles `{Library} (ac : ArticleCache) (query : string)
           (limit : Z) : list Article :=
  let query := strings_ToLower query in
  searchLoop query limit (articles ac) [].

(** [GetCachedArticles] *)
Definition GetCachedArticles (ac : ArticleCache) (limit : Z) : list Article :=
  if (0 <? limit) && (limit <? GoInt.len (articles ac))
  then firstn (Z.to_nat limit) (articles ac)
  else articles ac.

(** [IsStale]: whether the last update is more than an hour ago. *)
Definition IsStale `{Host} (ac : ArticleCache) : bool :=
  time.Hour <? time.Sub time_Now (lastUpdate ac).

(** [Clear] *)
Definition Clear `{Library} (ac : ArticleCache) : ArticleCache * list Effect :=
  (mkArticleCache [] zeroTime (cacheDir ac),
   [Remove (filepath_Join [cacheDir ac; "articles.json"])]).

End news.

(* ================================================================= *)
(** ** Notions of the properties of the cache *)

(** The links of a list of articles. *)
Definition links (arts : list Article) : list string := map Link arts.

(** [existingMap] records the links of the articles [arts]. *)
Definition tracks (m : StringSet) (arts : list Article) : Prop :=
  forall k : string, m k = true <-> In k (links arts).

(** A decoded JSON object that holds the article [a] under the keys that
    [parseArticleFromMap] reads: its texts as strings, its time as the
    string [published], its categories as an array of strings; an empty
    image URL and an empty list of categories have no entry. *)
Definition articleObject (published : string) (a : Article)
  : list (string * JSON) :=
  ([("title", JString (Title a));
    ("description", JString (Description a));
    ("content", JString (Content a));
    ("link", JString (Link a));
    ("published", JString published);
    ("source", JString (Source a))]
   ++ (if (ImageURL a =? "")%string then []
       else [("image_url", JString (ImageURL a))])
   ++ (match Categories a with
       | [] => []
       | cats => [("categories", JArray (map JString cats))]
       end))%list.

(** A decoded JSON object with the two keys that [loadFromDisk] reads:
    the array of the objects of the articles [arts] and the time of the
    last update, the times as the strings that [stamp] gives. *)
Definition cacheObject (stamp : time.Time -> string) (arts : list Article)
           (last : time.Time) : list (string * JSON) :=
  [("articles",
    JArray (map (fun a => JObject (articleObject (stamp (Published a)) a)) arts));
   ("last_update", JString (stamp last))].

(* ================================================================= *)
(** ** Sample data of package [news] *)

Module SampleNews.

(** The lower case of an ASCII letter. *)
Definition lowerASCII (c : ascii) : ascii :=
  let n := nat_of_ascii c in
  if (65 <=? n)%nat && (n <=? 90)%nat then ascii_of_nat (n + 32) else c.

Fixpoint lower (s : string) : string :=
  match s with
  | EmptyString => ""
  | String c s' => String (lowerASCII c) (lower s')
  end.

(** A library for texts in ASCII, with a cache file that cannot be read
    and times that are written as their seconds are. *)
Definition library : Library := {|
  strings_ToLower := lower;
  strings_EqualFold := fun s t => (lower s =? lower t)%string;
  strings_TrimSpace := fun s => s;
  time_Parse := fun layout value =>
    if (value =? "910")%string then inl Sample.ninetySecondsAgo
    else inr (errorString "parsing time");
  json_MarshalIndent := fun arts last => inl "{}";
  json_Unmarshal := fun data => inr (errorString "unexpected end of JSON input");
  os_UserHomeDir := "/home/reader";
  filepath_Join := fun elems => strings.Join elems "/";
  os_ReadFile := fun name => inr (errorString "no such file or directory");
  os_WriteFile := fun name data => None
|}.

(** A host that writes the times of the sample articles as "910". *)
Definition host : Host := {|
  time_Now := time.mkTime (1000 * time.Second) "UTC";
  time_Format := fun t layout => "910";
  os_LookupEnv := fun key => None;
  os_Stdout_Stat := inl ModeCharDevice;
  lipgloss_Render := fun style text => text
|}.

Definition article (link title : string) : Article :=
  mkArticle title "Summary" "" link Sample.ninetySecondsAgo "Source" "" [].

Definition first : Article := article "https://example.org/1" "Storm over Utrecht".
Definition second : Article := article "https://example.org/2" "Cup final".
Definition firstAgain : Article := article "https://example.org/1" "Storm (update)".

Definition cache : news.ArticleCache :=
  news.mkArticleCache [first] Sample.ninetySecondsAgo "/home/reader/.nwcli/cache".

(** The library on a disk whose cache file decodes to the objects of
    [first] and [second], last updated when they were published, the
    times as the string "910". *)
Definition savedLibrary : Library := {|
  strings_ToLower := lower;
  strings_EqualFold := fun s t => (lower s =? lower t)%string;
  strings_TrimSpace := fun s => s;
  time_Parse := fun layout value =>
    if (value =? "910")%string then inl Sample.ninetySecondsAgo
    else inr (errorString "parsing time");
  json_MarshalIndent := fun arts last => inl "{}";
  json_Unmarshal := fun data =>
    inl (cacheObject (fun t => "910") [first; second] Sample.ninetySecondsAgo);
  os_UserHomeDir := "/home/reader";
  filepath_Join := fun elems => strings.Join elems "/";
  os_ReadFile := fun name => inl "{}";
  os_WriteFile := fun name data => None
|}.

End SampleNews.

(* ================================================================= *)
(** ** Package [renderer]: markdown for the terminal ([markdown.go]) *)

(** The terminal as the commands find it: the result of
    [glamour.NewTermRenderer] with the options of this program, and the
    error with which a program of [bubbletea] ends its run. *)
Class Terminal : Type := {
  glamour_NewTermRenderer : TermRenderer + error;
  tea_Run : Model -> option error
}.

Module renderer.

(** [MarkdownRenderer] *)
Record MarkdownRenderer : Type := mkMarkdownRenderer {
  glamour : TermRenderer
}.

(** [NewMarkdownRenderer] *)
Definition NewMarkdownRenderer `{Terminal} : MarkdownRenderer + error :=
  match glamour_NewTermRenderer with
  | inr err =>
      inr (errorString ("failed to create glamour renderer: " ++ Error err))
  | inl r => inl (mkMarkdownRenderer r)
  end.

(** [formatTimeAgo], the copy of package [renderer]. *)
Definition formatTimeAgo `{Host} (t : time.Time) : string :=
  let now := time_Now in
  let diff := time.Sub now t in
  if diff <? time.Minute then "just now"
  else if diff <? time.Hour then
    let minutes := GoFloat.to_int (time.Minutes diff) in
    if minutes =? 1 then "1 minute ago"
    else GoInt.itoa minutes ++ " minutes ago"
  else if diff <? 24 * time.Hour then
    let hours := GoFloat.to_int (time.Hours diff) in
    if hours =? 1 then "1 hour ago"
    else GoInt.itoa hours ++ " hours ago"
  else if diff <? 7 * 24 * time.Hour then
    let days := GoFloat.to_int (PrimFloat.div (time.Hours diff) 24) in
    if days =? 1 then "1 day ago"
    else GoInt.itoa days ++ " days ago"
  else time_Format t "January 2, 2006".

(** [RenderMessage] *)
Definition RenderMessage (mr : MarkdownRenderer) (title message : string)
  : string * option error :=
  let md := "# " ++ title ++ strings.nl ++ strings.nl ++ message ++ strings.nl in
  Render (glamour mr) md.

(** The body of the loop of [RenderArticles] for the article at index
    [i], on the text built so far. *)
Definition writeArticle `{Host} (i : Z) (article : Article) (md : string)
  : string :=
  let md :=
    if 0 <? i then md ++ strings.nl ++ "---" ++ strings.nl ++ strings.nl
    else md in

  (* Article header with source and time *)
  let sourceInfo :=
    "**" ++ Source article ++ "** â€¢ "
    ++ formatTimeAgo (Published article) in

  let md := md ++ "## " ++ Title article ++ strings.nl ++ strings.nl in
  let md := md ++ "*" ++ sourceInfo ++ "*" ++ strings.nl ++ strings.nl in

  (* Image if available *)
  let md :=
    if negb (ImageURL article =? "")%string then
      md ++ "![Article Image](" ++ ImageURL article ++ ")"
         ++ strings.nl ++ strings.nl
    else md in

  (* Description/Content *)
  let md :=
    if negb (Description article =? "")%string then
      md ++ Description article ++ strings.nl ++ strings.nl
    else if negb (Content article =? "")%string then
      (* Truncate content if it's very long *)
      let content := Content article in
      let content :=
        if 500 <? Z.of_nat (String.length content)
        then substring 0 497 content ++ "..."
        else content in
      md ++ content ++ strings.nl ++ strings.nl
    else md in

  (* Categories *)
  let md :=
    if 0 <? GoInt.len (Categories article) then
      let md := md ++ "**Categories:** " in
      let md := writeCategories 0 (Categories article) md in
      md ++ strings.nl ++ strings.nl
    else md in

  (* Read more link *)
  md ++ "ðŸ”— [Read full article](" ++ Link article ++ ")" ++ strings.nl ++ strings.nl.

(** The loop of [RenderArticles], from index [i] on. *)
Fixpoint writeArticles `{Host} (i : Z) (rest : list Article) (md : string)
  : string :=
  match rest with
  | [] => md
  | article :: rest' => writeArticles (i +! 1) rest' (writeArticle i article md)
  end.

(** [RenderArticles] *)
Definition RenderArticles `{Host} (mr : MarkdownRenderer)
           (articles : list Article) (title : string) : string * option error :=
  if GoInt.len articles =? 0 then
    RenderMessage mr "ðŸ“° No articles found" "Try a different search query or check your sources."
  else
    (* Header *)
    let md := "# ðŸ“° " ++ title ++ strings.nl ++ strings.nl in
    let md := md ++ "*Updated: " ++ time_Format time_Now longLayout ++ "*"
                 ++ strings.nl ++ strings.nl in
    let md := md ++ "---" ++ strings.nl ++ strings.nl in

    (* Articles *)
    let md := writeArticles 0 articles md in

    (* Footer *)
    let md := md ++ "---" ++ strings.nl ++ strings.nl in
    let md := md ++ "*Found " ++ GoInt.itoa (GoInt.len articles)
                 ++ " articles â€¢ Generated with NWCLI*
" in

    (* Render with glamour *)
    Render (glamour mr) md.

(** The markdown document that [RenderSingleArticle] builds in [md]. *)
Definition singleArticleMarkdown `{Host} (article : Article) : string :=
  let md := "" in
  (* Title *)
  let md := md ++ "# " ++ Title article ++ strings.nl ++ strings.nl in
  (* Metadata *)
  let md := md ++ "**Source:** " ++ Source article ++ strings.nl in
  let md := md ++ "**Published:** "
               ++ time_Format (Published article) longLayout
               ++ " (" ++ formatTimeAgo (Published article) ++ ")"
               ++ strings.nl in
  let md := md ++ "**URL:** " ++ Link article ++ strings.nl ++ strings.nl in
  (* Categories *)
  let md :=
    if 0 <? GoInt.len (Categories article) then
      let md := md ++ "**Categories:** " in
      let md := writeCategories 0 (Categories article) md in
      md ++ strings.nl ++ strings.nl
    else md in
  let md := md ++ "---" ++ strings.nl ++ strings.nl in
  (* Image *)
  let md :=
    if negb (ImageURL article =? "")%string then
      md ++ "![Article Image](" ++ ImageURL article ++ ")"
         ++ strings.nl ++ strings.nl
    else md in
  (* Content *)
  if negb (Content article =? "")%string then
    md ++ Content article ++ strings.nl ++ strings.nl
  else if negb (Description article =? "")%string then
    md ++ Description article ++ strings.nl ++ strings.nl
  else md.

(** [RenderSingleArticle] *)
Definition RenderSingleArticle `{Host} (mr : MarkdownRenderer)
           (article : Article) : string * option error :=
  Render (glamour mr) (singleArticleMarkdown article).

End renderer.

(* ================================================================= *)
(** ** The commands and the pager ([pager.go], [cmd/utils.go]) *)

(** The run of the program of [bubbletea] on a model, as an effect. *)
Inductive Launch : Type := RunProgram (model : Model).

(** [LaunchTUI]: the error, and the program that was run. *)
Definition LaunchTUI `{Terminal} (articles : list Article) (title : string)
  : option error * list Launch :=
  match NewModel glamour_NewTermRenderer articles title with
  | inr err =>
      (Some (errorString ("failed to create TUI model: " ++ Error err)), [])
  | inl model => (tea_Run model, [RunProgram model])
  end.

(** [renderMarkdownWithPager]: the error, the programs that were run and
    the texts that were printed. *)
Definition renderMarkdownWithPager `{Host} `{Terminal}
           (articles : list Article) (title : string) (noPager : bool)
  : option error * list Launch * list string :=
  (* Check if we should use the TUI pager *)
  if ShouldUsePager noPager && (0 <? GoInt.len articles) then
    let '(err, launched) := LaunchTUI articles title in
    (err, launched, [])
  else
    (* Fallback to regular markdown rendering *)
    match renderer.NewMarkdownRenderer with
    | inr err =>
        (Some (errorString ("failed to create renderer: " ++ Error err)), [], [])
    | inl mr =>
        match renderer.RenderArticles mr articles title with
        | (_, Some err) =>
            (Some (errorString ("failed to render articles: " ++ Error err)),
             [], [])
        | (output, None) => (None, [], [output])
        end
    end.

(** [renderMarkdown] *)
Definition renderMarkdown `{Host} `{Terminal} (articles : list Article)
           (title : string) : option error * list Launch * list string :=
  renderMarkdownWithPager articles title false.

(* ================================================================= *)
(** ** Strings: search, slices and replacement *)

(** [strings.Index(s, substr)]: the index of the first instance of
    [substr] in [s], or [-1]. *)
Fixpoint strings_Index (s substr : string) : Z :=
  if String.prefix substr s then 0
  else match s with
       | EmptyString => -1
       | String _ s' =>
           let i := strings_Index s' substr in
           if i =? -1 then -1 else i + 1
       end.

(** [strings.HasPrefix(s, prefix)] *)
Definition strings_HasPrefix (s prefix : string) : bool := String.prefix prefix s.

(** [s[lo:hi]] of a string; [s[lo:]] is [s[lo:len(s)]] and [s[:hi]] is
    [s[0:hi]]. *)
Definition sliceString (s : string) (lo hi : Z) : result string :=
  if (0 <=? lo) && (lo <=? hi) && (hi <=? Z.of_nat (String.length s))
  then Ok (substring (Z.to_nat lo) (Z.to_nat (hi - lo)) s)
  else Panic "slice bounds out of range".

(** [strings.ReplaceAll(s, old, new)] for an [old] that is not empty:
    the instances of [old] are taken from the left and do not overlap;
    [skip] counts the bytes that are left of the instance just
    replaced. *)
Fixpoint replaceFrom (skip : nat) (s old new : string) : string :=
  match s with
  | EmptyString => ""
  | String c s' =>
      match skip with
      | S skip' => replaceFrom skip' s' old new
      | O =>
          if String.prefix old s
          then new ++ replaceFrom (String.length old - 1) s' old new
          else String c (replaceFrom 0 s' old new)
      end
  end.

Definition strings_ReplaceAll (s old new : string) : string :=
  replaceFrom 0 s old new.

(** [t.After(u)], [t.Before(u)] and [t.IsZero()]: instants are compared,
    whatever their locations. *)
Definition time_After (t u : time.Time) : bool := time.unixNano u <? time.unixNano t.
Definition time_Before (t u : time.Time) : bool := time.unixNano t <? time.unixNano u.
Definition time_IsZero (t : time.Time) : bool := time.unixNano t =? time.unixNano zeroTime.

(* ================================================================= *)
(** ** Runs of code with loops that have no bound

    A loop [for { ... }] is run for a number of rounds at most; [None]
    is the run that has not left the loop by then. *)

Definition run (A : Type) : Type := option (result A).

Definition ret {A : Type} (a : A) : run A := Some (Ok a).

Definition andThen {A B : Type} (r : run A) (k : A -> run B) : run B :=
  match r with
  | Some (Ok a) => k a
  | Some (Panic reason) => Some (Panic reason)
  | None => None
  end.

(** A call that can panic, within a run. *)
Definition call {A : Type} (r : result A) : run A := Some r.

Notation "x <~ r ;; k" := (andThen r (fun x => k))
  (at level 61, r at next level, right associativity).

(* ================================================================= *)
(** ** Package [gofeed]: the items of a feed *)

Module gofeed.

(** [ext.Extension], with the fields that are read; a map is the
    function that looks a key up. *)
Record Extension : Type := mkExtension {
  Value : string;
  Attrs : string -> option string
}.

(** [ext.Extensions], a [map[string]map[string][]Extension]. *)
Definition Extensions_ : Type := string -> option (string -> option (list Extension)).

Record Enclosure : Type := mkEnclosure {
  Enclosure_URL : string;
  Type_ : string
}.

Record Image : Type := mkImage {
  Image_URL : string
}.

(** [Item], with the fields that are read.  A pointer and a map are
    [None] when they are [nil]. *)
Record Item : Type := mkItem {
  Title : string;
  Description : string;
  Content : string;
  Link : string;
  Categories : list string;
  PublishedParsed : option time.Time;
  UpdatedParsed : option time.Time;
  Image_ : option Image;
  Extensions : option Extensions_;
  Enclosures : list Enclosure
}.

Record Feed : Type := mkFeed {
  Items : list Item
}.

End gofeed.

(** [news.Source], the record of a news source. *)
Module source.

Record Source : Type := mkSource {
  Name : string;
  URL : string;
  Description : string;
  Language : string;
  Category : string
}.

End source.

(** The feeds of the web: [parser.ParseURLWithContext(url, ctx)]. *)
Class Feeds : Type := {
  gofeed_ParseURLWithContext : string -> gofeed.Feed + error
}.

(* ================================================================= *)
(** ** Package [news]: the fetcher of the feeds *)

Module fetcher.

(** The loops of [cleanHTML] that cut a piece out of [result]: from the
    first [opening] to the end of the first [closing] after it, which is
    [n] bytes long, as long as there are both.  [rounds] bounds the
    rounds of the loop. *)
Fixpoint cutLoop (rounds : nat) (opening closing : string) (n : Z)
         (result : string) : run string :=
  match rounds with
  | O => None
  | S rounds' =>
      let start := strings_Index result opening in
      if start =? -1 then ret result
      else
        tail <~ call (sliceString result start (Z.of_nat (String.length result))) ;;
        let end_ := strings_Index tail closing in
        if end_ =? -1 then ret result
        else
          before <~ call (sliceString result 0 start) ;;
          after <~ call (sliceString result (start +! end_ +! n)
                                     (Z.of_nat (String.length result))) ;;
          cutLoop rounds' opening closing n (before ++ after)
  end.

(** The rounds that a loop of [cleanHTML] is given on [result]: every
    round makes [result] shorter. *)
Definition rounds_for (result : string) : nat := S (String.length result).

(** The last loop of [cleanHTML]: the lines that are not empty when
    trimmed. *)
Definition trimLines `{Library} (lines : list string) : list string :=
  fold_left
    (fun cleanLines line =>
       let line := strings_TrimSpace line in
       if negb (line =? "")%string then (cleanLines ++ [line])%list
       else cleanLines)
    lines [].

(** The entities that [cleanHTML] decodes, in its order. *)
Definition decodeEntities (result : string) : string :=
  let result := strings_ReplaceAll result "&amp;" "&" in
  let result := strings_ReplaceAll result "&lt;" "<" in
  let result := strings_ReplaceAll result "&gt;" ">" in
  let result := strings_ReplaceAll result "&quot;" (String "034"%char "") in
  let result := strings_ReplaceAll result "&#39;" "'" in
  let result := strings_ReplaceAll result "&nbsp;" " " in
  result.

(** [cleanHTML] *)
Definition cleanHTML `{Library} (html : string) : run string :=
  (* Simple HTML tag removal *)
  let result := html in
  (* Remove script and style tags with content *)
  result <~ cutLoop (rounds_for result) "<script" "</script>" 9 result ;;
  result <~ cutLoop (rounds_for result) "<style" "</style>" 8 result ;;
  (* Remove all other HTML tags *)
  result <~ cutLoop (rounds_for result) "<" ">" 1 result ;;
  (* Decode common HTML entities *)
  let result := decodeEntities result in
  (* Clean up whitespace *)
  let lines := strings.Split result strings.newline in
  let cleanLines := trimLines lines in
  ret (strings.Join cleanLines strings.nl).

(** The limit of a summary: [content[:297] + "..."] when
    [len(content) > 300]. *)
Definition limitLength (content : string) : string :=
  if 300 <? Z.of_nat (String.length content)
  then substring 0 297 content ++ "..."
  else content.

(** [extractContent] *)
Definition extractContent `{Library} (item : gofeed.Item) (fullContent : bool)
  : run string :=
  (* Default to description for summaries or fallback *)
  let fallback : run string :=
    if negb (gofeed.Description item =? "")%string then
      content <~ cleanHTML (gofeed.Description item) ;;
      (* For summary mode, limit length *)
      let content :=
        if negb fullContent && (300 <? Z.of_nat (String.length content))
        then substring 0 297 content ++ "..."
        else content in
      ret content
    else if negb (gofeed.Content item =? "")%string then
      (* Fallback to content if description is empty *)
      content <~ cleanHTML (gofeed.Content item) ;;
      let content :=
        if negb fullContent && (300 <? Z.of_nat (String.length content))
        then substring 0 297 content ++ "..."
        else content in
      ret content
    else ret "" in
  (* If full content is requested, try to get more detailed content *)
  if fullContent then
    (* Try content first (usually longer) *)
    if negb (gofeed.Content item =? "")%string then
      cleanHTML (gofeed.Content item)
    else
      (* For full content, also include extensions that might have more text *)
      match gofeed.Extensions item with
      | Some extensions =>
          match extensions "content" with
          | Some contentEncoded =>
              match contentEncoded "encoded" with
              | Some (encoded0 :: _) =>
                  if negb (gofeed.Value encoded0 =? "")%string
                  then cleanHTML (gofeed.Value encoded0)
                  else fallback
              | _ => fallback
              end
          | None => fallback
          end
      | None => fallback
      end
  else fallback.

(** The loop of [extractImageFromExtensions] over the enclosures. *)
Fixpoint imageEnclosure (enclosures : list gofeed.Enclosure) : string :=
  match enclosures with
  | [] => ""
  | enc :: rest =>
      if strings_HasPrefix (gofeed.Type_ enc) "image/"
      then gofeed.Enclosure_URL enc
      else imageEnclosure rest
  end.

(** [extractImageFromExtensions] *)
Definition extractImageFromExtensions (item : gofeed.Item) : string :=
  (* Try media:thumbnail or media:content *)
  let fromMedia : option string :=
    match gofeed.Extensions item with
    | Some extensions =>
        match extensions "media" with
        | Some media =>
            let fromThumbnail :=
              match media "thumbnail" with
              | Some (thumbnail0 :: _) => gofeed.Attrs thumbnail0 "url"
              | _ => None
              end in
            match fromThumbnail with
            | Some url => Some url
            | None =>
                match media "content" with
                | Some (content0 :: _) => gofeed.Attrs content0 "url"
                | _ => None
                end
            end
        | None => None
        end
    | None => None
    end in
  match fromMedia with
  | Some url => url
  | None =>
      (* Try to extract from enclosures *)
      if 0 <? GoInt.len (gofeed.Enclosures item)
      then imageEnclosure (gofeed.Enclosures item)
      else ""
  end.

(** [cleanDescription] *)
Definition cleanDescription `{Library} (desc : string) : run string :=
  (* Remove HTML tags *)
  cleaned <~ cleanHTML desc ;;
  (* Limit length *)
  let cleaned := limitLength cleaned in
  ret (strings_TrimSpace cleaned).

(** The article that [FetchFromSource] makes of an item. *)
Definition articleOf `{Host} `{Library} (source : source.Source)
           (fullContent : bool) (item : gofeed.Item) : run Article :=
  content <~ extractContent item fullContent ;;
  (* Parse published date *)
  let published :=
    match gofeed.PublishedParsed item with
    | Some t => t
    | None =>
        match gofeed.UpdatedParsed item with
        | Some t => t
        | None => time_Now
        end
    end in
  (* Extract image URL *)
  let imageURL :=
    match gofeed.Image_ item with
    | Some image =>
        if negb (gofeed.Image_URL image =? "")%string
        then gofeed.Image_URL image
        else extractImageFromExtensions item
    | None =>
        (* Try to find image in extensions *)
        extractImageFromExtensions item
    end in
  (* Clean up description *)
  description <~ cleanDescription (gofeed.Description item) ;;
  ret (mkArticle (gofeed.Title item) description content (gofeed.Link item)
                 published (source.Name source) imageURL
                 (gofeed.Categories item)).

(** The loop of [FetchFromSource] over the items. *)
Fixpoint fetchItems `{Host} `{Library} (source : source.Source)
         (fullContent : bool) (items : list gofeed.Item)
         (articles : list Article) : run (list Article) :=
  match items with
  | [] => ret articles
  | item :: rest =>
      article <~ articleOf source fullContent item ;;
      fetchItems source fullContent rest (articles ++ [article])%list
  end.

(** [FetchFromSource] *)
Definition FetchFromSource `{Host} `{Library} `{Feeds}
           (source : source.Source) (fullContent : bool)
  : run (list Article + error) :=
  match gofeed_ParseURLWithContext (source.URL source) with
  | inr err =>
      ret (inr (errorString ("failed to parse RSS feed from "
                             ++ source.Name source ++ ": " ++ Error err)))
  | inl feed =>
      articles <~ fetchItems source fullContent (gofeed.Items feed) [] ;;
      ret (inl articles)
  end.

End fetcher.

(* ================================================================= *)
(** ** Package [news]: the news service *)

(** [sort.Slice(x, less)] on articles: the slice it leaves, for a
    [less] that compares two elements. *)
Class Sorting : Type := {
  sort_Slice : list Article -> (Article -> Article -> bool) -> list Article
}.

Module service.

(** [NewsService].  Its fetcher holds the parser and the client of
    the web, which are with [Feeds]; its cache is the value behind the
    pointer. *)
Record NewsService : Type := mkNewsService {
  sources : list source.Source;
  cache : news.ArticleCache;
  country : string;
  fullContent : bool
}.

Definition set_cache (ns : NewsService) (c : news.ArticleCache) : NewsService :=
  mkNewsService (sources ns) c (country ns) (fullContent ns).

(** The loop of [GetLatestNews] over the sources that are left, with the
    articles fetched and the warnings printed so far. *)
Fixpoint fetchSources `{Host} `{Library} `{Feeds}
         (rest : list source.Source) (fullContent : bool)
         (allArticles : list Article) (out : list Effect)
  : run (list Article * list Effect) :=
  match rest with
  | [] => ret (allArticles, out)
  | source :: rest' =>
      fetched <~ fetcher.FetchFromSource source fullContent ;;
      match fetched with
      | inr err =>
          fetchSources rest' fullContent allArticles
            (out ++ [Printed ("Warning: Failed to fetch from "
                              ++ source.Name source ++ ": " ++ Error err
                              ++ strings.nl)])%list
      | inl articles =>
          fetchSources rest' fullContent (allArticles ++ articles)%list out
      end
  end.

(** [allArticles[:limit]] under [limit > 0 && len(allArticles) > limit]. *)
Definition applyLimit (articles : list Article) (limit : Z) : list Article :=
  if (0 <? limit) && (limit <? GoInt.len articles)
  then firstn (Z.to_nat limit) articles
  else articles.

(** [GetLatestNews]: the articles and the error, the service with its
    cache as it is left, and what was printed and written. *)
Definition GetLatestNews `{Host} `{Library} `{Feeds} `{Sorting}
           (ns : NewsService) (limit : Z)
  : run (list Article * option error * NewsService * list Effect) :=
  fetched <~ fetchSources (sources ns) (fullContent ns) [] [] ;;
  let '(allArticles, out) := fetched in
  (* Sort by published date (newest first) *)
  let allArticles :=
    sort_Slice allArticles
               (fun a b => time_After (Published a) (Published b)) in
  (* Apply limit *)
  let allArticles := applyLimit allArticles limit in
  (* Cache articles *)
  let '(cache, saved) := news.StoreArticles (cache ns) allArticles in
  ret (allArticles, None, set_cache ns cache, (out ++ saved)%list).

(** [SearchArticles] of the service *)
Definition SearchArticles `{Host} `{Library} `{Feeds} `{Sorting}
           (ns : NewsService) (query : string) (limit : Z)
  : run (list Article * option error * NewsService * list Effect) :=
  (* First try from cache *)
  let cached := news.SearchArticles (cache ns) query limit in
  if 0 <? GoInt.len cached then ret (cached, None, ns, [])
  else
    (* Fetch fresh articles and search *)
    latest <~ GetLatestNews ns 0 ;;
    let '(articles, err, ns, out) := latest in
    match err with
    | Some err => ret ([], Some err, ns, out)
    | None =>
        let query := strings_ToLower query in
        let matches :=
          fold_left
            (fun matches article =>
               if strings.Contains (strings_ToLower (Title article)) query
                  || strings.Contains (strings_ToLower (Description article)) query
                  || strings.Contains (strings_ToLower (Content article)) query
               then (matches ++ [article])%list
               else matches)
            articles [] in
        (* Apply limit *)
        let matches := applyLimit matches limit in
        ret (matches, None, ns, out)
    end.

(** The loop of [FilterArticles] over the categories of an article:
    whether one is [category], whatever the case of the letters. *)
Fixpoint foundCategory `{Library} (categories : list string) (category : string)
  : bool :=
  match categories with
  | [] => false
  | cat :: rest =>
      if strings_EqualFold cat category then true
      else foundCategory rest category
  end.

(** [FilterArticles] *)
Definition FilterArticles `{Host} `{Library} `{Feeds} `{Sorting}
           (ns : NewsService) (sourceName category : string)
           (since : time.Time) (limit : Z)
  : run (list Article * option error * NewsService * list Effect) :=
  latest <~ GetLatestNews ns 0 ;;
  let '(articles, err, ns, out) := latest in
  match err with
  | Some err => ret ([], Some err, ns, out)
  | None =>
      let filtered :=
        fold_left
          (fun filtered article =>
             (* Filter by source *)
             if negb (sourceName =? "")%string
                && negb (strings_EqualFold (Source article) sourceName)
             then filtered
             (* Filter by time *)
             else if negb (time_IsZero since)
                     && time_Before (Published article) since
             then filtered
             (* Filter by category *)
             else if negb (category =? "")%string
                     && negb (foundCategory (Categories article) category)
             then filtered
             else (filtered ++ [article])%list)
          articles [] in
      (* Apply limit *)
      let filtered := applyLimit filtered limit in
      ret (filtered, None, ns, out)
  end.

(** [GetSources] *)
Definition GetSources (ns : NewsService) : list source.Source := sources ns.

End service.

(* ================================================================= *)
(** ** Notions of the properties of the fetcher *)

(** A string of Go: its length is an [int]. *)
Definition of_Go (s : string) : Prop := GoInt.is_int (Z.of_nat (String.length s)).

(** [result[start:]], where the slice is in range. *)
Definition from (start : Z) (result : string) : string :=
  substring (Z.to_nat start) (String.length result - Z.to_nat start) result.

(** A loop of [cleanHTML] has nothing to cut in [result]: no [opening],
    or no [closing] from the first [opening] on. *)
Definition nothing_to_cut (opening closing result : string) : Prop :=
  strings_Index result opening = -1
  \/ strings_Index (from (strings_Index result opening) result) closing = -1.

(** What [FetchFromSource] makes of an item in summary mode. *)
Definition summary_of (source : source.Source) (item : gofeed.Item)
           (article : Article) : Prop :=
  Title article = gofeed.Title item
  /\ Link article = gofeed.Link item
  /\ Categories article = gofeed.Categories item
  /\ Source article = source.Name source
  /\ (String.length (Content article) <= 300)%nat
  /\ (String.length (Description article) <= 300)%nat.

(* ================================================================= *)
(** ** Notions of the properties of the service *)

(** The articles of the sources that were fetched, in the order of the
    sources. *)
Definition fetchedArticles (results : list (list Article + error)) : list Article :=
  concat (map (fun r => match r with inl articles => articles | inr _ => [] end)
              results).

(** The warnings for the sources that were not fetched, in the order of
    the sources. *)
Fixpoint warnings (sources : list source.Source)
         (results : list (list Article + error)) : list Effect :=
  match sources, results with
  | source :: sources', inr err :: results' =>
      Printed ("Warning: Failed to fetch from " ++ source.Name source ++ ": "
               ++ Error err ++ strings.nl)
      :: warnings sources' results'
  | _ :: sources', inl _ :: results' => warnings sources' results'
  | _, _ => []
  end.

(** The order of [GetLatestNews]: the newer article first. *)
Definition newerFirst (a b : Article) : bool :=
  time_After (Published a) (Published b).

(** An article passes the criteria of [FilterArticles]: every criterion
    that is given holds of it. *)
Definition passes `{Library} (sourceName category : string) (since : time.Time)
           (a : Article) : bool :=
  ((sourceName =? "")%string || strings_EqualFold (Source a) sourceName)
  && (time_IsZero since || negb (time_Before (Published a) since))
  && ((category =? "")%string
      || existsb (fun cat => strings_EqualFold cat category) (Categories a)).

(* ================================================================= *)
(** ** Sample data of the fetcher *)

Module SampleFeed.

Definition source : source.Source :=
  source.mkSource "NOS" "https://feeds.example.org/nos.xml" "General news" "nl" "general".

Definition item : gofeed.Item :=
  gofeed.mkItem "Storm over Utrecht"
                "<p>Trees <b>down</b> &amp; roads closed</p>" ""
                "https://example.org/1" ["weather"]
                (Some Sample.ninetySecondsAgo) None None None [].

Definition feeds : Feeds := {|
  gofeed_ParseURLWithContext := fun url =>
    if (url =? "https://feeds.example.org/nos.xml")%string
    then inl (gofeed.mkFeed [item])
    else inr (errorString "no such host")
|}.

End SampleFeed.

(* ================================================================= *)
(** ** Sample data of the service *)

Module SampleService.

(** Sorting by insertion. *)
Fixpoint insert (less : Article -> Article -> bool) (a : Article)
         (sorted : list Article) : list Article :=
  match sorted with
  | [] => [a]
  | b :: rest => if less a b then a :: b :: rest else b :: insert less a rest
  end.

Definition sorting : Sorting := {|
  sort_Slice := fun x less => fold_right (insert less) [] x
|}.

Definition unreachable : source.Source :=
  source.mkSource "NU.nl" "https://feeds.example.org/nu.xml" "Latest news" "nl" "general".

(** A service with nothing cached, one source that answers and one that
    does not. *)
Definition ns : service.NewsService :=
  service.mkNewsService [SampleFeed.source; unreachable]
    (news.mkArticleCache [] zeroTime "/home/reader/.nwcli/cache") "nl" false.

(** A service with an article cached. *)
Definition cached : service.NewsService :=
  service.mkNewsService [SampleFeed.source; unreachable] SampleNews.cache "nl" false.

(** What the two sources give in summary mode. *)
Definition results : list (list Article + error) :=
  [inl [mkArticle "Storm over Utrecht" "Trees down & roads closed"
                  "Trees down & roads closed" "https://example.org/1"
                  Sample.ninetySecondsAgo "NOS" "" ["weather"]];
   inr (errorString "failed to parse RSS feed from NU.nl: no such host")].

End SampleService.

(* ================================================================= *)
(** * Properties *)

(** ** Arithmetic of Go integers *)

Lemma wrap_small (z : Z) : GoInt.is_int z -> GoInt.wrap z = z.
Proof.
  unfold GoInt.is_int, GoInt.wrap, GoInt.minInt, GoInt.maxInt. intros Hz.
  rewrite Z.mod_small; lia.
Qed.

Lemma wrap_is_int (z : Z) : GoInt.is_int (GoInt.wrap z).
Proof.
  unfold GoInt.is_int, GoInt.wrap, GoInt.minInt, GoInt.maxInt.
  pose proof (Z.mod_pos_bound (z + 2 ^ 63) (2 ^ 64) ltac:(lia)). lia.
Qed.

Lemma add_small (a b : Z) : GoInt.is_int (a + b) -> a +! b = a + b.
Proof. apply wrap_small. Qed.

Lemma sub_small (a b : Z) : GoInt.is_int (a - b) -> a -! b = a - b.
Proof. apply wrap_small. Qed.

Lemma len_nonneg {A : Type} (l : list A) : 0 <= GoInt.len l.
Proof. unfold GoInt.len. lia. Qed.

(** Closes the side conditions on the range of Go integers. *)
Ltac int_range :=
  unfold GoInt.is_int, GoInt.minInt, GoInt.maxInt in *; lia.

(** Splits the goal along every [match] and [if] of the code in it. *)
Ltac split_cases :=
  repeat match goal with
         | |- context [match ?x with _ => _ end] => destruct x eqn:?
         end.

(** ** The event loop *)

Lemma feed_cons (m : Model) (msg : Msg) (msgs : list Msg) :
  feed m (msg :: msgs) = feed (fst (Update m msg)) msgs.
Proof. reflexivity. Qed.

Lemma Reachable_feed (m : Model) (msgs : list Msg) :
  Reachable m -> Reachable (feed m msgs).
Proof.
  revert m. induction msgs as [| msg msgs IH]; intros m Hm.
  - exact Hm.
  - rewrite feed_cons. apply IH. now apply Reachable_update.
Qed.

Lemma Reachable_sample (r : TermRenderer) (arts : list Article) :
  Reachable (Sample.model r arts).
Proof. apply (Reachable_new (inl r) arts "News"). reflexivity. Qed.

(* ================================================================= *)
(** ** C1: the scroll offset and its bound *)

(** C1, at a model that the program reaches: a list of one article, the
    default window of 24 rows, the article opened with "enter" and then
    one "pgdown".  The stored text has no line and the viewport is 20
    high, so the bound [max(0, totalLines(content) - height + 1)] is 0;
    [pageDown] adds [height - 2 = 18] and clamps only when its own
    [maxScroll] is positive, which leaves the offset at 18, above the
    bound. *)
Theorem pageDown_passes_the_bound :
  let m := feed (Sample.model Sample.plainRenderer [Sample.article])
                [KeyMsg "enter"; KeyMsg "pgdown"] in
  totalLines (content (viewport m)) = 0
  /\ height (viewport m) = 20
  /\ spec_maxScroll (viewport m) = 0
  /\ scrollOffset (viewport m) = 18
  /\ ~ (0 <= scrollOffset (viewport m) <= spec_maxScroll (viewport m)).
Proof.
  vm_compute. repeat split; try reflexivity.
  intros [_ H]. apply H. reflexivity.
Qed.

(* ================================================================= *)
(** ** C2: the selected index of an empty list *)

(** C2, at the empty list: [NewModel] selects -1, and "home" then selects
    0 although there is still no article.  The keyboard-only variant of
    [NewModel] selects 0 in the empty list from the start. *)
Theorem home_selects_0_in_empty_list :
  NewModel (inl Sample.plainRenderer) [] "News" = inl Sample.none
  /\ articles Sample.none = []
  /\ selectedIndex Sample.none = -1
  /\ articles (fst (Update Sample.none (KeyMsg "home"))) = []
  /\ selectedIndex (fst (Update Sample.none (KeyMsg "home"))) = 0
  /\ selectedIndex (fst (Update Sample.none (KeyMsg "g"))) = 0
  /\ (exists m : Model,
        NewModel_basic (inl Sample.plainRenderer) [] "News" = inl m
        /\ articles m = [] /\ selectedIndex m = 0).
Proof.
  repeat split; try reflexivity.
  eexists. repeat split; reflexivity.
Qed.

(** For a list that is not empty the selection stays an index of the
    list, whatever the message. *)
Lemma Update_keeps_selection_in_range (m : Model) (msg : Msg) :
  GoInt.is_int (GoInt.len (articles m)) ->
  0 <= selectedIndex m < GoInt.len (articles m) ->
  0 <= selectedIndex (fst (Update m msg)) < GoInt.len (articles m).
Proof.
  intros Hlen Hsel.
  assert (Hadd : selectedIndex m +! 1 = selectedIndex m + 1)
    by (apply add_small; int_range).
  assert (Hsub : selectedIndex m -! 1 = selectedIndex m - 1)
    by (apply sub_small; int_range).
  assert (Hlast : GoInt.len (articles m) -! 1 = GoInt.len (articles m) - 1)
    by (apply sub_small; int_range).
  unfold Update, updateViewport, scrollUp, scrollDown, pageUp, pageDown.
  split_cases; cbn; rewrite ?Hadd, ?Hsub, ?Hlast in *; try lia.
  all: cbn in *; lia.
Qed.

(* ================================================================= *)
(** ** Paging down a stored text of 100 lines in a viewport of 20 *)

Lemma Update_pgdown (m : Model) :
  Update m (KeyMsg "pgdown") = (pageDown m, CmdNil).
Proof. reflexivity. Qed.

(** The viewport that [pageDown] leaves. *)
Lemma pageDown_viewport (m : Model) :
  viewport (pageDown m)
  = let maxScroll :=
      totalLines (content (viewport m)) -! height (viewport m) +! 1 in
    let moved := scrollOffset (viewport m) +! (height (viewport m) -! 2) in
    mkViewport (content (viewport m))
               (if (0 <? maxScroll) && (maxScroll <? moved)
                then maxScroll else moved)
               (height (viewport m)).
Proof.
  unfold pageDown. cbv zeta.
  unfold set_scrollOffset, set_viewport. cbn [viewport scrollOffset height content].
  destruct ((0 <? totalLines (content (viewport m)) -! height (viewport m) +! 1)
            && (totalLines (content (viewport m)) -! height (viewport m) +! 1
                <? scrollOffset (viewport m) +! (height (viewport m) -! 2)));
    reflexivity.
Qed.

(** One "pgdown" on such a viewport whose offset is within the bound:
    the offset moves by 18 and stops at 81; the text and the height
    stay. *)
Lemma pgdown_step (m : Model) :
  totalLines (content (viewport m)) = 100 ->
  height (viewport m) = 20 ->
  0 <= scrollOffset (viewport m) <= 81 ->
  let m' := fst (Update m (KeyMsg "pgdown")) in
  totalLines (content (viewport m')) = 100
  /\ height (viewport m') = 20
  /\ scrollOffset (viewport m') = Z.min (scrollOffset (viewport m) + 18) 81.
Proof.
  intros HL HH Hs. cbv zeta. rewrite Update_pgdown. cbn [fst].
  rewrite pageDown_viewport. cbv zeta. cbn [content height scrollOffset].
  rewrite HL, HH.
  replace (100 -! 20 +! 1) with 81 by (vm_compute; reflexivity).
  replace (20 -! 2) with 18 by (vm_compute; reflexivity).
  rewrite (add_small _ 18) by int_range.
  split; [reflexivity |]. split; [reflexivity |].
  replace (0 <? 81) with true by reflexivity. cbn [andb].
  destruct (Z.ltb_spec 81 (scrollOffset (viewport m) + 18)); lia.
Qed.

Lemma pgdown_steps (n : nat) : forall m : Model,
  totalLines (content (viewport m)) = 100 ->
  height (viewport m) = 20 ->
  0 <= scrollOffset (viewport m) <= 81 ->
  let m' := feed m (repeat (KeyMsg "pgdown") n) in
  totalLines (content (viewport m')) = 100
  /\ height (viewport m') = 20
  /\ scrollOffset (viewport m')
     = Z.min (scrollOffset (viewport m) + 18 * Z.of_nat n) 81.
Proof.
  induction n as [| n IH]; intros m HL HH Hs.
  - cbn. repeat split; try assumption. lia.
  - destruct (pgdown_step m HL HH Hs) as (HL' & HH' & Hs').
    cbn [repeat]. rewrite feed_cons.
    destruct (IH (fst (Update m (KeyMsg "pgdown"))) HL' HH') as (HL2 & HH2 & Hs2).
    + rewrite Hs'. lia.
    + cbv zeta. repeat split; try assumption.
      rewrite Hs2, Hs'. lia.
Qed.

(** What [pageDown] would do on a model that held the text: from the top
    of a stored text of 100 lines in a viewport of 20, five page downs
    or more stop at [100 - 20 + 1 = 81]. *)
Remark stored_text_would_stop_at_81 (n : nat) :
  (5 <= n)%nat ->
  scrollOffset (viewport (feed Sample.hundredLines (repeat (KeyMsg "pgdown") n)))
  = 81.
Proof.
  intros Hn.
  destruct (pgdown_steps n Sample.hundredLines) as (_ & _ & Hs);
    [reflexivity | reflexivity | cbn; lia |].
  rewrite Hs. cbn [Sample.hundredLines viewport scrollOffset]. lia.
Qed.

(* ================================================================= *)
(** ** C4: the text stored in the model *)

(** No path of [Update] assigns the text of the viewport. *)
Lemma Update_keeps_content (m : Model) (msg : Msg) :
  content (viewport (fst (Update m msg))) = content (viewport m).
Proof.
  unfold Update, updateViewport, scrollUp, scrollDown, pageUp, pageDown.
  split_cases; reflexivity.
Qed.

(** The height that [Update] stores is a Go integer. *)
Lemma Update_keeps_height_int (m : Model) (msg : Msg) :
  GoInt.is_int (height (viewport m)) ->
  GoInt.is_int (height (viewport (fst (Update m msg)))).
Proof.
  intros Hh.
  unfold Update, updateViewport, scrollUp, scrollDown, pageUp, pageDown.
  split_cases; cbn; try exact Hh; apply wrap_is_int.
Qed.

Lemma Reachable_content (m : Model) :
  Reachable m -> content (viewport m) = "".
Proof.
  induction 1 as [r arts title m Hnew | m msg _ IH].
  - unfold NewModel in Hnew. destruct r as [r | [e]]; [| discriminate].
    injection Hnew as <-. reflexivity.
  - now rewrite Update_keeps_content.
Qed.

Lemma Reachable_height_int (m : Model) :
  Reachable m -> GoInt.is_int (height (viewport m)).
Proof.
  induction 1 as [r arts title m Hnew | m msg _ IH].
  - unfold NewModel in Hnew. destruct r as [r | [e]]; [| discriminate].
    injection Hnew as <-. cbn. int_range.
  - now apply Update_keeps_height_int.
Qed.

(** With no text and a height of one line or more, the [maxScroll] of
    [scrollDown] and of the "end" key is not positive. *)
Lemma maxScroll_of_empty_content (h : Z) :
  GoInt.is_int h -> 1 <= h -> totalLines "" -! h +! 1 <= 0.
Proof.
  intros Hh H1. change (totalLines "") with 0.
  rewrite (sub_small 0 h) by int_range.
  rewrite add_small by int_range. lia.
Qed.

Lemma scrollDown_of_empty_content (m : Model) :
  content (viewport m) = "" ->
  GoInt.is_int (height (viewport m)) ->
  1 <= height (viewport m) ->
  scrollDown m = m.
Proof.
  intros Hc Hh H1. unfold scrollDown. rewrite Hc.
  pose proof (maxScroll_of_empty_content _ Hh H1) as Hmax.
  destruct (Z.ltb_spec 0 (totalLines "" -! height (viewport m) +! 1)); [lia |].
  reflexivity.
Qed.

(** C4, as the code has it.  Every model that [Update] reaches from
    [NewModel] stores the empty text, also after a turn of the loop in
    which [View] rendered an article: the rendered text goes to the copy
    of the model that [renderArticle] receives.  Consequently, as long as
    the stored height is one line or more, scrolling down by a line
    ("down", "j", wheel down) and jumping to the bottom ("end", "G") in
    the article view leave the stored model, and so its scroll offset, as
    they were. *)
Theorem stored_content_stays_empty (m : Model) :
  Reachable m ->
  content (viewport m) = ""
  /\ (forall (H : Host) (msg : Msg),
        fst (turn m msg) = fst (Update m msg)
        /\ content (viewport (fst (turn m msg))) = "")
  /\ (1 <= height (viewport m) ->
      currentView m = ArticleView ->
      scrollDown m = m
      /\ (forall key : string,
            In key ["down"; "j"; "end"; "G"] ->
            fst (Update m (KeyMsg key)) = m)
      /\ (forall x y : Z,
            fst (Update m (MouseMsg (mkMouseEvent x y MouseActionPress
                                                  MouseButtonWheelDown))) = m)).
Proof.
  intros Hm.
  pose proof (Reachable_content m Hm) as Hc.
  pose proof (Reachable_height_int m Hm) as Hh.
  split; [exact Hc |]. split.
  - intros H msg. split; [reflexivity |].
    apply Reachable_content. cbn. now apply Reachable_update.
  - intros H1 Hv.
    pose proof (scrollDown_of_empty_content m Hc Hh H1) as Hdown.
    pose proof (maxScroll_of_empty_content _ Hh H1) as Hmax.
    assert (Hend : (0 <? totalLines "" -! height (viewport m) +! 1) = false)
      by (apply Z.ltb_ge; exact Hmax).
    split; [exact Hdown |]. split.
    + intros key Hin. cbn in Hin.
      destruct Hin as [<- | [<- | [<- | [<- | []]]]]; cbn; rewrite Hv; cbn;
        try exact Hdown; rewrite Hc, Hend; reflexivity.
    + intros x y. cbn. rewrite Hv. exact Hdown.
Qed.

Lemma stored_content_stays_empty_witness :
  let m := feed (Sample.model Sample.plainRenderer [Sample.article])
                [KeyMsg "enter"] in
  Reachable m
  /\ content (viewport m) = ""
  /\ content (viewport (fst (@turn Sample.host m (KeyMsg "down")))) = ""
  /\ (exists shown : Model,
        @loadArticle Sample.host m = Ok shown
        /\ content (viewport shown) <> "")
  /\ height (viewport m) = 20
  /\ currentView m = ArticleView
  /\ fst (Update m (KeyMsg "down")) = m
  /\ fst (Update m (KeyMsg "end")) = m.
Proof.
  cbv zeta.
  assert (Hm : Reachable (feed (Sample.model Sample.plainRenderer [Sample.article])
                               [KeyMsg "enter"]))
    by apply Reachable_feed, Reachable_sample.
  destruct (stored_content_stays_empty _ Hm) as (Hc & Hturn & Hstay).
  split; [exact Hm |]. split; [exact Hc |].
  split; [apply (Hturn Sample.host) |].
  split; [eexists; split; [reflexivity | vm_compute; discriminate] |].
  split; [reflexivity |]. split; [reflexivity |].
  destruct Hstay as (_ & Hkeys & _); [cbn; lia | reflexivity |].
  split; apply Hkeys; cbn; tauto.
Defined.

(** C4 as it is worded fails where the window has four rows or fewer.
    The article is opened in the default window and paged down once
    (offset 18); the window then shrinks to four rows, which makes the
    stored height 0; "end" now moves the stored offset to 1.  In a
    window of four rows from the start, "down" moves the offset of the
    opened article from 0 to 1. *)
Lemma jump_to_bottom_moves_the_offset :
  let start := Sample.model Sample.plainRenderer [Sample.article] in
  let m := feed start [KeyMsg "enter"; KeyMsg "pgdown"; WindowSizeMsg 80 4] in
  let m4 := feed start [WindowSizeMsg 80 4; KeyMsg "enter"] in
  (Reachable m /\ currentView m = ArticleView /\ content (viewport m) = ""
   /\ scrollOffset (viewport m) = 18
   /\ scrollOffset (viewport (fst (Update m (KeyMsg "end")))) = 1
   /\ scrollOffset (viewport (fst (Update m (KeyMsg "end"))))
      <> scrollOffset (viewport m))
  /\ (Reachable m4 /\ currentView m4 = ArticleView /\ content (viewport m4) = ""
      /\ scrollOffset (viewport m4) = 0
      /\ scrollOffset (viewport (fst (Update m4 (KeyMsg "down")))) = 1
      /\ scrollOffset (viewport (scrollDown m4)) <> scrollOffset (viewport m4)).
Proof.
  cbv zeta. split.
  - split; [apply Reachable_feed, Reachable_sample |].
    repeat split; try reflexivity. vm_compute. discriminate.
  - split; [apply Reachable_feed, Reachable_sample |].
    repeat split; try reflexivity. vm_compute. discriminate.
Qed.

(* ================================================================= *)
(** ** C5: entering the article view *)

Lemma is_key_singleton (key name : string) :
  is_key key [name] = true -> key = name.
Proof.
  unfold is_key. cbn. rewrite orb_false_r. apply String.eqb_eq.
Qed.

(** Whenever [Update] takes a model from the index view to the article
    view, the new model has scroll offset 0 and the message is one that
    opens an article. *)
Lemma article_entered_at_the_top (m : Model) (msg : Msg) :
  currentView m = IndexView ->
  currentView (fst (Update m msg)) = ArticleView ->
  scrollOffset (viewport (fst (Update m msg))) = 0
  /\ opens_article m msg.
Proof.
  intros Hv. unfold Update, updateViewport, opens_article.
  rewrite Hv. destruct msg as [w h | e | key |].
  - cbn. rewrite Hv. discriminate.
  - destruct (Action e) eqn:Ha; cbn; try (rewrite Hv; discriminate).
    destruct (Button e) eqn:Hb; cbn; try (rewrite Hv; discriminate).
    + destruct (Z.ltb_spec 0 (GoInt.len (articles m)));
        [| cbn; rewrite Hv; discriminate].
      destruct (Z.leb_spec headerHeight (Y e));
        [| cbn; rewrite Hv; discriminate].
      destruct (Z.leb_spec 0 ((Y e -! headerHeight) /! itemRowHeight));
        [| cbn; rewrite Hv; discriminate].
      destruct (Z.ltb_spec ((Y e -! headerHeight) /! itemRowHeight)
                           (GoInt.len (articles m)));
        [| cbn; rewrite Hv; discriminate].
      cbn. intros _. split; [reflexivity |].
      right. exists e. repeat split; assumption.
    + destruct (0 <? selectedIndex m); cbn; rewrite Hv; discriminate.
    + destruct (selectedIndex m <? GoInt.len (articles m) -! 1); cbn;
        rewrite Hv; discriminate.
  - destruct (is_key key ["q"; "ctrl+c"]); [cbn; rewrite Hv; discriminate |].
    destruct (is_key key ["h"; "?"]); [cbn; rewrite Hv; discriminate |].
    destruct (is_key key ["esc"]); [cbn; rewrite Hv; discriminate |].
    destruct (is_key key ["enter"]) eqn:Henter.
    + apply is_key_singleton in Henter. subst key.
      destruct (Z.ltb_spec 0 (GoInt.len (articles m)));
        [| cbn; rewrite Hv; discriminate].
      destruct (Z.leb_spec 0 (selectedIndex m));
        [| cbn; rewrite Hv; discriminate].
      cbn. intros _. split; [reflexivity |]. left. repeat split; assumption.
    + destruct (is_key key ["up"; "k"]).
      { destruct (0 <? selectedIndex m); cbn; rewrite Hv; discriminate. }
      destruct (is_key key ["down"; "j"]).
      { destruct (selectedIndex m <? GoInt.len (articles m) -! 1); cbn;
          rewrite Hv; discriminate. }
      destruct (is_key key ["pgup"]).
      { unfold pageUp. split_cases; cbn; rewrite Hv; discriminate. }
      destruct (is_key key ["pgdown"]).
      { unfold pageDown. split_cases; cbn; rewrite Hv; discriminate. }
      destruct (is_key key ["home"; "g"]); [cbn; rewrite Hv; discriminate |].
      destruct (is_key key ["end"; "G"]); cbn; rewrite Hv; discriminate.
  - cbn. rewrite Hv. discriminate.
Qed.

(** The messages that open an article do take the index view to the
    article view. *)
Lemma opens_article_enters (m : Model) (msg : Msg) :
  currentView m = IndexView ->
  opens_article m msg ->
  currentView (fst (Update m msg)) = ArticleView.
Proof.
  intros Hv [(-> & Hlen & Hsel) | (e & -> & Ha & Hb & Hlen & Hy & Hi0 & Hi1)].
  - change (Update m (KeyMsg "enter"))
      with (match currentView m with
            | IndexView =>
                if (0 <? GoInt.len (articles m)) && (0 <=? selectedIndex m)
                then (updateViewport (set_currentView m ArticleView), CmdNil)
                else (m, CmdNil)
            | ArticleView => (m, CmdNil)
            end).
    rewrite Hv.
    destruct (Z.ltb_spec 0 (GoInt.len (articles m))); [| lia].
    destruct (Z.leb_spec 0 (selectedIndex m)); [| lia].
    reflexivity.
  - unfold Update. rewrite Ha, Hb, Hv.
    destruct (Z.ltb_spec 0 (GoInt.len (articles m))); [| lia].
    destruct (Z.leb_spec headerHeight (Y e)); [| lia].
    destruct (Z.leb_spec 0 ((Y e -! headerHeight) /! itemRowHeight)); [| lia].
    destruct (Z.ltb_spec ((Y e -! headerHeight) /! itemRowHeight)
                         (GoInt.len (articles m))); [| lia].
    reflexivity.
Qed.

(** C5: in the index view the messages that take [Update] to the article
    view are "enter" on a list that is not empty with a selection that
    is not negative, and a left click that the click mapping accepts;
    for every message that does so the new model has scroll offset 0. *)
Theorem entering_article_resets_scroll (m : Model) (msg : Msg) :
  currentView m = IndexView ->
  (currentView (fst (Update m msg)) = ArticleView <-> opens_article m msg)
  /\ (currentView (fst (Update m msg)) = ArticleView ->
      scrollOffset (viewport (fst (Update m msg))) = 0)
  /\ (opens_article m msg ->
      scrollOffset (viewport (fst (Update m msg))) = 0).
Proof.
  intros Hv. split; [split |]; [| | split].
  - intros Hin. now apply article_entered_at_the_top.
  - now apply opens_article_enters.
  - intros Hin. now apply article_entered_at_the_top.
  - intros Hopen. apply article_entered_at_the_top; [exact Hv |].
    now apply opens_article_enters.
Qed.

Lemma entering_article_resets_scroll_witness :
  let m := fst (Update Sample.three (KeyMsg "end")) in
  selectedIndex m = 2
  /\ currentView (fst (Update m (KeyMsg "enter"))) = ArticleView
  /\ opens_article m (KeyMsg "enter")
  /\ scrollOffset (viewport (fst (Update m (KeyMsg "enter")))) = 0.
Proof.
  cbv zeta.
  destruct (entering_article_resets_scroll
              (fst (Update Sample.three (KeyMsg "end"))) (KeyMsg "enter"))
    as ([Honly _] & Htop & _).
  - reflexivity.
  - split; [reflexivity |]. split; [reflexivity |].
    split; [apply Honly | apply Htop]; reflexivity.
Defined.

(* ================================================================= *)
(** ** C6: the click mapping *)

(** C6: in the index view a left click at row [Y] is mapped to the index
    [(Y - headerHeight) / itemRowHeight]; it is accepted, which selects
    and opens that article, when [Y >= headerHeight] and the index is in
    [[0, len(articles) - 1]]; in every other case the model is left as it
    was. *)
Theorem left_click_maps_row_to_article (m : Model) (x y : Z) :
  GoInt.is_int y ->
  currentView m = IndexView ->
  let i := (y - headerHeight) / itemRowHeight in
  (headerHeight <= y /\ 0 <= i <= GoInt.len (articles m) - 1 ->
   Update m (leftClick x y) = (opened_at m i, CmdNil))
  /\ (~ (headerHeight <= y /\ 0 <= i <= GoInt.len (articles m) - 1) ->
      Update m (leftClick x y) = (m, CmdNil)).
Proof.
  intros Hy Hv. cbv zeta. unfold headerHeight, itemRowHeight.
  assert (Hquo : 6 <= y -> (y -! 6) /! 6 = (y - 6) / 6).
  { intros H6. rewrite sub_small by int_range.
    unfold GoInt.quo. rewrite Z.quot_div_nonneg by lia.
    apply wrap_small.
    pose proof (Z.div_pos (y - 6) 6 ltac:(lia) ltac:(lia)).
    pose proof (Z.div_le_upper_bound (y - 6) 6 (y - 6) ltac:(lia) ltac:(lia)).
    int_range. }
  unfold Update, leftClick, headerHeight, itemRowHeight. cbn. rewrite Hv.
  pose proof (len_nonneg (articles m)) as Hlen.
  split.
  - intros (H6 & Hi0 & Hi1).
    destruct (Z.ltb_spec 0 (GoInt.len (articles m))); [| lia].
    destruct (Z.leb_spec 6 y); [| lia].
    rewrite (Hquo H6).
    destruct (Z.leb_spec 0 ((y - 6) / 6)); [| lia].
    destruct (Z.ltb_spec ((y - 6) / 6) (GoInt.len (articles m))); [| lia].
    reflexivity.
  - intros Hno.
    destruct (Z.ltb_spec 0 (GoInt.len (articles m))); [| reflexivity].
    destruct (Z.leb_spec 6 y) as [H6 |]; [| reflexivity].
    rewrite (Hquo H6).
    destruct (Z.leb_spec 0 ((y - 6) / 6)); [| reflexivity].
    destruct (Z.ltb_spec ((y - 6) / 6) (GoInt.len (articles m)));
      [| reflexivity].
    exfalso. apply Hno. lia.
Qed.

Lemma left_click_maps_row_to_article_witness :
  (Update Sample.three (leftClick 10 13) = (opened_at Sample.three 1, CmdNil))
  /\ (Update Sample.three (leftClick 10 24) = (Sample.three, CmdNil))
  /\ (Update Sample.three (leftClick 10 5) = (Sample.three, CmdNil)).
Proof.
  assert (Hint : forall y, 0 <= y <= 100 -> GoInt.is_int y)
    by (intros y Hy; int_range).
  split; [| split].
  - apply (left_click_maps_row_to_article Sample.three 10 13);
      [apply Hint; lia | reflexivity | vm_compute; intuition discriminate].
  - apply (left_click_maps_row_to_article Sample.three 10 24);
      [apply Hint; lia | reflexivity |].
    vm_compute. intros (_ & _ & H). apply H. reflexivity.
  - apply (left_click_maps_row_to_article Sample.three 10 5);
      [apply Hint; lia | reflexivity |].
    vm_compute. intros (H & _). apply H. reflexivity.
Defined.

(* ================================================================= *)
(** ** C7: the fallback of the content pipeline *)

Lemma Split_nonempty (s : string) (sep : ascii) :
  1 <= GoInt.len (strings.Split s sep).
Proof.
  unfold GoInt.len. induction s as [| c s IH]; cbn [strings.Split].
  - cbn. lia.
  - destruct (Ascii.eqb c sep).
    + cbn [List.length]. lia.
    + destruct (strings.Split s sep); cbn [List.length] in *; lia.
Qed.

Lemma index_in_range {A : Type} (l : list A) (i : Z) (a : A) :
  index l i = Ok a -> 0 <= i < GoInt.len l.
Proof.
  unfold index.
  destruct (Z.leb_spec 0 i); cbn; [| discriminate].
  destruct (Z.ltb_spec i (GoInt.len l)); [| discriminate].
  intros _. lia.
Qed.

Lemma slice_in_bounds {A : Type} (l : list A) (lo hi : Z) :
  0 <= lo <= hi -> hi <= GoInt.len l ->
  exists part : list A, slice l lo hi = Ok part.
Proof.
  intros [H0 H1] H2. unfold slice.
  destruct (Z.leb_spec 0 lo); [| lia].
  destruct (Z.leb_spec lo hi); [| lia].
  destruct (Z.leb_spec hi (GoInt.len l)); [| lia].
  cbn. eexists. reflexivity.
Qed.

(** The frame of an article is composed whenever the selected article
    exists and the end of the visible slice, [scrollOffset + height - 3],
    is not negative. *)
Lemma renderScrollableContent_succeeds (H : Host) (m : Model) (a : Article) :
  index (articles m) (selectedIndex m) = Ok a ->
  0 <= scrollOffset (viewport m) +! height (viewport m) -! 3 ->
  exists frame : string, renderScrollableContent m = Ok frame.
Proof.
  intros Hidx Hend. unfold renderScrollableContent.
  set (lines := strings.Split (content (viewport m)) strings.newline).
  pose proof (Split_nonempty (content (viewport m)) strings.newline) as HL.
  fold lines in HL.
  set (e0 := scrollOffset (viewport m) +! height (viewport m) -! 3) in *.
  assert (He0 : GoInt.is_int e0) by apply wrap_is_int.
  set (start1 := if scrollOffset (viewport m) <? 0 then 0
                 else scrollOffset (viewport m)).
  assert (Hs1 : 0 <= start1).
  { subst start1. destruct (Z.ltb_spec (scrollOffset (viewport m)) 0); lia. }
  set (end1 := if GoInt.len lines <? e0 then GoInt.len lines else e0).
  assert (He1 : 0 <= end1 <= GoInt.len lines /\ end1 <= e0).
  { subst end1. destruct (Z.ltb_spec (GoInt.len lines) e0); lia. }
  assert (Hsub : end1 -! 1 = end1 - 1) by (apply sub_small; int_range).
  rewrite Hsub.
  set (start2 := if end1 <=? start1
                 then if end1 - 1 <? 0 then 0 else end1 - 1
                 else start1).
  assert (Hs2 : 0 <= start2 <= end1).
  { subst start2. destruct (Z.leb_spec end1 start1);
      [destruct (Z.ltb_spec (end1 - 1) 0) |]; lia. }
  assert (Hvis : exists visible : list string,
             (if start2 <? GoInt.len lines then slice lines start2 end1
              else Ok []) = Ok visible).
  { destruct (start2 <? GoInt.len lines).
    - apply slice_in_bounds; lia.
    - eexists. reflexivity. }
  destruct Hvis as [visible ->]. cbn [bind]. rewrite Hidx. cbn [bind].
  eexists. reflexivity.
Qed.

(** C7: when the renderer returns an error for the markdown document of
    the selected article, the content pipeline does not fail, and the
    text it puts into the viewport that is displayed is that document
    itself; the frame of the article is the frame composed over the
    document, and it is composed whenever the end of the visible slice,
    [scrollOffset + height - 3], is not negative. *)
Theorem renderer_error_falls_back_to_markdown
        (H : Host) (m : Model) (a : Article) (styled : string) (e : error) :
  index (articles m) (selectedIndex m) = Ok a ->
  Render (renderer m) (articleMarkdown a) = (styled, Some e) ->
  let shown := set_content m (articleMarkdown a) in
  loadArticle m = Ok shown
  /\ content (viewport shown) = articleMarkdown a
  /\ renderArticle m = renderScrollableContent shown
  /\ (0 <= scrollOffset (viewport m) +! height (viewport m) -! 3 ->
      exists frame : string, renderArticle m = Ok frame).
Proof.
  intros Hidx Herr shown.
  assert (Hload : loadArticle m = Ok shown).
  { unfold loadArticle. rewrite Hidx. cbn [bind]. rewrite Herr. reflexivity. }
  assert (Hart : renderArticle m = renderScrollableContent shown).
  { unfold renderArticle.
    pose proof (index_in_range _ _ _ Hidx) as Hsel.
    destruct (Z.leb_spec (GoInt.len (articles m)) (selectedIndex m)); [lia |].
    rewrite Hload. reflexivity. }
  split; [exact Hload |]. split; [reflexivity |]. split; [exact Hart |].
  intros Hend. rewrite Hart.
  apply (renderScrollableContent_succeeds H shown a); assumption.
Qed.

Lemma renderer_error_falls_back_to_markdown_witness :
  let m := feed Sample.failing [KeyMsg "enter"] in
  let md := @articleMarkdown Sample.host Sample.article in
  Render (renderer m) md = ("", Some (errorString "no style"))
  /\ @loadArticle Sample.host m = Ok (set_content m md)
  /\ (exists frame : string, @renderArticle Sample.host m = Ok frame).
Proof.
  cbv zeta.
  destruct (renderer_error_falls_back_to_markdown
              Sample.host (feed Sample.failing [KeyMsg "enter"])
              Sample.article "" (errorString "no style"))
    as (Hload & _ & _ & Hok).
  - reflexivity.
  - reflexivity.
  - split; [reflexivity |]. split; [exact Hload |].
    apply Hok. vm_compute. discriminate.
Defined.

(** The frame of an article is lost, whatever the renderer does, when
    the window is so low that the visible slice ends before it starts:
    with six rows the viewport is two high and the slice of the opened
    article is [lines[0:-1]]. *)
Lemma renderArticle_panics_in_low_window :
  @renderArticle Sample.host
     (feed (Sample.model Sample.plainRenderer [Sample.article])
           [WindowSizeMsg 80 6; KeyMsg "enter"])
  = Panic "slice bounds out of range".
Proof. vm_compute. reflexivity. Qed.

(* ================================================================= *)
(** ** C8: relative time *)

Lemma length_append (a b : string) :
  String.length (a ++ b) = (String.length a + String.length b)%nat.
Proof. induction a as [| c a IH]; cbn; [reflexivity | now rewrite IH]. Qed.

Lemma itoa_nonempty (z : Z) : GoInt.itoa z <> "".
Proof.
  unfold GoInt.itoa. destruct (Z.to_int z) as [d | d]; cbn.
  - destruct d; discriminate.
  - discriminate.
Qed.

(** The singular is written for the count 1 and for no other. *)
Lemma ago_singular (N : Z) (unit : string) :
  ago N unit = "1 " ++ unit ++ " ago" <-> N = 1.
Proof.
  unfold ago. destruct (Z.eqb_spec N 1) as [-> | Hne].
  - tauto.
  - split; [| contradiction]. intros Heq. exfalso.
    apply (f_equal String.length) in Heq.
    rewrite !length_append in Heq. cbn in Heq.
    destruct (GoInt.itoa N) eqn:Hi; [now apply (itoa_nonempty N) |].
    cbn in Heq. lia.
Qed.

(** The counts of [formatTimeAgo] are the whole units elapsed at both
    ends of every minute, hour and day that it counts. *)
Lemma whole_units_at_the_ends (k : Z) :
  (1 <= k <= 59 -> minutes_at_the_ends k = true)
  /\ (1 <= k <= 23 -> hours_at_the_ends k = true)
  /\ (1 <= k <= 6 -> days_at_the_ends k = true).
Proof.
  assert (Hall : forall (check : Z -> bool) (n : nat),
             forallb check (map Z.of_nat (seq 1 n)) = true ->
             1 <= k <= Z.of_nat n -> check k = true).
  { intros check n Hb Hk. rewrite forallb_forall in Hb. apply Hb.
    apply in_map_iff. exists (Z.to_nat k). split; [lia |].
    apply in_seq. lia. }
  split; [| split].
  - apply (Hall minutes_at_the_ends 59%nat). vm_compute. reflexivity.
  - apply (Hall hours_at_the_ends 23%nat). vm_compute. reflexivity.
  - apply (Hall days_at_the_ends 6%nat). vm_compute. reflexivity.
Qed.

(** C8: the text of [formatTimeAgo] for the duration [d] between the
    clock and the time of publication: "just now" below a minute, then
    the count of minutes below an hour, of hours below a day and of days
    below seven days, each in the singular exactly for the count 1, and
    the calendar date from seven days on; 90 seconds give "1 minute ago"
    and 45 seconds give "just now". *)
Theorem formatTimeAgo_by_duration (H : Host) (t : time.Time) :
  let d := time.Sub time_Now t in
  (d < time.Minute -> formatTimeAgo t = "just now")
  /\ (time.Minute <= d < time.Hour ->
      formatTimeAgo t = ago (GoFloat.to_int (time.Minutes d)) "minute")
  /\ (time.Hour <= d < 24 * time.Hour ->
      formatTimeAgo t = ago (GoFloat.to_int (time.Hours d)) "hour")
  /\ (24 * time.Hour <= d < 7 * 24 * time.Hour ->
      formatTimeAgo t
      = ago (GoFloat.to_int (PrimFloat.div (time.Hours d) 24)) "day")
  /\ (7 * 24 * time.Hour <= d ->
      formatTimeAgo t = time_Format t "January 2, 2006")
  /\ (forall (N : Z) (unit : string),
        ago N unit = "1 " ++ unit ++ " ago" <-> N = 1)
  /\ (d = 90 * time.Second -> formatTimeAgo t = "1 minute ago")
  /\ (d = 45 * time.Second -> formatTimeAgo t = "just now").
Proof.
  intros d. unfold formatTimeAgo. fold d. cbv zeta.
  unfold ago. generalize d. clear d. intros d.
  repeat split.
  - intros Hd. destruct (Z.ltb_spec d time.Minute); [reflexivity | lia].
  - intros Hd.
    destruct (Z.ltb_spec d time.Minute); [lia |].
    destruct (Z.ltb_spec d time.Hour); [reflexivity | lia].
  - intros Hd. unfold time.Hour, time.Minute, time.Second in *.
    destruct (Z.ltb_spec d (60 * 1000000000)); [lia |].
    destruct (Z.ltb_spec d (60 * (60 * 1000000000))); [lia |].
    destruct (Z.ltb_spec d (24 * (60 * (60 * 1000000000)))); [reflexivity | lia].
  - intros Hd. unfold time.Hour, time.Minute, time.Second in *.
    destruct (Z.ltb_spec d (60 * 1000000000)); [lia |].
    destruct (Z.ltb_spec d (60 * (60 * 1000000000))); [lia |].
    destruct (Z.ltb_spec d (24 * (60 * (60 * 1000000000)))); [lia |].
    destruct (Z.ltb_spec d (7 * 24 * (60 * (60 * 1000000000))));
      [reflexivity | lia].
  - intros Hd. unfold time.Hour, time.Minute, time.Second in *.
    destruct (Z.ltb_spec d (60 * 1000000000)); [lia |].
    destruct (Z.ltb_spec d (60 * (60 * 1000000000))); [lia |].
    destruct (Z.ltb_spec d (24 * (60 * (60 * 1000000000)))); [lia |].
    destruct (Z.ltb_spec d (7 * 24 * (60 * (60 * 1000000000))));
      [lia | reflexivity].
  - apply ago_singular.
  - apply ago_singular.
  - intros ->. reflexivity.
  - intros ->. reflexivity.
Qed.

Lemma formatTimeAgo_by_duration_witness :
  @formatTimeAgo Sample.host Sample.ninetySecondsAgo = "1 minute ago"
  /\ @formatTimeAgo Sample.host Sample.fortyFiveSecondsAgo = "just now"
  /\ @formatTimeAgo Sample.host (time.mkTime (- 6200 * time.Second) "UTC")
     = "2 hours ago".
Proof.
  split; [| split].
  - apply (formatTimeAgo_by_duration Sample.host Sample.ninetySecondsAgo).
    reflexivity.
  - apply (formatTimeAgo_by_duration Sample.host Sample.fortyFiveSecondsAgo).
    reflexivity.
  - refine (eq_trans
              (proj1 (proj2 (proj2
                 (formatTimeAgo_by_duration
                    Sample.host (time.mkTime (- 6200 * time.Second) "UTC")))) _)
              _).
    + vm_compute. split; [discriminate | reflexivity].
    + vm_compute. reflexivity.
Defined.

(* ================================================================= *)
(** ** C9: back to the index *)

(** C9: in the article view "esc" changes the view to the index and
    nothing else; the selected index in particular stays. *)
Theorem esc_returns_to_index (m : Model) :
  currentView m = ArticleView ->
  Update m (KeyMsg "esc") = (set_currentView m IndexView, CmdNil)
  /\ currentView (fst (Update m (KeyMsg "esc"))) = IndexView
  /\ selectedIndex (fst (Update m (KeyMsg "esc"))) = selectedIndex m.
Proof.
  intros Hv. cbn. rewrite Hv. cbn. repeat split.
Qed.

Lemma esc_returns_to_index_witness :
  let m := feed Sample.three [KeyMsg "down"; KeyMsg "enter"] in
  currentView m = ArticleView
  /\ selectedIndex m = 1
  /\ currentView (fst (Update m (KeyMsg "esc"))) = IndexView
  /\ selectedIndex (fst (Update m (KeyMsg "esc"))) = 1.
Proof.
  cbv zeta. split; [reflexivity |]. split; [reflexivity |].
  apply (esc_returns_to_index (feed Sample.three [KeyMsg "down"; KeyMsg "enter"])).
  reflexivity.
Defined.

(* ================================================================= *)
(** ** C10: the pager decision *)

(** The decision by the tests of the code: the flag, [isTerminal] and
    the value that [os.Getenv] gives. *)
Lemma ShouldUsePager_decision (H : Host) (noPager : bool) :
  (ShouldUsePager noPager = false
   <-> noPager = true \/ isTerminal = false
       \/ os_Getenv "NWCLI_NO_PAGER" <> "")
  /\ (ShouldUsePager noPager = true
      <-> noPager = false /\ isTerminal = true
          /\ os_Getenv "NWCLI_NO_PAGER" = "")
  /\ ShouldUsePager true = false.
Proof.
  unfold ShouldUsePager.
  destruct noPager, isTerminal;
    destruct (String.eqb_spec (os_Getenv "NWCLI_NO_PAGER") ""); cbn;
    intuition congruence.
Qed.




(* ================================================================= *)
(** * Further properties of the pager *)

(** ** Records and their assignments *)

Lemma set_selectedIndex_same (m : Model) :
  set_selectedIndex m (selectedIndex m) = m.
Proof. destruct m. reflexivity. Qed.

Lemma set_scrollOffset_same (m : Model) :
  set_scrollOffset m (scrollOffset (viewport m)) = m.
Proof. destruct m as [a v s t r [c o h] sh ww wh]. reflexivity. Qed.

Lemma is_key_pair (key a b : string) :
  is_key key [a; b] = true <-> key = a \/ key = b.
Proof.
  unfold is_key. cbn. rewrite orb_false_r, orb_true_iff, !String.eqb_eq.
  tauto.
Qed.

(** ** The help toggle *)

(** Toggling the help twice, with "h" or "?", gives the model back; one
    toggle flips [showHelp] and assigns nothing else. *)
Theorem help_toggled_twice (m : Model) (key1 key2 : string) :
  In key1 ["h"; "?"] -> In key2 ["h"; "?"] ->
  Update m (KeyMsg key1) = (set_showHelp m (negb (showHelp m)), CmdNil)
  /\ fst (Update (fst (Update m (KeyMsg key1))) (KeyMsg key2)) = m.
Proof.
  intros H1 H2.
  assert (Htoggle : forall (m' : Model) (key : string),
             In key ["h"; "?"] ->
             Update m' (KeyMsg key) = (set_showHelp m' (negb (showHelp m')), CmdNil)).
  { intros m' key [<- | [<- | []]]; reflexivity. }
  rewrite (Htoggle m key1 H1). split; [reflexivity |].
  cbn [fst]. rewrite (Htoggle _ key2 H2). cbn [fst].
  destruct m as [a v s t r vp sh ww wh]. unfold set_showHelp. cbn.
  now rewrite negb_involutive.
Qed.

Lemma help_toggled_twice_witness :
  Update Sample.three (KeyMsg "?")
  = (set_showHelp Sample.three true, CmdNil)
  /\ fst (Update (fst (Update Sample.three (KeyMsg "?"))) (KeyMsg "h"))
     = Sample.three.
Proof.
  apply (help_toggled_twice Sample.three "?" "h"); cbn; tauto.
Defined.

(** ** Quitting *)

(** [Update] asks the program to quit for the keys "q" and "ctrl+c" and
    for no other message, and it then leaves the model as it was. *)
Theorem quit_only_for_q_and_ctrl_c (m : Model) (msg : Msg) :
  (snd (Update m msg) = Quit
   <-> msg = KeyMsg "q" \/ msg = KeyMsg "ctrl+c")
  /\ (snd (Update m msg) = Quit -> fst (Update m msg) = m).
Proof.
  assert (Hquit : snd (Update m msg) = Quit ->
                  (msg = KeyMsg "q" \/ msg = KeyMsg "ctrl+c")
                  /\ fst (Update m msg) = m).
  { destruct msg as [w h | e | key |].
    - discriminate.
    - unfold Update. split_cases; discriminate.
    - unfold Update. destruct (is_key key ["q"; "ctrl+c"]) eqn:Hq.
      + intros _. apply is_key_pair in Hq. split; [| reflexivity].
        destruct Hq as [-> | ->]; [left | right]; reflexivity.
      + split_cases; discriminate.
    - discriminate. }
  split; [split |].
  - intros Hq. now apply Hquit.
  - intros [-> | ->]; reflexivity.
  - intros Hq. now apply Hquit.
Qed.

(** ** What [Update] never assigns *)

(** The articles, the title and the renderer of a model are those it was
    made with, whatever messages it has handled. *)
Theorem feed_keeps_articles (m : Model) (msgs : list Msg) :
  articles (feed m msgs) = articles m
  /\ title (feed m msgs) = title m
  /\ renderer (feed m msgs) = renderer m.
Proof.
  assert (Hstep : forall (m' : Model) (msg : Msg),
             articles (fst (Update m' msg)) = articles m'
             /\ title (fst (Update m' msg)) = title m'
             /\ renderer (fst (Update m' msg)) = renderer m').
  { intros m' msg.
    unfold Update, updateViewport, scrollUp, scrollDown, pageUp, pageDown.
    split_cases; repeat split. }
  revert m. induction msgs as [| msg msgs IH]; intros m.
  - repeat split.
  - rewrite feed_cons.
    destruct (IH (fst (Update m msg))) as (Ha & Ht & Hr).
    destruct (Hstep m msg) as (Ha' & Ht' & Hr').
    rewrite Ha, Ht, Hr. repeat split; assumption.
Qed.

(** ** Invariants of the models that the program reaches *)

(** The height of the viewport follows the window: it is the height of
    the window less four from the first resize or the first article
    on; before that the model is in the index view with the window of 24
    rows and the height 0 that [NewModel] leaves. *)
Lemma Reachable_height (m : Model) :
  Reachable m ->
  height (viewport m) = windowHeight m -! 4
  \/ (currentView m = IndexView /\ windowHeight m = 24
      /\ height (viewport m) = 0).
Proof.
  induction 1 as [r arts title m Hnew | m msg _ IH].
  - unfold NewModel in Hnew. destruct r as [r | [e]]; [| discriminate].
    injection Hnew as <-. right. repeat split.
  - unfold Update, updateViewport, scrollUp, scrollDown, pageUp, pageDown.
    split_cases; cbn;
      repeat match goal with
             | Hv : currentView m = _ |- _ => rewrite Hv in *; clear Hv
             end;
      try (left; reflexivity);
      destruct IH as [IH | (Hv & Hw & Hh)];
      try discriminate; try (left; exact IH); try (right; repeat split; assumption).
Qed.

(** In the article view the viewport is four rows lower than the
    window, in every model that the program reaches. *)
Theorem article_view_height (m : Model) :
  Reachable m ->
  currentView m = ArticleView ->
  height (viewport m) = windowHeight m -! 4.
Proof.
  intros Hm Hv. destruct (Reachable_height m Hm) as [Hh | (Hi & _)].
  - exact Hh.
  - rewrite Hv in Hi. discriminate.
Qed.

Lemma article_view_height_witness :
  let m := feed (Sample.model Sample.plainRenderer [Sample.article])
                [KeyMsg "enter"; WindowSizeMsg 100 40; KeyMsg "pgdown"] in
  currentView m = ArticleView
  /\ windowHeight m = 40
  /\ height (viewport m) = 36.
Proof.
  cbv zeta. split; [reflexivity |]. split; [reflexivity |].
  rewrite (article_view_height
             (feed (Sample.model Sample.plainRenderer [Sample.article])
                   [KeyMsg "enter"; WindowSizeMsg 100 40; KeyMsg "pgdown"])).
  - reflexivity.
  - apply Reachable_feed, Reachable_sample.
  - reflexivity.
Defined.

(** The selection of a reachable model: an index of the list when the
    list is not empty, and -1 or 0 (after "home") in the index view when
    it is. *)
Lemma Reachable_selection (m : Model) :
  Reachable m ->
  GoInt.is_int (GoInt.len (articles m)) ->
  (0 < GoInt.len (articles m) ->
   0 <= selectedIndex m < GoInt.len (articles m))
  /\ (GoInt.len (articles m) = 0 ->
      currentView m = IndexView
      /\ (selectedIndex m = -1 \/ selectedIndex m = 0)).
Proof.
  induction 1 as [r arts title m Hnew | m msg Hm IH]; intros Hint.
  - unfold NewModel in Hnew. destruct r as [r | [e]]; [| discriminate].
    injection Hnew as <-. cbn.
    destruct (Z.eqb_spec (GoInt.len arts) 0); split; intros; try lia;
      repeat split; auto.
  - assert (Ha : articles (fst (Update m msg)) = articles m).
    { unfold Update, updateViewport, scrollUp, scrollDown, pageUp, pageDown.
      split_cases; reflexivity. }
    rewrite Ha in *. destruct (IH Hint) as [IHpos IHzero]. split.
    + intros Hpos. apply Update_keeps_selection_in_range; auto.
    + intros Hzero. destruct (IHzero Hzero) as (Hv & Hsel).
      assert (Hlast : GoInt.len (articles m) -! 1 = -1)
        by (rewrite Hzero; reflexivity).
      unfold Update, updateViewport, scrollUp, scrollDown, pageUp, pageDown.
      rewrite Hv, Hlast, Hzero.
      destruct msg as [w h | e | key |]; cbn.
      * auto.
      * destruct (Action e), (Button e); cbn; auto.
        -- destruct (Z.ltb_spec 0 (selectedIndex m)); cbn; auto. lia.
        -- destruct (Z.ltb_spec (selectedIndex m) (-1)); cbn; auto. lia.
      * split_cases; cbn; auto.
        -- destruct (Z.ltb_spec 0 (selectedIndex m)); try discriminate. lia.
        -- destruct (Z.ltb_spec (selectedIndex m) (-1)); try discriminate. lia.
      * auto.
Qed.

Lemma index_of_valid {A : Type} (l : list A) (i : Z) :
  0 <= i < GoInt.len l -> exists a : A, index l i = Ok a.
Proof.
  intros [H0 H1]. unfold index.
  destruct (Z.leb_spec 0 i); [| lia].
  destruct (Z.ltb_spec i (GoInt.len l)); [| lia].
  cbn. destruct (nth_error l (Z.to_nat i)) eqn:Hn.
  - eexists. reflexivity.
  - apply nth_error_None in Hn. unfold GoInt.len in H1. lia.
Qed.

Lemma Reachable_article_selection (m : Model) :
  Reachable m ->
  GoInt.is_int (GoInt.len (articles m)) ->
  currentView m = ArticleView ->
  0 <= selectedIndex m < GoInt.len (articles m).
Proof.
  intros Hm Hint Hv.
  destruct (Reachable_selection m Hm Hint) as [Hpos Hzero].
  apply Hpos. pose proof (len_nonneg (articles m)).
  destruct (Z.eq_dec (GoInt.len (articles m)) 0) as [H0 | H0]; [| lia].
  destruct (Hzero H0) as (Hi & _). rewrite Hv in Hi. discriminate.
Qed.

(** In the article view of a reachable model the selected index is an
    index of the list, so [renderArticle] finds its article. *)
Theorem article_view_selection (m : Model) :
  Reachable m ->
  GoInt.is_int (GoInt.len (articles m)) ->
  currentView m = ArticleView ->
  0 <= selectedIndex m < GoInt.len (articles m)
  /\ exists a : Article, index (articles m) (selectedIndex m) = Ok a.
Proof.
  intros Hm Hint Hv.
  pose proof (Reachable_article_selection m Hm Hint Hv) as Hsel.
  split; [exact Hsel | now apply index_of_valid].
Qed.

Lemma article_view_selection_witness :
  let m := feed Sample.three [KeyMsg "end"; KeyMsg "enter"; KeyMsg "down"] in
  currentView m = ArticleView
  /\ 0 <= selectedIndex m < GoInt.len (articles m)
  /\ exists a : Article, index (articles m) (selectedIndex m) = Ok a.
Proof.
  cbv zeta. split; [reflexivity |].
  apply (article_view_selection
           (feed Sample.three [KeyMsg "end"; KeyMsg "enter"; KeyMsg "down"])).
  - apply Reachable_feed, Reachable_sample.
  - cbn. int_range.
  - reflexivity.
Defined.

(** ** The frame of an article and the height of the window *)

(** The visible slice of [renderScrollableContent] is out of bounds when
    its end, [scrollOffset + height - 3], is negative. *)
Lemma renderScrollableContent_panics (H : Host) (m : Model) :
  GoInt.minInt < scrollOffset (viewport m) +! height (viewport m) -! 3 < 0 ->
  renderScrollableContent m = Panic "slice bounds out of range".
Proof.
  intros Hend. unfold renderScrollableContent.
  set (lines := strings.Split (content (viewport m)) strings.newline).
  pose proof (Split_nonempty (content (viewport m)) strings.newline) as HL.
  fold lines in HL.
  set (e0 := scrollOffset (viewport m) +! height (viewport m) -! 3) in *.
  destruct (Z.ltb_spec (GoInt.len lines) e0); [lia |].
  assert (Hs1 : 0 <= (if scrollOffset (viewport m) <? 0 then 0
                      else scrollOffset (viewport m))).
  { destruct (Z.ltb_spec (scrollOffset (viewport m)) 0); lia. }
  destruct (Z.leb_spec e0 (if scrollOffset (viewport m) <? 0 then 0
                           else scrollOffset (viewport m))); [| lia].
  rewrite (sub_small e0 1) by int_range.
  destruct (Z.ltb_spec (e0 - 1) 0); [| lia].
  destruct (Z.ltb_spec 0 (GoInt.len lines)); [| lia].
  unfold slice.
  destruct (Z.leb_spec 0 e0); [lia |]. reflexivity.
Qed.

(** The frame of the article view of a reachable model is composed when
    [scrollOffset + (windowHeight - 4) - 3] is not negative, and [View]
    panics on the bounds of its slice when that sum is negative: an
    article that was just opened ([scrollOffset = 0]) needs a window of
    seven rows. *)
Theorem View_of_article_needs_rows (H : Host) (m : Model) :
  Reachable m ->
  GoInt.is_int (GoInt.len (articles m)) ->
  currentView m = ArticleView ->
  let sliceEnd := scrollOffset (viewport m) +! (windowHeight m -! 4) -! 3 in
  (0 <= sliceEnd -> exists frame : string, View m = Ok frame)
  /\ (GoInt.minInt < sliceEnd < 0 -> View m = Panic "slice bounds out of range").
Proof.
  intros Hm Hint Hv sliceEnd.
  pose proof (Reachable_article_selection m Hm Hint Hv) as Hsel.
  destruct (index_of_valid (articles m) (selectedIndex m) Hsel) as [a Ha].
  pose proof (Reachable_height m Hm) as [Hh | (Hi & _)];
    [| rewrite Hv in Hi; discriminate].
  assert (Hview : exists shown : Model,
             View m = renderScrollableContent shown
             /\ articles shown = articles m
             /\ selectedIndex shown = selectedIndex m
             /\ scrollOffset (viewport shown) = scrollOffset (viewport m)
             /\ height (viewport shown) = height (viewport m)).
  { unfold View. rewrite Hv.
    destruct (Z.eqb_spec (GoInt.len (articles m)) 0); [lia |].
    unfold renderArticle.
    destruct (Z.leb_spec (GoInt.len (articles m)) (selectedIndex m)); [lia |].
    unfold loadArticle. rewrite Ha. cbn [bind].
    destruct (Render (renderer m) (articleMarkdown a)) as [rendered err].
    cbn [bind]. eexists. split; [reflexivity |]. repeat split. }
  destruct Hview as (shown & -> & Has & Hss & Hso & Hsh).
  subst sliceEnd. rewrite <- Hh, <- Hso, <- Hsh. split.
  - intros Hend. apply (renderScrollableContent_succeeds H shown a).
    + rewrite Has, Hss. exact Ha.
    + exact Hend.
  - intros Hend. now apply renderScrollableContent_panics.
Qed.

Lemma View_of_article_needs_rows_witness :
  let start := Sample.model Sample.plainRenderer [Sample.article] in
  (exists frame : string,
      @View Sample.host (feed start [WindowSizeMsg 80 7; KeyMsg "enter"])
      = Ok frame)
  /\ @View Sample.host (feed start [WindowSizeMsg 80 6; KeyMsg "enter"])
     = Panic "slice bounds out of range".
Proof.
  cbv zeta. split.
  - apply (View_of_article_needs_rows Sample.host
             (feed (Sample.model Sample.plainRenderer [Sample.article])
                   [WindowSizeMsg 80 7; KeyMsg "enter"])).
    + apply Reachable_feed, Reachable_sample.
    + cbn. int_range.
    + reflexivity.
    + vm_compute. discriminate.
  - apply (View_of_article_needs_rows Sample.host
             (feed (Sample.model Sample.plainRenderer [Sample.article])
                   [WindowSizeMsg 80 6; KeyMsg "enter"])).
    + apply Reachable_feed, Reachable_sample.
    + cbn. int_range.
    + reflexivity.
    + vm_compute. split; reflexivity.
Defined.

(** ** The empty list *)

(** With no article the frame is the empty-state frame in every view,
    and a model as [NewModel] makes it stays as it is under the keys
    "enter", "up", "down", "end" and "esc" (and "k", "j", "G") and under
    every mouse message. *)
Theorem empty_list_stays (m : Model) :
  articles m = [] ->
  (forall H : Host, View m = Ok (renderEmpty m))
  /\ (selectedIndex m = -1 ->
      currentView m = IndexView ->
      (forall key : string,
          In key ["enter"; "up"; "k"; "down"; "j"; "end"; "G"; "esc"] ->
          Update m (KeyMsg key) = (m, CmdNil))
      /\ (forall e : MouseEvent, Update m (MouseMsg e) = (m, CmdNil))).
Proof.
  intros Ha. split.
  - intros H. unfold View. rewrite Ha. reflexivity.
  - intros Hsel Hv. split.
    + intros key Hin. cbn in Hin.
      destruct Hin as [<- | [<- | [<- | [<- | [<- | [<- | [<- | [<- | []]]]]]]]];
        cbn; rewrite Hv, ?Ha, ?Hsel; cbn; try reflexivity.
      * rewrite <- Hsel. now rewrite set_selectedIndex_same.
      * rewrite <- Hsel. now rewrite set_selectedIndex_same.
    + intros e. unfold Update. rewrite Hv, Ha, Hsel.
      destruct (Action e), (Button e); reflexivity.
Qed.

Lemma empty_list_stays_witness :
  (forall H : Host, View Sample.none = Ok (renderEmpty Sample.none))
  /\ Update Sample.none (KeyMsg "down") = (Sample.none, CmdNil)
  /\ Update Sample.none (KeyMsg "enter") = (Sample.none, CmdNil)
  /\ Update Sample.none (leftClick 3 7) = (Sample.none, CmdNil).
Proof.
  destruct (empty_list_stays Sample.none) as (Hview & Hstay);
    [reflexivity |].
  destruct Hstay as (Hkeys & Hmouse); [reflexivity | reflexivity |].
  split; [exact Hview |].
  split; [apply Hkeys; cbn; tauto |].
  split; [apply Hkeys; cbn; tauto | apply Hmouse].
Defined.

(** ** The mouse wheel *)

(** The wheel does what the arrow keys do, in both views: wheel up is
    "up" (and "k"), wheel down is "down" (and "j"). *)
Theorem wheel_is_up_and_down (m : Model) (x y : Z) :
  Update m (wheel MouseButtonWheelUp x y) = Update m (KeyMsg "up")
  /\ Update m (wheel MouseButtonWheelUp x y) = Update m (KeyMsg "k")
  /\ Update m (wheel MouseButtonWheelDown x y) = Update m (KeyMsg "down")
  /\ Update m (wheel MouseButtonWheelDown x y) = Update m (KeyMsg "j").
Proof. repeat split. Qed.

(** ** Moving the selection *)

(** In the index view, with a selection that is an index of the list,
    "down" and "up" move the selection by one and stop at the ends of
    the list, "home" selects the first and "end" the last article; no
    other field changes. *)
Theorem selection_moves_without_wrapping (m : Model) :
  currentView m = IndexView ->
  GoInt.is_int (GoInt.len (articles m)) ->
  0 <= selectedIndex m < GoInt.len (articles m) ->
  let n := GoInt.len (articles m) in
  let i := selectedIndex m in
  Update m (KeyMsg "down") = (set_selectedIndex m (Z.min (i + 1) (n - 1)), CmdNil)
  /\ Update m (KeyMsg "up") = (set_selectedIndex m (Z.max (i - 1) 0), CmdNil)
  /\ Update m (KeyMsg "home") = (set_selectedIndex m 0, CmdNil)
  /\ Update m (KeyMsg "end") = (set_selectedIndex m (n - 1), CmdNil).
Proof.
  intros Hv Hint Hsel n i. subst n i.
  assert (Hadd : selectedIndex m +! 1 = selectedIndex m + 1)
    by (apply add_small; int_range).
  assert (Hsub : selectedIndex m -! 1 = selectedIndex m - 1)
    by (apply sub_small; int_range).
  assert (Hlast : GoInt.len (articles m) -! 1 = GoInt.len (articles m) - 1)
    by (apply sub_small; int_range).
  repeat split; cbn; rewrite Hv, ?Hadd, ?Hsub, ?Hlast.
  - destruct (Z.ltb_spec (selectedIndex m) (GoInt.len (articles m) - 1)).
    + rewrite Z.min_l by lia. reflexivity.
    + rewrite Z.min_r by lia.
      destruct m as [a v s t r vp sh ww wh]; unfold set_selectedIndex; cbn in *.
      repeat f_equal; lia.
  - destruct (Z.ltb_spec 0 (selectedIndex m)).
    + rewrite Z.max_l by lia. reflexivity.
    + rewrite Z.max_r by lia.
      destruct m as [a v s t r vp sh ww wh]; unfold set_selectedIndex; cbn in *.
      repeat f_equal; lia.
  - reflexivity.
  - reflexivity.
Qed.

Lemma selection_moves_without_wrapping_witness :
  selectedIndex (feed Sample.three [KeyMsg "down"; KeyMsg "down"; KeyMsg "down"]) = 2
  /\ Update Sample.three (KeyMsg "up") = (Sample.three, CmdNil)
  /\ selectedIndex (fst (Update Sample.three (KeyMsg "end"))) = 2.
Proof.
  destruct (selection_moves_without_wrapping Sample.three)
    as (_ & Hup & _ & Hend).
  - reflexivity.
  - cbn. int_range.
  - cbn. lia.
  - split; [reflexivity |]. split.
    + rewrite Hup. reflexivity.
    + rewrite Hend. reflexivity.
Defined.

(** ** Paging in the models that the program reaches *)

Lemma set_scrollOffset_twice (m : Model) (a b : Z) :
  set_scrollOffset (set_scrollOffset m a) b = set_scrollOffset m b.
Proof. reflexivity. Qed.

(** A page down where the text is empty and the viewport two lines or
    more high: the offset moves by [height - 2], unclamped. *)
Lemma pgdown_of_empty_content (m : Model) :
  content (viewport m) = "" ->
  GoInt.is_int (height (viewport m)) ->
  2 <= height (viewport m) ->
  0 <= scrollOffset (viewport m) ->
  scrollOffset (viewport m) + (height (viewport m) - 2) <= GoInt.maxInt ->
  fst (Update m (KeyMsg "pgdown"))
  = set_scrollOffset m (scrollOffset (viewport m) + (height (viewport m) - 2)).
Proof.
  intros Hc Hh H2 Hs Hmax. rewrite Update_pgdown. cbn [fst].
  unfold pageDown. rewrite Hc.
  pose proof (maxScroll_of_empty_content _ Hh ltac:(lia)) as Hms.
  rewrite (sub_small _ 2) by int_range.
  rewrite (add_small (scrollOffset (viewport m))) by int_range.
  destruct (Z.ltb_spec 0 (totalLines "" -! height (viewport m) +! 1)); [lia |].
  reflexivity.
Qed.

Lemma Update_pgup (m : Model) :
  Update m (KeyMsg "pgup") = (pageUp m, CmdNil).
Proof. reflexivity. Qed.

(** A page up that does not reach the top. *)
Lemma pgup_above_top (m : Model) :
  GoInt.is_int (height (viewport m)) ->
  2 <= height (viewport m) ->
  height (viewport m) - 2 <= scrollOffset (viewport m) <= GoInt.maxInt ->
  fst (Update m (KeyMsg "pgup"))
  = set_scrollOffset m (scrollOffset (viewport m) - (height (viewport m) - 2)).
Proof.
  intros Hh H2 Hs. rewrite Update_pgup. cbn [fst]. unfold pageUp.
  rewrite (sub_small _ 2) by int_range.
  rewrite sub_small by int_range.
  change (scrollOffset (viewport (set_scrollOffset m
             (scrollOffset (viewport m) - (height (viewport m) - 2)))))
    with (scrollOffset (viewport m) - (height (viewport m) - 2)).
  destruct (Z.ltb_spec (scrollOffset (viewport m) - (height (viewport m) - 2)) 0);
    [lia | reflexivity].
Qed.

Lemma pgdown_run (n : nat) : forall m : Model,
  content (viewport m) = "" ->
  GoInt.is_int (height (viewport m)) ->
  2 <= height (viewport m) ->
  0 <= scrollOffset (viewport m) ->
  scrollOffset (viewport m) + Z.of_nat n * (height (viewport m) - 2)
    <= GoInt.maxInt ->
  feed m (repeat (KeyMsg "pgdown") n)
  = set_scrollOffset m (scrollOffset (viewport m)
                        + Z.of_nat n * (height (viewport m) - 2)).
Proof.
  induction n as [| n IH]; intros m Hc Hh H2 Hs Hmax.
  - cbn [repeat feed fold_left]. rewrite Z.mul_0_l, Z.add_0_r.
    now rewrite set_scrollOffset_same.
  - cbn [repeat]. rewrite feed_cons.
    rewrite Nat2Z.inj_succ in *. pose proof (Nat2Z.is_nonneg n) as Hn.
    rewrite pgdown_of_empty_content by (try assumption; nia).
    rewrite IH; cbn [set_scrollOffset set_viewport viewport content height
                       scrollOffset]; try assumption; try nia.
    unfold set_scrollOffset, set_viewport. cbn. do 2 f_equal. ring.
Qed.

Lemma pgup_run (n : nat) : forall (m : Model) (base : Z),
  GoInt.is_int (height (viewport m)) ->
  2 <= height (viewport m) ->
  0 <= base ->
  scrollOffset (viewport m) = base + Z.of_nat n * (height (viewport m) - 2) ->
  scrollOffset (viewport m) <= GoInt.maxInt ->
  feed m (repeat (KeyMsg "pgup") n) = set_scrollOffset m base.
Proof.
  induction n as [| n IH]; intros m base Hh H2 Hb Hs Hmax.
  - cbn [repeat feed fold_left]. rewrite Z.mul_0_l, Z.add_0_r in Hs.
    rewrite <- Hs. now rewrite set_scrollOffset_same.
  - cbn [repeat]. rewrite feed_cons.
    rewrite Nat2Z.inj_succ in *. pose proof (Nat2Z.is_nonneg n) as Hn.
    rewrite pgup_above_top by (try assumption; nia).
    rewrite (IH _ base); try assumption;
      cbn [set_scrollOffset set_viewport viewport content height scrollOffset];
      try assumption; try nia.
    reflexivity.
Qed.

(** In a reachable model whose viewport is two lines or more high, the
    stored text being empty, [n] page downs move the offset by
    [n * (height - 2)] with no upper bound but that of the integers, and
    [n] page ups then bring the model back. *)
Theorem page_up_undoes_page_down (m : Model) (n : nat) :
  Reachable m ->
  2 <= height (viewport m) ->
  0 <= scrollOffset (viewport m) ->
  scrollOffset (viewport m) + Z.of_nat n * (height (viewport m) - 2)
    <= GoInt.maxInt ->
  feed m (repeat (KeyMsg "pgdown") n)
  = set_scrollOffset m (scrollOffset (viewport m)
                        + Z.of_nat n * (height (viewport m) - 2))
  /\ feed m (repeat (KeyMsg "pgdown") n ++ repeat (KeyMsg "pgup") n)%list = m.
Proof.
  intros Hm H2 Hs Hmax.
  pose proof (Reachable_content m Hm) as Hc.
  pose proof (Reachable_height_int m Hm) as Hh.
  pose proof (pgdown_run n m Hc Hh H2 Hs Hmax) as Hdown.
  split; [exact Hdown |].
  unfold feed. rewrite fold_left_app. fold (feed m (repeat (KeyMsg "pgdown") n)).
  rewrite Hdown.
  fold (feed (set_scrollOffset m (scrollOffset (viewport m)
                + Z.of_nat n * (height (viewport m) - 2)))
             (repeat (KeyMsg "pgup") n)).
  rewrite (pgup_run n _ (scrollOffset (viewport m))); try assumption;
    try reflexivity.
  now rewrite set_scrollOffset_twice, set_scrollOffset_same.
Qed.

Lemma page_up_undoes_page_down_witness :
  let m := feed (Sample.model Sample.plainRenderer [Sample.article])
                [KeyMsg "enter"] in
  scrollOffset (viewport (feed m (repeat (KeyMsg "pgdown") 5))) = 90
  /\ feed m (repeat (KeyMsg "pgdown") 5 ++ repeat (KeyMsg "pgup") 5)%list = m.
Proof.
  cbv zeta.
  destruct (page_up_undoes_page_down
              (feed (Sample.model Sample.plainRenderer [Sample.article])
                    [KeyMsg "enter"]) 5) as (Hdown & Hback).
  - apply Reachable_feed, Reachable_sample.
  - cbn. lia.
  - cbn. lia.
  - vm_compute. discriminate.
  - split; [rewrite Hdown; reflexivity | exact Hback].
Defined.

(* ================================================================= *)
(** ** C3: paging down an opened article of 100 lines *)

(** C3, at a model that the program reaches: a list of one article, the
    default window of 24 rows, a renderer that makes 100 lines of the
    article, and the article opened with "enter".  The text that
    [renderArticle] shows has 100 lines in a viewport of 20, for which
    the bound is [100 - 20 + 1 = 81]; but the text is assigned to the
    copy of the model that [renderArticle] receives, the stored text
    stays empty, and [pageDown], which clamps only when the bound it
    computes from the stored text is positive, adds [20 - 2 = 18] with
    every "pgdown": the offset is [18 * n] after [n] of them, never 81
    and above 81 from the fifth on. *)
Theorem pgdown_passes_81 :
  let opened := feed (Sample.model Sample.hundredLineRenderer [Sample.article])
                     [KeyMsg "enter"] in
  Reachable opened
  /\ currentView opened = ArticleView
  /\ forall n : nat,
       18 * Z.of_nat n <= GoInt.maxInt ->
       let m := feed opened (repeat (KeyMsg "pgdown") n) in
       (exists shown : Model,
           @loadArticle Sample.host m = Ok shown
           /\ totalLines (content (viewport shown)) = 100
           /\ height (viewport shown) = 20
           /\ spec_maxScroll (viewport shown) = 81
           /\ scrollOffset (viewport shown) = scrollOffset (viewport m))
       /\ content (viewport m) = ""
       /\ height (viewport m) -! 2 = 18
       /\ scrollOffset (viewport m) = 18 * Z.of_nat n
       /\ scrollOffset (viewport m) <> 81
       /\ ((5 <= n)%nat -> 81 < scrollOffset (viewport m)).
Proof.
  cbv zeta.
  set (opened := feed (Sample.model Sample.hundredLineRenderer [Sample.article])
                      [KeyMsg "enter"]).
  split; [apply Reachable_feed, Reachable_sample |].
  split; [reflexivity |].
  intros n Hn.
  assert (Hrun : feed opened (repeat (KeyMsg "pgdown") n)
                 = set_scrollOffset opened (18 * Z.of_nat n)).
  { rewrite pgdown_run.
    - f_equal. change (scrollOffset (viewport opened)) with 0.
      change (height (viewport opened)) with 20. lia.
    - reflexivity.
    - change (height (viewport opened)) with 20. int_range.
    - change (height (viewport opened)) with 20. lia.
    - change (scrollOffset (viewport opened)) with 0. lia.
    - change (scrollOffset (viewport opened)) with 0.
      change (height (viewport opened)) with 20. lia. }
  rewrite Hrun.
  split.
  - eexists. split; [reflexivity |].
    repeat split.
  - repeat split.
    + cbn [set_scrollOffset set_viewport viewport scrollOffset]. lia.
    + intros H5. cbn [set_scrollOffset set_viewport viewport scrollOffset]. lia.
Qed.


(** ** Byte strings *)

Lemma append_assoc (a b c : string) : (a ++ b) ++ c = a ++ b ++ c.
Proof. induction a as [| x a IH]; cbn; [reflexivity | now rewrite IH]. Qed.

Lemma append_nil_r (a : string) : a ++ "" = a.
Proof. induction a as [| x a IH]; cbn; [reflexivity | now rewrite IH]. Qed.

Lemma prefix_append (u b : string) : String.prefix u (u ++ b) = true.
Proof.
  induction u as [| x u IH]; cbn; [destruct b; reflexivity |].
  destruct (ascii_dec x x); [exact IH | contradiction].
Qed.

Lemma Contains_here (u b : string) : strings.Contains (u ++ b) u = true.
Proof.
  destruct u as [| x u]; [destruct b; reflexivity |].
  change (String.prefix (String x u) (String x u ++ b)
          || strings.Contains (u ++ b) (String x u) = true).
  now rewrite prefix_append.
Qed.

Lemma Contains_append (a s u : string) :
  strings.Contains s u = true -> strings.Contains (a ++ s) u = true.
Proof.
  intros Hs. induction a as [| x a IH]; [exact Hs |].
  cbn [append strings.Contains]. rewrite IH. apply orb_true_r.
Qed.

(** ** The categories of the markdown document *)

Lemma writeCategories_from (cats : list string) : forall (i : Z) (md x : string),
  0 < i -> i + GoInt.len cats <= GoInt.maxInt ->
  writeCategories i cats (md ++ x)
  = md ++ strings.Join (x :: map (fun c => "`" ++ c ++ "`") cats) ", ".
Proof.
  induction cats as [| c rest IH]; intros i md x Hi Hmax.
  - reflexivity.
  - cbn [writeCategories map].
    destruct (Z.ltb_spec 0 i); [| lia].
    assert (Hlen : GoInt.len (c :: rest) = GoInt.len rest + 1)
      by (unfold GoInt.len; cbn [List.length]; lia).
    pose proof (len_nonneg rest).
    rewrite add_small by int_range.
    replace (((md ++ x) ++ ", ") ++ "`" ++ c ++ "`")
      with ((md ++ x ++ ", ") ++ "`" ++ c ++ "`")
      by now rewrite !append_assoc.
    rewrite IH by lia.
    change (strings.Join (x :: ("`" ++ c ++ "`") :: map (fun c0 => "`" ++ c0 ++ "`") rest) ", ")
      with (x ++ ", " ++ strings.Join (("`" ++ c ++ "`") :: map (fun c0 => "`" ++ c0 ++ "`") rest) ", ").
    now rewrite !append_assoc.
Qed.

(** The loop of [renderArticle] over the categories writes them as code
    spans separated by ", ", after the text built so far. *)
Theorem categories_are_joined (cats : list string) (md : string) :
  GoInt.len cats <= GoInt.maxInt ->
  writeCategories 0 cats md
  = md ++ strings.Join (map (fun c => "`" ++ c ++ "`") cats) ", ".
Proof.
  intros Hmax. destruct cats as [| c rest].
  - cbn. now rewrite append_nil_r.
  - cbn [writeCategories map]. change (0 <? 0) with false. cbv iota.
    change (0 +! 1) with 1.
    apply writeCategories_from; [lia |].
    unfold GoInt.len in *. cbn [List.length] in Hmax. lia.
Qed.

Lemma categories_are_joined_witness :
  writeCategories 0 ["news"; "tech"; "eu"] "**Categories:** "
  = "**Categories:** `news`, `tech`, `eu`".
Proof.
  rewrite (categories_are_joined ["news"; "tech"; "eu"] "**Categories:** ").
  - reflexivity.
  - vm_compute. discriminate.
Defined.

(** ** The placeholder of an image *)

(** The placeholder of an image is empty for the empty URL and for no
    other; in every other case it shows the URL, whatever the terminal
    supports. *)
Theorem image_placeholder_shows_url (H : Host) (imageURL : string) :
  (GetImagePlaceholder imageURL = "" <-> imageURL = "")
  /\ (imageURL <> "" ->
      strings.Contains (GetImagePlaceholder imageURL) imageURL = true).
Proof.
  unfold GetImagePlaceholder, RenderImage.
  destruct (String.eqb_spec imageURL "") as [-> | Hne].
  - split; [tauto | contradiction].
  - destruct (SupportsKitty DetectImageSupport || SupportsSixel DetectImageSupport
              || SupportsITerm DetectImageSupport).
    + split; [split; [discriminate | contradiction] |].
      intros _. apply (Contains_append _ (imageURL ++ _)). apply Contains_here.
    + split; [split; [discriminate | contradiction] |].
      intros _. apply (Contains_append _ (imageURL ++ _)). apply Contains_here.
Qed.

(* ================================================================= *)
(** * Properties of the article cache *)

(** ** Storing articles *)

Lemma tracks_setTrue (m : StringSet) (arts : list Article) (a : Article) :
  tracks m arts -> tracks (setTrue m (Link a)) (arts ++ [a]).
Proof.
  intros Hm k. unfold setTrue, links. rewrite map_app, in_app_iff. cbn.
  destruct (String.eqb_spec k (Link a)) as [-> | Hne].
  - tauto.
  - rewrite (Hm k). unfold links. intuition congruence.
Qed.

Lemma tracks_existing (arts : list Article) : forall (m : StringSet) (seen : list Article),
  tracks m seen ->
  tracks (fold_left (fun existingMap article => setTrue existingMap (Link article))
                    arts m)
         (seen ++ arts).
Proof.
  induction arts as [| a arts IH]; intros m seen Hm.
  - cbn. now rewrite app_nil_r.
  - cbn [fold_left].
    replace (seen ++ a :: arts)%list with ((seen ++ [a]) ++ arts)%list
      by now rewrite <- app_assoc.
    apply IH. now apply tracks_setTrue.
Qed.

(** What the merge of [StoreArticles] appends: articles of the new list,
    in its order, with links that are new to the cache and different
    from one another, and such that every link of the new list is then
    cached. *)
Lemma mergeArticles_appends (new : list Article) :
  forall (cached : list Article) (m : StringSet),
  tracks m cached ->
  exists added : list Article,
    news.mergeArticles cached m new = (cached ++ added)%list
    /\ incl added new
    /\ NoDup (links added)
    /\ (forall k, In k (links added) -> ~ In k (links cached))
    /\ (forall a, In a new -> In (Link a) (links (cached ++ added))).
Proof.
  induction new as [| a new IH]; intros cached m Hm.
  - exists []. cbn. rewrite app_nil_r. repeat split; try easy. constructor.
  - cbn [news.mergeArticles].
    destruct (m (Link a)) eqn:Hseen; cbn [negb].
    + destruct (IH cached m Hm) as (added & Heq & Hincl & Hnd & Hnew & Hall).
      exists added. repeat split; try assumption.
      * intros x Hx. right. now apply Hincl.
      * intros b [<- | Hb]; [| now apply Hall].
        unfold links. rewrite map_app, in_app_iff. left. now apply Hm.
    + destruct (IH (cached ++ [a])%list (setTrue m (Link a))
                   (tracks_setTrue m cached a Hm))
        as (added & Heq & Hincl & Hnd & Hnew & Hall).
      exists (a :: added). rewrite Heq, <- app_assoc. cbn [app].
      assert (Hfresh : ~ In (Link a) (links cached)).
      { intros Hin. apply Hm in Hin. congruence. }
      assert (Hlinks : forall k, In k (links added) ->
                                 ~ In k (links cached) /\ k <> Link a).
      { intros k Hk. pose proof (Hnew k Hk) as Hno. unfold links in Hno.
        rewrite map_app, in_app_iff in Hno. cbn in Hno. split.
        - intros Hc. apply Hno. now left.
        - intros ->. apply Hno. right. now left. }
      repeat split.
      * intros x [<- | Hx]; [now left | right; now apply Hincl].
      * cbn. constructor; [| exact Hnd].
        intros Hin. now apply (Hlinks _ Hin).
      * intros k [<- | Hk]; [exact Hfresh | now apply (Hlinks k Hk)].
      * intros b [<- | Hb].
        -- unfold links. rewrite map_app, in_app_iff. right. now left.
        -- specialize (Hall b Hb). unfold links in *.
           rewrite <- app_assoc in Hall. exact Hall.
Qed.

Lemma StoreArticles_appends (H : Host) (L : Library) (ac : news.ArticleCache)
      (new : list Article) :
  exists added : list Article,
    news.articles (fst (news.StoreArticles ac new))
    = (news.articles ac ++ added)%list
    /\ incl added new
    /\ NoDup (links added)
    /\ (forall k, In k (links added) -> ~ In k (links (news.articles ac)))
    /\ (forall a, In a new ->
                  In (Link a) (links (news.articles ac ++ added))).
Proof.
  unfold news.StoreArticles. cbn [fst news.articles].
  apply mergeArticles_appends.
  apply (tracks_existing (news.articles ac) emptySet []).
  intros k. cbn. split; [discriminate | contradiction].
Qed.

(** [StoreArticles] keeps what is cached, in place and unchanged, and
    appends behind it; no two cached articles get the same link if no
    two had it before. *)
Theorem StoreArticles_keeps_links_unique (H : Host) (L : Library)
        (ac : news.ArticleCache) (new : list Article) :
  NoDup (links (news.articles ac)) ->
  firstn (List.length (news.articles ac))
         (news.articles (fst (news.StoreArticles ac new)))
  = news.articles ac
  /\ NoDup (links (news.articles (fst (news.StoreArticles ac new)))).
Proof.
  intros Hnd.
  destruct (StoreArticles_appends H L ac new)
    as (added & -> & _ & Hadded & Hnew & _).
  split.
  - rewrite firstn_app, Nat.sub_diag, firstn_all. cbn. now rewrite app_nil_r.
  - unfold links in *. rewrite map_app.
    apply NoDup_app; try assumption.
    intros k Hk Hk'. exact (Hnew k Hk' Hk).
Qed.

(** After [StoreArticles] the link of every article of the new list is
    cached, every cached article was cached before or is one of the new
    list, and an article whose link was cached already is not stored
    again: the cached one stays. *)
Theorem StoreArticles_caches_every_link (H : Host) (L : Library)
        (ac : news.ArticleCache) (new : list Article) :
  let stored := news.articles (fst (news.StoreArticles ac new)) in
  (forall a, In a new -> In (Link a) (links stored))
  /\ (forall b, In b stored -> In b (news.articles ac) \/ In b new)
  /\ (forall b, In b stored -> In (Link b) (links (news.articles ac)) ->
                In b (news.articles ac)).
Proof.
  cbv zeta.
  destruct (StoreArticles_appends H L ac new)
    as (added & -> & Hincl & _ & Hnew & Hall).
  repeat split.
  - exact Hall.
  - intros b Hb. apply in_app_iff in Hb. destruct Hb as [Hb | Hb];
      [now left | right; now apply Hincl].
  - intros b Hb Hlink. apply in_app_iff in Hb. destruct Hb as [Hb | Hb];
      [exact Hb |].
    exfalso. apply (Hnew (Link b)); [| exact Hlink].
    unfold links. now apply in_map.
Qed.

(** Storing a list a second time stores nothing: the cached articles are
    those of the first time, whatever the clocks. *)
Theorem StoreArticles_twice (H1 H2 : Host) (L : Library)
        (ac : news.ArticleCache) (new : list Article) :
  news.articles
    (fst (@news.StoreArticles H2 L (fst (@news.StoreArticles H1 L ac new)) new))
  = news.articles (fst (@news.StoreArticles H1 L ac new)).
Proof.
  destruct (StoreArticles_appends H1 L ac new)
    as (added & Heq & _ & _ & _ & Hall).
  destruct (StoreArticles_appends H2 L (fst (@news.StoreArticles H1 L ac new)) new)
    as (again & Heq2 & Hincl2 & _ & Hnew2 & _).
  rewrite Heq2. rewrite Heq in *.
  destruct again as [| b again]; [now rewrite app_nil_r |].
  exfalso. apply (Hnew2 (Link b)); [now left |].
  apply Hall. apply Hincl2. now left.
Qed.

Lemma StoreArticles_keeps_links_unique_witness :
  news.articles
    (fst (@news.StoreArticles SampleNews.host SampleNews.library SampleNews.cache
            [SampleNews.firstAgain; SampleNews.second; SampleNews.second]))
  = [SampleNews.first; SampleNews.second]
  /\ NoDup (links (news.articles
       (fst (@news.StoreArticles SampleNews.host SampleNews.library SampleNews.cache
               [SampleNews.firstAgain; SampleNews.second; SampleNews.second])))).
Proof.
  split; [reflexivity |].
  apply (StoreArticles_keeps_links_unique SampleNews.host SampleNews.library
           SampleNews.cache
           [SampleNews.firstAgain; SampleNews.second; SampleNews.second]).
  cbn. constructor; [intros [] | constructor].
Defined.

(** ** Searching the cache *)

Lemma searchLoop_all (L : Library) (query : string) (limit : Z)
      (rest : list Article) : forall matches : list Article,
  limit <= 0 ->
  news.searchLoop query limit rest matches
  = (matches ++ filter (news.matchesQuery query) rest)%list.
Proof.
  induction rest as [| a rest IH]; intros matches Hl.
  - cbn. now rewrite app_nil_r.
  - cbn [news.searchLoop filter].
    destruct (Z.ltb_spec 0 limit); [lia |]. cbn [andb].
    destruct (news.matchesQuery query a).
    + rewrite IH by assumption. now rewrite <- app_assoc.
    + now apply IH.
Qed.

Lemma searchLoop_first (L : Library) (query : string) (limit : Z)
      (rest : list Article) : forall matches : list Article,
  GoInt.len matches < limit ->
  news.searchLoop query limit rest matches
  = (matches
     ++ firstn (Z.to_nat (limit - GoInt.len matches))
               (filter (news.matchesQuery query) rest))%list.
Proof.
  induction rest as [| a rest IH]; intros matches Hl.
  - cbn. now rewrite firstn_nil, app_nil_r.
  - pose proof (len_nonneg matches) as H0.
    cbn [news.searchLoop filter].
    destruct (Z.ltb_spec 0 limit); [| lia]. cbn [andb].
    destruct (news.matchesQuery query a).
    + assert (Hlen : GoInt.len (matches ++ [a]) = GoInt.len matches + 1).
      { unfold GoInt.len. rewrite length_app. cbn. lia. }
      replace (Z.to_nat (limit - GoInt.len matches))
        with (S (Z.to_nat (limit - GoInt.len matches - 1))) by lia.
      cbn [firstn].
      destruct (Z.leb_spec limit (GoInt.len (matches ++ [a]))).
      * replace (limit - GoInt.len matches - 1) with 0 by lia.
        reflexivity.
      * rewrite IH by lia. rewrite Hlen, <- app_assoc. cbn [app].
        replace (limit - (GoInt.len matches + 1))
          with (limit - GoInt.len matches - 1) by lia.
        reflexivity.
    + destruct (Z.leb_spec limit (GoInt.len matches)); [lia |].
      now apply IH.
Qed.

(** [SearchArticles] gives the cached articles whose title, description
    or content contains the query, all in lower case, in the order of
    the cache: all of them for a limit that is not positive, the first
    [limit] of them otherwise. *)
Theorem SearchArticles_is_a_filter (L : Library) (ac : news.ArticleCache)
        (query : string) (limit : Z) :
  let found := filter (news.matchesQuery (strings_ToLower query))
                      (news.articles ac) in
  news.SearchArticles ac query limit
  = if 0 <? limit then firstn (Z.to_nat limit) found else found.
Proof.
  cbv zeta. unfold news.SearchArticles.
  destruct (Z.ltb_spec 0 limit).
  - rewrite searchLoop_first by (cbn; lia). cbn. now rewrite Z.sub_0_r.
  - now rewrite searchLoop_all by lia.
Qed.

(** ** Clearing the cache, and its age *)

(** A cleared cache holds nothing: [GetCachedArticles] and
    [SearchArticles] return no article whatever the limit, and the cache
    is stale on every clock later than an hour after the zero time. *)
Theorem Clear_empties_the_cache (H : Host) (L : Library) (ac : news.ArticleCache)
        (query : string) (limit : Z) :
  let cleared := fst (news.Clear ac) in
  news.GetCachedArticles cleared limit = []
  /\ news.SearchArticles cleared query limit = []
  /\ (time.unixNano zeroTime + time.Hour < time.unixNano time_Now ->
      news.IsStale cleared = true).
Proof.
  cbv zeta. unfold news.Clear. cbn [fst]. repeat split.
  - unfold news.GetCachedArticles. cbn.
    destruct ((0 <? limit) && (limit <? 0)); [| reflexivity].
    now rewrite firstn_nil.
  - intros Hnow. unfold news.IsStale, time.Sub. cbn [news.lastUpdate].
    unfold time.minDuration, time.maxDuration, GoInt.minInt, GoInt.maxInt,
      time.Hour, time.Minute, time.Second in *.
    destruct (Z.ltb_spec (time.unixNano time_Now - time.unixNano zeroTime)
                         (- 2 ^ 63)); [lia |].
    destruct (Z.ltb_spec (2 ^ 63 - 1)
                         (time.unixNano time_Now - time.unixNano zeroTime));
      apply Z.ltb_lt; lia.
Qed.

Lemma Clear_empties_the_cache_witness :
  news.GetCachedArticles (fst (@news.Clear SampleNews.library SampleNews.cache)) 5 = []
  /\ @news.IsStale Sample.host (fst (@news.Clear SampleNews.library SampleNews.cache))
     = true.
Proof.
  destruct (Clear_empties_the_cache Sample.host SampleNews.library
              SampleNews.cache "storm" 5) as (Hget & _ & Hstale).
  split; [exact Hget |].
  apply Hstale. vm_compute. reflexivity.
Defined.

(** A cache is stale from more than an hour after it was stored on, and
    not before: the clock of the later call against the clock of
    [StoreArticles]. *)
Theorem stale_an_hour_after_storing (H1 H2 : Host) (L : Library)
        (ac : news.ArticleCache) (new : list Article) :
  @news.IsStale H2 (fst (@news.StoreArticles H1 L ac new)) = true
  <-> time.Hour < time.unixNano (@time_Now H2) - time.unixNano (@time_Now H1).
Proof.
  unfold news.IsStale, news.StoreArticles, time.Sub. cbn [fst news.lastUpdate].
  unfold time.minDuration, time.maxDuration, GoInt.minInt, GoInt.maxInt,
    time.Hour, time.Minute, time.Second.
  destruct (Z.ltb_spec (time.unixNano (@time_Now H2) - time.unixNano (@time_Now H1))
                       (- 2 ^ 63));
    [| destruct (Z.ltb_spec (2 ^ 63 - 1)
         (time.unixNano (@time_Now H2) - time.unixNano (@time_Now H1)))];
    rewrite Z.ltb_lt; lia.
Qed.

(** ** Loading the decoded cache file *)

Lemma categories_read_back (cats : list string) : forall acc : list string,
  fold_left
    (fun categories cat =>
       match cat with
       | JString catStr => (categories ++ [catStr])%list
       | _ => categories
       end)
    (map JString cats) acc
  = (acc ++ cats)%list.
Proof.
  induction cats as [| c cats IH]; intros acc; cbn.
  - now rewrite app_nil_r.
  - rewrite IH. now rewrite <- app_assoc.
Qed.

(** [parseArticleFromMap] reads every field of the object of an article,
    the time as [time.Parse] reads its string. *)
Lemma parseArticleFromMap_reads_back (L : Library) (a : Article)
      (published : string) (parsed : time.Time) :
  time_Parse RFC3339 published = inl parsed ->
  news.parseArticleFromMap (articleObject published a)
  = mkArticle (Title a) (Description a) (Content a) (Link a) parsed
              (Source a) (ImageURL a) (Categories a).
Proof.
  intros Hparse. destruct a as [t d c l p s i cats].
  unfold news.parseArticleFromMap, articleObject.
  cbn [Title Description Content Link Published Source ImageURL Categories].
  destruct (String.eqb_spec i "") as [-> | Hi]; destruct cats as [| cat cats];
    cbn; rewrite Hparse; try reflexivity;
    rewrite (categories_read_back cats [cat]); reflexivity.
Qed.

Lemma articles_read_back (L : Library) (stamp : time.Time -> string)
      (arts : list Article) :
  (forall a, In a arts ->
             time_Parse RFC3339 (stamp (Published a)) = inl (Published a)) ->
  forall acc : list Article,
  fold_left
    (fun arts articleData =>
       match articleData with
       | JObject articleMap => (arts ++ [news.parseArticleFromMap articleMap])%list
       | _ => arts
       end)
    (map (fun a => JObject (articleObject (stamp (Published a)) a)) arts) acc
  = (acc ++ arts)%list.
Proof.
  induction arts as [| a arts IH]; intros Htimes acc; cbn [map fold_left].
  - now rewrite app_nil_r.
  - rewrite (parseArticleFromMap_reads_back L a _ (Published a))
      by (apply Htimes; now left).
    rewrite IH by (intros b Hb; apply Htimes; now right).
    rewrite <- app_assoc. destruct a. reflexivity.
Qed.

(** The article that is read when [time.Parse] does not read its time. *)
Lemma parseArticleFromMap_unparsed (L : Library) (a : Article)
      (published : string) (err : error) :
  time_Parse RFC3339 published = inr err ->
  news.parseArticleFromMap (articleObject published a)
  = mkArticle (Title a) (Description a) (Content a) (Link a) zeroTime
              (Source a) (ImageURL a) (Categories a).
Proof.
  intros Hparse. destruct a as [t d c l p s i cats].
  unfold news.parseArticleFromMap, articleObject.
  cbn [Title Description Content Link Published Source ImageURL Categories].
  destruct (String.eqb_spec i "") as [-> | Hi]; destruct cats as [| cat cats];
    cbn; rewrite Hparse; try reflexivity;
    rewrite (categories_read_back cats [cat]); reflexivity.
Qed.

Lemma articles_read_unparsed (L : Library) (stamp : time.Time -> string)
      (arts : list Article) :
  (forall t, exists err, time_Parse RFC3339 (stamp t) = inr err) ->
  forall acc : list Article,
  fold_left
    (fun arts articleData =>
       match articleData with
       | JObject articleMap => (arts ++ [news.parseArticleFromMap articleMap])%list
       | _ => arts
       end)
    (map (fun a => JObject (articleObject (stamp (Published a)) a)) arts) acc
  = (acc ++ map (fun a => mkArticle (Title a) (Description a) (Content a)
                            (Link a) zeroTime (Source a) (ImageURL a)
                            (Categories a)) arts)%list.
Proof.
  intros Hfail. induction arts as [| a arts IH]; intros acc; cbn [map fold_left].
  - now rewrite app_nil_r.
  - destruct (Hfail (Published a)) as [err Herr].
    rewrite (parseArticleFromMap_unparsed L a _ err Herr).
    rewrite IH, <- app_assoc. reflexivity.
Qed.

(** What [loadFromDisk] makes of the decoded file.  When the cache file
    is read and decodes to an object with, under "articles", the array
    of the objects of the articles [arts] and, under "last_update", the
    time [last], and [time.Parse] reads the strings of the times, a new
    cache holds these articles, in their order and with all their
    fields, and that time, and nothing is printed.  A time that
    [time.Parse] does not read is the zero time in the article, and
    leaves the last update of the cache as it was. *)
Theorem loadFromDisk_reads_objects (L : Library) (stamp : time.Time -> string)
        (arts : list Article) (last : time.Time) (dir data : string) :
  os_ReadFile (filepath_Join [dir; "articles.json"]) = inl data ->
  json_Unmarshal data = inl (cacheObject stamp arts last) ->
  ((forall a, In a arts ->
              time_Parse RFC3339 (stamp (Published a)) = inl (Published a)) ->
   time_Parse RFC3339 (stamp last) = inl last ->
   news.loadFromDisk (news.mkArticleCache [] zeroTime dir)
   = (news.mkArticleCache arts last dir, []))
  /\ ((forall t, exists err, time_Parse RFC3339 (stamp t) = inr err) ->
      news.loadFromDisk (news.mkArticleCache [] zeroTime dir)
      = (news.mkArticleCache
           (map (fun a => mkArticle (Title a) (Description a) (Content a)
                                    (Link a) zeroTime (Source a) (ImageURL a)
                                    (Categories a)) arts)
           zeroTime dir, [])).
Proof.
  intros Hread Hjson. split.
  - intros Htimes Hlast. unfold news.loadFromDisk.
    cbn [news.cacheDir news.articles news.lastUpdate].
    rewrite Hread, Hjson. unfold cacheObject.
    cbn [lookup String.eqb Ascii.eqb Bool.eqb asString].
    rewrite (articles_read_back L stamp arts Htimes []).
    cbn. rewrite Hlast. reflexivity.
  - intros Hfail. unfold news.loadFromDisk.
    cbn [news.cacheDir news.articles news.lastUpdate].
    rewrite Hread, Hjson. unfold cacheObject.
    cbn [lookup String.eqb Ascii.eqb Bool.eqb asString].
    rewrite (articles_read_unparsed L stamp arts Hfail []).
    destruct (Hfail last) as [err Herr]. cbn. rewrite Herr. reflexivity.
Qed.

Lemma loadFromDisk_reads_objects_witness :
  @news.loadFromDisk SampleNews.savedLibrary
     (news.mkArticleCache [] zeroTime "/home/reader/.nwcli/cache")
  = (news.mkArticleCache [SampleNews.first; SampleNews.second]
                         Sample.ninetySecondsAgo "/home/reader/.nwcli/cache",
     []).
Proof.
  apply (proj1 (loadFromDisk_reads_objects SampleNews.savedLibrary
                  (fun t => "910")
                  [SampleNews.first; SampleNews.second] Sample.ninetySecondsAgo
                  "/home/reader/.nwcli/cache" "{}" eq_refl eq_refl)).
  - intros a [<- | [<- | []]]; reflexivity.
  - reflexivity.
Defined.

(* ================================================================= *)
(** * Properties of the renderer and of the commands *)

(** ** The pager and the list of articles *)

(** [renderMarkdownWithPager] runs the pager only when [ShouldUsePager]
    allows it and the list is not empty: the model that runs is the one
    [NewModel] makes for the list, with the first article selected, and
    nothing is printed then.  With the flag [noPager] or an empty list
    no program is run. *)
Theorem pager_runs_only_on_articles (H : Host) (T : Terminal)
        (arts : list Article) (title : string) (noPager : bool) :
  let '(err, launched, printed) := renderMarkdownWithPager arts title noPager in
  (forall m : Model,
      In (RunProgram m) launched ->
      noPager = false /\ ShouldUsePager noPager = true /\ arts <> []
      /\ NewModel glamour_NewTermRenderer arts title = inl m
      /\ articles m = arts /\ selectedIndex m = 0 /\ currentView m = IndexView
      /\ launched = [RunProgram m] /\ printed = [] /\ err = tea_Run m)
  /\ (noPager = true \/ arts = [] -> launched = []).
Proof.
  unfold renderMarkdownWithPager, LaunchTUI.
  destruct (ShouldUsePager noPager) eqn:Hpager; cbn [andb].
  - destruct (Z.ltb_spec 0 (GoInt.len arts)) as [Hlen | Hlen].
    + assert (Hne : arts <> []) by (intros ->; cbn in Hlen; lia).
      assert (Hflag : noPager = false).
      { destruct noPager; [| reflexivity]. cbn in Hpager. discriminate. }
      unfold NewModel.
      destruct glamour_NewTermRenderer as [r | [e]].
      * destruct (Z.eqb_spec (GoInt.len arts) 0); [lia |].
        split.
        -- intros m [Hm | []]. injection Hm as <-. repeat split; auto.
        -- intros [-> | ->]; [discriminate | contradiction].
      * split; [intros m [] | reflexivity].
    + destruct renderer.NewMarkdownRenderer as [mr | err].
      * destruct (renderer.RenderArticles mr arts title) as [output [err |]];
          (split; [intros m [] | reflexivity]).
      * split; [intros m [] | reflexivity].
  - destruct renderer.NewMarkdownRenderer as [mr | err].
    + destruct (renderer.RenderArticles mr arts title) as [output [err |]];
        (split; [intros m [] | reflexivity]).
    + split; [intros m [] | reflexivity].
Qed.

(** [renderMarkdownWithPager] prints at most one text, the output of
    [RenderArticles], and only when it returns no error and ran no
    program; with the flag [noPager] and a renderer that works it always
    does so. *)
Theorem prints_only_without_error (H : Host) (T : Terminal)
        (arts : list Article) (title : string) (noPager : bool) :
  let '(err, launched, printed) := renderMarkdownWithPager arts title noPager in
  (printed <> [] ->
   err = None /\ launched = []
   /\ exists (mr : renderer.MarkdownRenderer) (output : string),
        renderer.NewMarkdownRenderer = inl mr
        /\ renderer.RenderArticles mr arts title = (output, None)
        /\ printed = [output])
  /\ (noPager = true ->
      forall (mr : renderer.MarkdownRenderer) (output : string),
        renderer.NewMarkdownRenderer = inl mr ->
        renderer.RenderArticles mr arts title = (output, None) ->
        err = None /\ printed = [output]).
Proof.
  unfold renderMarkdownWithPager, LaunchTUI.
  destruct (ShouldUsePager noPager && (0 <? GoInt.len arts)) eqn:Huse.
  - destruct (NewModel glamour_NewTermRenderer arts title) as [m | err]; split;
      try (intros Hp; now contradiction Hp);
      intros ->; cbn in Huse; discriminate.
  - destruct renderer.NewMarkdownRenderer as [mr | err].
    + destruct (renderer.RenderArticles mr arts title) as [output [err |]] eqn:Hr.
      * split; [intros Hp; now contradiction Hp |].
        intros _ mr' output' Hmr Hout. injection Hmr as <-.
        rewrite Hr in Hout. discriminate.
      * split.
        -- intros _. repeat split. exists mr, output. repeat split. exact Hr.
        -- intros _ mr' output' Hmr Hout. injection Hmr as <-.
           rewrite Hr in Hout. injection Hout as <-. split; reflexivity.
    + split; [intros Hp; now contradiction Hp |].
      intros _ mr' output' Hmr. discriminate.
Qed.

(** ** The document of one article *)

(** For an article without an image, [RenderSingleArticle] and the pager
    build the same markdown document: the renderer of the pager gets
    from [renderArticle] what [RenderSingleArticle] hands to its own. *)
Theorem single_article_document (H : Host) (mr : renderer.MarkdownRenderer)
        (a : Article) :
  ImageURL a = "" ->
  renderer.singleArticleMarkdown a = articleMarkdown a
  /\ renderer.RenderSingleArticle mr a = Render (renderer.glamour mr) (articleMarkdown a).
Proof.
  intros Himg.
  assert (Hmd : renderer.singleArticleMarkdown a = articleMarkdown a).
  { unfold renderer.singleArticleMarkdown, articleMarkdown.
    rewrite Himg. reflexivity. }
  split; [exact Hmd |].
  unfold renderer.RenderSingleArticle. now rewrite Hmd.
Qed.

Lemma single_article_document_witness :
  @renderer.singleArticleMarkdown Sample.host Sample.article
  = @articleMarkdown Sample.host Sample.article
  /\ @renderer.RenderSingleArticle Sample.host
       (renderer.mkMarkdownRenderer Sample.plainRenderer) Sample.article
     = (@articleMarkdown Sample.host Sample.article, None).
Proof.
  apply (single_article_document Sample.host
           (renderer.mkMarkdownRenderer Sample.plainRenderer) Sample.article).
  reflexivity.
Defined.

(* ================================================================= *)
(** * Properties of the fetcher *)

(** ** Strings *)

Lemma prefix_length (a s : string) :
  String.prefix a s = true -> (String.length a <= String.length s)%nat.
Proof.
  revert s. induction a as [| x a IH]; intros [| y s]; cbn; try lia; try discriminate.
  destruct (ascii_dec x y); [| discriminate]. intros Hp. apply IH in Hp. lia.
Qed.

Lemma Index_bounds (s substr : string) :
  strings_Index s substr = -1
  \/ 0 <= strings_Index s substr
     /\ strings_Index s substr + Z.of_nat (String.length substr)
        <= Z.of_nat (String.length s).
Proof.
  induction s as [| c s IH].
  - cbn [strings_Index]. destruct (String.prefix substr "") eqn:Hp; [| now left].
    right. apply prefix_length in Hp. cbn in *. lia.
  - cbn [strings_Index]. destruct (String.prefix substr (String c s)) eqn:Hp.
    + right. apply prefix_length in Hp. cbn in *. lia.
    + destruct (Z.eqb_spec (strings_Index s substr) (-1)); [now left |].
      right. destruct IH as [IH | IH]; [contradiction |]. cbn [String.length]. lia.
Qed.

Lemma length_substring (s : string) (n m : nat) :
  (n + m <= String.length s)%nat -> String.length (substring n m s) = m.
Proof.
  revert n m. induction s as [| c s IH]; intros [| n] [| m]; cbn; intros Hlen;
    try lia; try reflexivity.
  - rewrite IH; lia.
  - apply IH. lia.
  - apply IH. lia.
Qed.

Lemma substring_all (s : string) : substring 0 (String.length s) s = s.
Proof. induction s as [| c s IH]; cbn; [reflexivity | now rewrite IH]. Qed.

Lemma sliceString_in_range (s : string) (lo hi : Z) :
  0 <= lo -> lo <= hi -> hi <= Z.of_nat (String.length s) ->
  sliceString s lo hi = Ok (substring (Z.to_nat lo) (Z.to_nat (hi - lo)) s).
Proof.
  intros H0 H1 H2. unfold sliceString.
  destruct (Z.leb_spec 0 lo); [| lia].
  destruct (Z.leb_spec lo hi); [| lia].
  destruct (Z.leb_spec hi (Z.of_nat (String.length s))); [| lia].
  reflexivity.
Qed.

(** The slice [result[start:]]. *)
Lemma sliceString_from (s : string) (start : Z) :
  0 <= start -> start <= Z.of_nat (String.length s) ->
  sliceString s start (Z.of_nat (String.length s)) = Ok (from start s).
Proof.
  intros H0 H1. rewrite sliceString_in_range by lia. unfold from.
  do 2 f_equal. lia.
Qed.

Lemma length_from (s : string) (start : Z) :
  0 <= start -> start <= Z.of_nat (String.length s) ->
  Z.of_nat (String.length (from start s)) = Z.of_nat (String.length s) - start.
Proof.
  intros H0 H1. unfold from. rewrite length_substring; lia.
Qed.

(** ** The loops that cut *)

(** A round of a loop of [cleanHTML] either finds nothing to cut and
    ends the loop, or goes on with a shorter text. *)
Lemma cutLoop_round (opening closing : string) (n : Z) (result : string) :
  1 <= n <= Z.of_nat (String.length closing) -> of_Go result ->
  (nothing_to_cut opening closing result
   /\ forall rounds : nat,
       fetcher.cutLoop (S rounds) opening closing n result = ret result)
  \/ (exists shorter : string,
         (String.length shorter < String.length result)%nat
         /\ forall rounds : nat,
             fetcher.cutLoop (S rounds) opening closing n result
             = fetcher.cutLoop rounds opening closing n shorter).
Proof.
  intros Hn Hgo. unfold nothing_to_cut. unfold of_Go in Hgo.
  destruct (Index_bounds result opening) as [Hstart | [Hstart0 Hstart]].
  { left. split; [now left |]. intros rounds. cbn [fetcher.cutLoop].
    now rewrite Hstart. }
  set (start := strings_Index result opening) in *.
  assert (Hlen : start <= Z.of_nat (String.length result)) by lia.
  destruct (Index_bounds (from start result) closing) as [Hend | [Hend0 Hend]].
  { left. split; [now right |]. intros rounds. cbn [fetcher.cutLoop].
    fold start. destruct (Z.eqb_spec start (-1)); [lia |].
    rewrite sliceString_from by lia. cbn [call andThen]. now rewrite Hend. }
  set (end_ := strings_Index (from start result) closing) in *.
  rewrite length_from in Hend by lia.
  assert (Hsum : start +! end_ +! n = start + end_ + n).
  { rewrite (add_small start end_) by int_range. apply add_small. int_range. }
  right.
  exists (substring 0 (Z.to_nat start) result
          ++ substring (Z.to_nat (start + end_ + n))
               (Z.to_nat (Z.of_nat (String.length result) - (start + end_ + n)))
               result).
  split.
  - rewrite length_append, !length_substring; lia.
  - intros rounds. cbn [fetcher.cutLoop]. fold start.
    destruct (Z.eqb_spec start (-1)); [lia |].
    rewrite sliceString_from by lia. cbn [call andThen]. fold end_.
    destruct (Z.eqb_spec end_ (-1)); [lia |].
    rewrite Hsum, !sliceString_in_range by lia. cbn [call andThen].
    now rewrite Z.sub_0_r.
Qed.

(** A loop of [cleanHTML] ends within as many rounds as the text is
    long, on a text that is no longer and has nothing to cut. *)
Lemma cutLoop_ends (opening closing : string) (n : Z) :
  1 <= n <= Z.of_nat (String.length closing) ->
  forall (rounds : nat) (result : string),
    of_Go result -> (String.length result < rounds)%nat ->
    exists r : string,
      fetcher.cutLoop rounds opening closing n result = ret r
      /\ (String.length r <= String.length result)%nat
      /\ nothing_to_cut opening closing r.
Proof.
  intros Hn. induction rounds as [| rounds IH]; intros result Hgo Hrounds; [lia |].
  destruct (cutLoop_round opening closing n result Hn Hgo)
    as [[Hdone Hret] | [shorter [Hshorter Hnext]]].
  - exists result. rewrite Hret. auto.
  - destruct (IH shorter) as [r [Hr [Hlen Hdone]]];
      [unfold of_Go in *; int_range | lia |].
    exists r. rewrite Hnext. repeat split; [exact Hr | lia | exact Hdone].
Qed.

(** More rounds than the text is long make no difference. *)
Lemma cutLoop_rounds (opening closing : string) (n : Z) :
  1 <= n <= Z.of_nat (String.length closing) ->
  forall (rounds rounds' : nat) (result : string),
    of_Go result ->
    (String.length result < rounds)%nat -> (String.length result < rounds')%nat ->
    fetcher.cutLoop rounds opening closing n result
    = fetcher.cutLoop rounds' opening closing n result.
Proof.
  intros Hn. induction rounds as [| rounds IH]; intros [| rounds'] result Hgo H1 H2;
    try lia.
  destruct (cutLoop_round opening closing n result Hn Hgo)
    as [[Hdone Hret] | [shorter [Hshorter Hnext]]].
  - now rewrite !Hret.
  - rewrite !Hnext. apply IH; [unfold of_Go in *; int_range | lia | lia].
Qed.

(** The first instance is found, not later than any instance. *)
Lemma Index_found (a substr c : string) :
  0 <= strings_Index (a ++ substr ++ c) substr <= Z.of_nat (String.length a).
Proof.
  induction a as [| x a IH].
  - cbn [append]. destruct (substr ++ c) eqn:Hs.
    + destruct substr; [cbn; lia | discriminate].
    + cbn [strings_Index]. rewrite <- Hs, prefix_append. cbn. lia.
  - cbn [append strings_Index String.length].
    destruct (String.prefix substr (String x (a ++ substr ++ c))); [lia |].
    destruct (Z.eqb_spec (strings_Index (a ++ substr ++ c) substr) (-1)); lia.
Qed.

Lemma from_append (a b : string) (start : Z) :
  0 <= start <= Z.of_nat (String.length a) ->
  from start (a ++ b) = from start a ++ b.
Proof.
  unfold from. intros Hstart.
  assert (Hk : (Z.to_nat start <= String.length a)%nat) by lia.
  generalize dependent (Z.to_nat start). clear. intros k.
  revert k. induction a as [| x a IH]; intros k Hk.
  - cbn in Hk. assert (k = 0%nat) as -> by lia. cbn [append String.length].
    rewrite Nat.sub_0_r, substring_all. now destruct b.
  - destruct k as [| k]; cbn [append String.length].
    + cbn [Nat.sub substring append]. now rewrite !substring_all.
    + cbn [substring Nat.sub]. apply IH. cbn in Hk. lia.
Qed.

(** Where a loop has nothing to cut, no piece from an [opening] to a
    [closing] is left. *)
Lemma nothing_to_cut_no_piece (opening closing r : string) :
  nothing_to_cut opening closing r ->
  forall a b c : string, r <> a ++ opening ++ b ++ closing ++ c.
Proof.
  intros Hdone a b c ->.
  pose proof (Index_found a opening (b ++ closing ++ c)) as Hstart.
  destruct Hdone as [Hnone | Hnone]; [lia |].
  rewrite from_append in Hnone by lia.
  rewrite <- !append_assoc in Hnone.
  pose proof (Index_found
                (from (strings_Index (a ++ opening ++ b ++ closing ++ c) opening) a
                 ++ opening ++ b) closing c) as Hend.
  rewrite <- !append_assoc in Hend. rewrite <- !append_assoc in Hstart.
  lia.
Qed.

(** ** [cleanHTML] *)

Lemma prefix_of_longer (a b s : string) :
  String.prefix (a ++ b) s = true -> String.prefix a s = true.
Proof.
  revert s. induction a as [| x a IH]; intros s; [now destruct s |].
  destruct s as [| y s]; cbn; [discriminate |].
  destruct (ascii_dec x y); [apply IH | discriminate].
Qed.

(** A text without the beginning of a pattern is without the pattern. *)
Lemma Index_of_longer (s a b : string) :
  strings_Index s a = -1 -> strings_Index s (a ++ b) = -1.
Proof.
  induction s as [| c s IH]; cbn [strings_Index].
  - destruct (String.prefix (a ++ b) "") eqn:Hp; [| reflexivity].
    now rewrite (prefix_of_longer _ _ _ Hp).
  - destruct (String.prefix (a ++ b) (String c s)) eqn:Hp.
    + now rewrite (prefix_of_longer _ _ _ Hp).
    + destruct (String.prefix a (String c s)); [discriminate |].
      destruct (Z.eqb_spec (strings_Index s a) (-1)) as [Hnone | Hsome];
        [| pose proof (Index_bounds s a); lia].
      intros _. now rewrite (IH Hnone).
Qed.

Lemma of_Go_shorter (r s : string) :
  (String.length r <= String.length s)%nat -> of_Go s -> of_Go r.
Proof. unfold of_Go. intros Hlen Hs. int_range. Qed.

Lemma cutLoop_none (rounds : nat) (opening closing : string) (n : Z)
      (result : string) :
  strings_Index result opening = -1 ->
  fetcher.cutLoop (S rounds) opening closing n result = ret result.
Proof. intros Hnone. cbn [fetcher.cutLoop]. now rewrite Hnone. Qed.

(** [cleanHTML] returns, without a panic, for every text. *)
Lemma cleanHTML_ok (L : Library) (html : string) :
  of_Go html -> exists s : string, fetcher.cleanHTML html = ret s.
Proof.
  intros Hgo. unfold fetcher.cleanHTML, fetcher.rounds_for.
  destruct (cutLoop_ends "<script" "</script>" 9 ltac:(cbn; lia)
              (S (String.length html)) html Hgo ltac:(lia)) as [r1 [-> [Hlen1 _]]].
  cbn [andThen ret].
  assert (Hgo1 : of_Go r1) by (apply (of_Go_shorter r1 html); assumption).
  destruct (cutLoop_ends "<style" "</style>" 8 ltac:(cbn; lia)
              (S (String.length r1)) r1 Hgo1 ltac:(lia)) as [r2 [-> [Hlen2 _]]].
  cbn [andThen ret].
  assert (Hgo2 : of_Go r2) by (apply (of_Go_shorter r2 r1); assumption).
  destruct (cutLoop_ends "<" ">" 1 ltac:(cbn; lia)
              (S (String.length r2)) r2 Hgo2 ltac:(lia)) as [r3 [-> _]].
  cbn [andThen ret]. eauto.
Qed.

(** [cleanHTML] returns a text for every text, without a panic and
    within the rounds of its loops; a text without ["<"] leaves the
    loops as it is, to be decoded and trimmed. *)
Theorem cleanHTML_returns (L : Library) (html : string) :
  of_Go html ->
  (exists s : string, fetcher.cleanHTML html = ret s)
  /\ (strings_Index html "<" = -1 ->
      fetcher.cleanHTML html
      = ret (strings.Join
               (fetcher.trimLines
                  (strings.Split (fetcher.decodeEntities html) strings.newline))
               strings.nl)).
Proof.
  intros Hgo. split; [now apply cleanHTML_ok |].
  intros Hplain. unfold fetcher.cleanHTML, fetcher.rounds_for.
  pose proof (Index_of_longer html "<" "script" Hplain) as Hscript.
  pose proof (Index_of_longer html "<" "style" Hplain) as Hstyle.
  cbn [append] in Hscript, Hstyle.
  rewrite cutLoop_none by assumption. cbn [andThen ret].
  rewrite cutLoop_none by assumption. cbn [andThen ret].
  rewrite cutLoop_none by assumption. reflexivity.
Qed.

Lemma cleanHTML_returns_witness :
  @fetcher.cleanHTML SampleNews.library "Trees down &amp; roads closed"
  = ret "Trees down & roads closed".
Proof.
  refine (eq_trans
            (proj2 (cleanHTML_returns SampleNews.library
                      "Trees down &amp; roads closed" _) _) _).
  - unfold of_Go. cbn. int_range.
  - reflexivity.
  - reflexivity.
Defined.

(** The entities are decoded after the tags are cut: a tag that is
    written with entities is in the text that [cleanHTML] returns. *)
Remark cleanHTML_decodes_a_tag :
  @fetcher.cleanHTML SampleNews.library "&lt;b&gt;bold&lt;/b&gt;" = ret "<b>bold</b>".
Proof. reflexivity. Qed.

(** Each of the three loops of [cleanHTML] ends on every text, within
    as many rounds as the text has bytes and with the same text for
    any more rounds; the text it leaves is no longer, and holds no
    piece from its opening to its closing: after the last loop no
    ["<"] is followed by a [">"]. *)
Theorem pieces_are_cut (opening closing : string) (n : Z) (result : string) :
  In (opening, closing, n)
     [("<script", "</script>", 9); ("<style", "</style>", 8); ("<", ">", 1)] ->
  of_Go result ->
  exists r : string,
    fetcher.cutLoop (fetcher.rounds_for result) opening closing n result = ret r
    /\ (forall rounds : nat,
           (String.length result < rounds)%nat ->
           fetcher.cutLoop rounds opening closing n result = ret r)
    /\ (String.length r <= String.length result)%nat
    /\ (forall a b c : string, r <> a ++ opening ++ b ++ closing ++ c)
    /\ (strings_Index result opening = -1 -> r = result).
Proof.
  intros Hin Hgo.
  assert (Hn : 1 <= n <= Z.of_nat (String.length closing)).
  { destruct Hin as [H | [H | [H | []]]]; injection H as <- <- <-; cbn; lia. }
  destruct (cutLoop_ends opening closing n Hn (fetcher.rounds_for result) result Hgo)
    as [r [Hr [Hlen Hdone]]]; [unfold fetcher.rounds_for; lia |].
  exists r. repeat split.
  - exact Hr.
  - intros rounds Hrounds. rewrite <- Hr.
    apply cutLoop_rounds; [exact Hn | exact Hgo | exact Hrounds |].
    unfold fetcher.rounds_for. lia.
  - exact Hlen.
  - now apply nothing_to_cut_no_piece.
  - intros Hnone. unfold fetcher.rounds_for in Hr.
    rewrite cutLoop_none in Hr by assumption. now injection Hr.
Qed.

Lemma pieces_are_cut_witness :
  exists r : string,
    fetcher.cutLoop (fetcher.rounds_for "<p>Trees <b>down</b></p>") "<" ">" 1
                    "<p>Trees <b>down</b></p>" = ret r
    /\ (forall rounds : nat,
           (String.length "<p>Trees <b>down</b></p>" < rounds)%nat ->
           fetcher.cutLoop rounds "<" ">" 1 "<p>Trees <b>down</b></p>" = ret r)
    /\ (String.length r <= String.length "<p>Trees <b>down</b></p>")%nat
    /\ (forall a b c : string, r <> a ++ "<" ++ b ++ ">" ++ c)
    /\ (strings_Index "<p>Trees <b>down</b></p>" "<" = -1
        -> r = "<p>Trees <b>down</b></p>").
Proof.
  apply (pieces_are_cut "<" ">" 1 "<p>Trees <b>down</b></p>").
  - right. right. left. reflexivity.
  - unfold of_Go. cbn. int_range.
Defined.

(** ** The articles of a feed *)

Lemma limit_fits (content : string) (cut : bool) :
  (String.length
     (if cut && (300 <? Z.of_nat (String.length content))%Z
      then substring 0 297 content ++ "..."
      else content) <= (if cut then 300 else String.length content))%nat.
Proof.
  destruct cut; cbn [andb]; [| lia].
  destruct (Z.ltb_spec 300 (Z.of_nat (String.length content))); [| lia].
  rewrite length_append, length_substring by lia. cbn. lia.
Qed.

(** In summary mode [extractContent] returns at most 300 bytes. *)
Lemma extractContent_summary (L : Library) (item : gofeed.Item) :
  of_Go (gofeed.Description item) -> of_Go (gofeed.Content item) ->
  exists s : string,
    fetcher.extractContent item false = ret s /\ (String.length s <= 300)%nat.
Proof.
  intros Hdesc Hcontent. unfold fetcher.extractContent.
  destruct (gofeed.Description item =? "")%string; cbn [negb].
  - destruct (gofeed.Content item =? "")%string; cbn [negb].
    + exists "". split; [reflexivity | cbn; lia].
    + destruct (cleanHTML_ok L _ Hcontent) as [s ->]. cbn [andThen ret].
      eexists. split; [reflexivity |]. apply (limit_fits s true).
  - destruct (cleanHTML_ok L _ Hdesc) as [s ->]. cbn [andThen ret].
    eexists. split; [reflexivity |]. apply (limit_fits s true).
Qed.

(** [cleanDescription] returns at most 300 bytes, when trimming does not
    make a text longer. *)
Lemma cleanDescription_fits (L : Library) (desc : string) :
  (forall s : string, (String.length (strings_TrimSpace s) <= String.length s)%nat) ->
  of_Go desc ->
  exists s : string,
    fetcher.cleanDescription desc = ret s /\ (String.length s <= 300)%nat.
Proof.
  intros Htrim Hdesc. unfold fetcher.cleanDescription.
  destruct (cleanHTML_ok L _ Hdesc) as [s ->]. cbn [andThen ret].
  eexists. split; [reflexivity |].
  etransitivity; [apply Htrim |].
  unfold fetcher.limitLength.
  pose proof (limit_fits s true) as Hfit. cbn [andb] in Hfit. exact Hfit.
Qed.

Lemma fetchItems_summaries (H : Host) (L : Library) (source : source.Source)
      (items : list gofeed.Item) :
  (forall s : string, (String.length (strings_TrimSpace s) <= String.length s)%nat) ->
  Forall (fun item => of_Go (gofeed.Description item) /\ of_Go (gofeed.Content item))
         items ->
  forall articles : list Article,
  exists new : list Article,
    fetcher.fetchItems source false items articles = ret (articles ++ new)%list
    /\ Forall2 (summary_of source) items new.
Proof.
  intros Htrim Hitems. induction Hitems as [| item items [Hdesc Hcontent] _ IH];
    intros articles.
  - exists []. cbn. rewrite app_nil_r. split; [reflexivity | constructor].
  - cbn [fetcher.fetchItems]. unfold fetcher.articleOf.
    destruct (extractContent_summary L item Hdesc Hcontent) as [content [-> Hc]].
    cbn [andThen ret].
    destruct (cleanDescription_fits L _ Htrim Hdesc) as [description [-> Hd]].
    cbn [andThen ret].
    match goal with
    | |- context [(articles ++ [?a])%list] => set (article := a)
    end.
    destruct (IH (articles ++ [article])%list) as [new [-> Hnew]].
    exists (article :: new). rewrite <- app_assoc. split; [reflexivity |].
    constructor; [| exact Hnew].
    unfold summary_of, article. cbn. repeat split; assumption.
Qed.

(** In summary mode [FetchFromSource] returns, for a feed that is
    parsed, one article for each item, in the order of the feed: it has
    the title, the link and the categories of the item and the name of
    the source, and its content and its description are at most 300
    bytes long (trimming does not make a text longer). *)
Theorem summaries_fit (H : Host) (L : Library) (F : Feeds)
        (source : source.Source) (feed : gofeed.Feed) :
  gofeed_ParseURLWithContext (source.URL source) = inl feed ->
  (forall s : string, (String.length (strings_TrimSpace s) <= String.length s)%nat) ->
  Forall (fun item => of_Go (gofeed.Description item) /\ of_Go (gofeed.Content item))
         (gofeed.Items feed) ->
  exists articles : list Article,
    fetcher.FetchFromSource source false = ret (inl articles)
    /\ Forall2 (summary_of source) (gofeed.Items feed) articles.
Proof.
  intros Hfeed Htrim Hitems. unfold fetcher.FetchFromSource. rewrite Hfeed.
  destruct (fetchItems_summaries H L source (gofeed.Items feed) Htrim Hitems [])
    as [new [-> Hnew]].
  cbn [andThen ret app]. eauto.
Qed.

Lemma summaries_fit_witness :
  exists articles : list Article,
    @fetcher.FetchFromSource Sample.host SampleNews.library SampleFeed.feeds
      SampleFeed.source false = ret (inl articles)
    /\ Forall2 (summary_of SampleFeed.source) [SampleFeed.item] articles.
Proof.
  apply (summaries_fit Sample.host SampleNews.library SampleFeed.feeds
           SampleFeed.source (gofeed.mkFeed [SampleFeed.item])).
  - reflexivity.
  - intros s. cbn. lia.
  - constructor; [| constructor]. split; unfold of_Go; cbn; int_range.
Defined.

(* ================================================================= *)
(** * Properties of the news service *)

(** A loop that appends the elements that pass a test is a filter. *)
Lemma fold_left_filter {A : Type} (p : A -> bool) (l : list A) :
  forall acc : list A,
    fold_left (fun acc a => if p a then (acc ++ [a])%list else acc) l acc
    = (acc ++ filter p l)%list.
Proof.
  induction l as [| a l IH]; intros acc; cbn [fold_left filter].
  - now rewrite app_nil_r.
  - rewrite IH. destruct (p a); [| reflexivity].
    now rewrite <- app_assoc.
Qed.

Lemma applyLimit_length (articles : list Article) (limit : Z) :
  0 < limit -> GoInt.len (service.applyLimit articles limit) <= limit.
Proof.
  intros Hlimit. unfold service.applyLimit.
  destruct (Z.ltb_spec 0 limit); [| lia]. cbn [andb].
  destruct (Z.ltb_spec limit (GoInt.len articles)) as [Hlt | Hge];
    unfold GoInt.len in *; [| lia].
  rewrite length_firstn. lia.
Qed.

Lemma applyLimit_all (articles : list Article) (limit : Z) :
  limit <= 0 -> service.applyLimit articles limit = articles.
Proof.
  intros Hlimit. unfold service.applyLimit.
  destruct (Z.ltb_spec 0 limit); [lia | reflexivity].
Qed.

(** The limit of the service and the limit of the cache cut alike. *)
Lemma applyLimit_firstn (articles : list Article) (limit : Z) :
  service.applyLimit articles limit
  = if 0 <? limit then firstn (Z.to_nat limit) articles else articles.
Proof.
  unfold service.applyLimit. destruct (Z.ltb_spec 0 limit); [| reflexivity].
  cbn [andb]. destruct (Z.ltb_spec limit (GoInt.len articles)) as [Hlt | Hge];
    [reflexivity |].
  unfold GoInt.len in Hge. rewrite firstn_all2; [reflexivity | lia].
Qed.

(** ** [GetLatestNews] *)

(** The loop over the sources collects the articles of the sources that
    answer and prints a warning for each of the others. *)
Lemma fetchSources_collects (H : Host) (L : Library) (F : Feeds)
      (full : bool) (sources : list source.Source)
      (results : list (list Article + error)) :
  Forall2 (fun source r => fetcher.FetchFromSource source full = ret r)
          sources results ->
  forall (allArticles : list Article) (out : list Effect),
    service.fetchSources sources full allArticles out
    = ret ((allArticles ++ fetchedArticles results)%list,
           (out ++ warnings sources results)%list).
Proof.
  induction 1 as [| source r sources results Hr _ IH]; intros allArticles out.
  - cbn. now rewrite !app_nil_r.
  - cbn [service.fetchSources]. rewrite Hr. cbn [andThen ret].
    destruct r as [articles | err]; rewrite IH.
    + unfold fetchedArticles. cbn [map concat warnings].
      now rewrite <- app_assoc.
    + unfold fetchedArticles. cbn [map concat warnings app].
      now rewrite <- app_assoc.
Qed.

(** When every source answers or fails, [GetLatestNews] returns: the
    articles of the sources that answer, sorted and cut to a positive
    limit, and no error; a warning is printed for each source that
    fails, before the cache is saved.  Every article that is returned
    has its link in the cache afterwards, what was cached stays in
    place, and the service is otherwise as it was. *)
Theorem GetLatestNews_collects_and_caches (H : Host) (L : Library) (F : Feeds)
        (S : Sorting) (ns : service.NewsService) (limit : Z)
        (results : list (list Article + error)) :
  Forall2 (fun source r =>
             fetcher.FetchFromSource source (service.fullContent ns) = ret r)
          (service.sources ns) results ->
  exists (arts : list Article) (ns' : service.NewsService) (saved : list Effect),
    service.GetLatestNews ns limit
    = ret (arts, None, ns', (warnings (service.sources ns) results ++ saved)%list)
    /\ arts = service.applyLimit (sort_Slice (fetchedArticles results) newerFirst)
                                 limit
    /\ (0 < limit -> GoInt.len arts <= limit)
    /\ (forall a, In a arts ->
                  In (Link a) (links (news.articles (service.cache ns'))))
    /\ firstn (List.length (news.articles (service.cache ns)))
              (news.articles (service.cache ns'))
       = news.articles (service.cache ns)
    /\ service.sources ns' = service.sources ns
    /\ service.country ns' = service.country ns
    /\ service.fullContent ns' = service.fullContent ns.
Proof.
  intros Hresults. unfold service.GetLatestNews.
  rewrite (fetchSources_collects H L F _ _ _ Hresults [] []).
  cbn [andThen ret app].
  fold newerFirst.
  set (arts := service.applyLimit (sort_Slice (fetchedArticles results) newerFirst)
                                  limit).
  destruct (StoreArticles_appends H L (service.cache ns) arts)
    as (added & Heq & _ & _ & _ & Hall).
  destruct (news.StoreArticles (service.cache ns) arts) as [cache saved] eqn:Hstore.
  cbn [fst] in Heq.
  exists arts, (service.set_cache ns cache), saved.
  cbn [service.set_cache service.cache service.sources service.country
       service.fullContent].
  repeat split.
  - intros Hlimit. now apply applyLimit_length.
  - intros a Ha. rewrite Heq. now apply Hall.
  - rewrite Heq, firstn_app, Nat.sub_diag, firstn_all. cbn. now rewrite app_nil_r.
Qed.

Lemma GetLatestNews_collects_and_caches_witness :
  exists (arts : list Article) (ns' : service.NewsService) (saved : list Effect),
    @service.GetLatestNews Sample.host SampleNews.library SampleFeed.feeds
       SampleService.sorting SampleService.ns 1
    = ret (arts, None, ns',
           (warnings (service.sources SampleService.ns) SampleService.results
            ++ saved)%list)
    /\ arts = service.applyLimit
                (@sort_Slice SampleService.sorting
                   (fetchedArticles SampleService.results) newerFirst) 1
    /\ (0 < 1 -> GoInt.len arts <= 1)
    /\ (forall a, In a arts ->
                  In (Link a) (links (news.articles (service.cache ns'))))
    /\ firstn (List.length (news.articles (service.cache SampleService.ns)))
              (news.articles (service.cache ns'))
       = news.articles (service.cache SampleService.ns)
    /\ service.sources ns' = service.sources SampleService.ns
    /\ service.country ns' = service.country SampleService.ns
    /\ service.fullContent ns' = service.fullContent SampleService.ns.
Proof.
  apply (GetLatestNews_collects_and_caches Sample.host SampleNews.library
           SampleFeed.feeds SampleService.sorting SampleService.ns 1
           SampleService.results).
  constructor; [vm_compute; reflexivity |].
  constructor; [vm_compute; reflexivity |].
  constructor.
Defined.

(** ** [SearchArticles] of the service *)

(** [SearchArticles] answers from the cache when the cache has a match,
    however old the cache is: nothing is fetched, printed or stored.
    When the cache has no match, it returns of the articles that
    [GetLatestNews] returns what the search of the cache would return of
    them: the two loops agree. *)
Theorem service_searches_the_cache_first (H : Host) (L : Library) (F : Feeds)
        (S : Sorting) (ns : service.NewsService) (query : string) (limit : Z) :
  (news.SearchArticles (service.cache ns) query limit <> [] ->
   service.SearchArticles ns query limit
   = ret (news.SearchArticles (service.cache ns) query limit, None, ns, []))
  /\ (forall (arts : list Article) (ns' : service.NewsService)
             (out : list Effect),
         news.SearchArticles (service.cache ns) query limit = [] ->
         service.GetLatestNews ns 0 = ret (arts, None, ns', out) ->
         service.SearchArticles ns query limit
         = ret (news.SearchArticles
                  (news.mkArticleCache arts time_Now "") query limit,
                None, ns', out)).
Proof.
  split.
  - intros Hfound. unfold service.SearchArticles.
    destruct (news.SearchArticles (service.cache ns) query limit) as [| a found];
      [contradiction |].
    reflexivity.
  - intros arts ns' out Hnone Hlatest. unfold service.SearchArticles.
    rewrite Hnone, Hlatest. cbn [GoInt.len List.length Z.of_nat Z.ltb Z.compare
                                 andThen ret].
    change (fun matches article =>
              if strings.Contains (strings_ToLower (Title article))
                                  (strings_ToLower query)
                 || strings.Contains (strings_ToLower (Description article))
                                     (strings_ToLower query)
                 || strings.Contains (strings_ToLower (Content article))
                                     (strings_ToLower query)
              then (matches ++ [article])%list else matches)
      with (fun matches article =>
              if news.matchesQuery (strings_ToLower query) article
              then (matches ++ [article])%list else matches).
    rewrite (fold_left_filter (news.matchesQuery (strings_ToLower query)) arts []).
    cbn [app]. rewrite applyLimit_firstn.
    unfold news.SearchArticles. cbn [news.articles].
    destruct (Z.ltb_spec 0 limit).
    + rewrite searchLoop_first by (cbn; lia). cbn. now rewrite Z.sub_0_r.
    + now rewrite searchLoop_all by lia.
Qed.

(** ** [FilterArticles] *)

Lemma foundCategory_existsb (L : Library) (categories : list string)
      (category : string) :
  service.foundCategory categories category
  = existsb (fun cat => strings_EqualFold cat category) categories.
Proof.
  induction categories as [| cat rest IH]; cbn; [reflexivity |].
  rewrite IH. now destruct (strings_EqualFold cat category).
Qed.

(** The loop of [FilterArticles] appends the articles that pass. *)
Lemma FilterArticles_loop (L : Library) (sourceName category : string)
      (since : time.Time) (arts : list Article) :
  forall acc : list Article,
    fold_left
      (fun filtered article =>
         if negb (sourceName =? "")%string
            && negb (strings_EqualFold (Source article) sourceName)
         then filtered
         else if negb (time_IsZero since)
                 && time_Before (Published article) since
         then filtered
         else if negb (category =? "")%string
                 && negb (service.foundCategory (Categories article) category)
         then filtered
         else (filtered ++ [article])%list)
      arts acc
    = (acc ++ filter (passes sourceName category since) arts)%list.
Proof.
  induction arts as [| a rest IH]; intros acc; cbn [fold_left filter].
  - now rewrite app_nil_r.
  - rewrite IH. unfold passes at 2. rewrite foundCategory_existsb.
    destruct (sourceName =? "")%string, (strings_EqualFold (Source a) sourceName),
      (time_IsZero since), (time_Before (Published a) since),
      (category =? "")%string,
      (existsb (fun cat => strings_EqualFold cat category) (Categories a));
      cbn [negb andb orb]; rewrite <- ?app_assoc; reflexivity.
Qed.

(** [FilterArticles] returns, of the articles that [GetLatestNews]
    returns, those that pass every criterion that is given, in their
    order, cut to a positive limit; without a criterion and a limit it
    returns them all. *)
Theorem FilterArticles_is_a_filter (H : Host) (L : Library) (F : Feeds)
        (S : Sorting) (ns ns' : service.NewsService)
        (sourceName category : string) (since : time.Time) (limit : Z)
        (arts : list Article) (out : list Effect) :
  service.GetLatestNews ns 0 = ret (arts, None, ns', out) ->
  service.FilterArticles ns sourceName category since limit
  = ret (service.applyLimit (filter (passes sourceName category since) arts) limit,
         None, ns', out)
  /\ service.FilterArticles ns "" "" zeroTime 0 = ret (arts, None, ns', out).
Proof.
  intros Hlatest.
  assert (Hfilter :
            forall (sourceName category : string) (since : time.Time) (limit : Z),
              service.FilterArticles ns sourceName category since limit
              = ret (service.applyLimit
                       (filter (passes sourceName category since) arts) limit,
                     None, ns', out)).
  { clear sourceName category since limit.
    intros sourceName category since limit.
    unfold service.FilterArticles. rewrite Hlatest. cbn [andThen ret].
    now rewrite FilterArticles_loop. }
  split; [apply Hfilter |].
  rewrite Hfilter, applyLimit_all by lia. do 4 f_equal.
  clear. induction arts as [| a rest IH]; [reflexivity |].
  cbn [filter]. unfold passes at 1. cbn. now rewrite IH.
Qed.

Lemma FilterArticles_is_a_filter_witness :
  exists (arts : list Article) (ns' : service.NewsService) (out : list Effect),
    @service.GetLatestNews Sample.host SampleNews.library SampleFeed.feeds
       SampleService.sorting SampleService.ns 0 = ret (arts, None, ns', out)
    /\ arts = fetchedArticles SampleService.results
    /\ @service.FilterArticles Sample.host SampleNews.library SampleFeed.feeds
         SampleService.sorting SampleService.ns "nos" "Weather" zeroTime 5
       = ret (service.applyLimit
                (filter (@passes SampleNews.library "nos" "Weather" zeroTime) arts) 5,
              None, ns', out)
    /\ @service.FilterArticles Sample.host SampleNews.library SampleFeed.feeds
         SampleService.sorting SampleService.ns "" "" zeroTime 0
       = ret (arts, None, ns', out).
Proof.
  do 3 eexists. split; [vm_compute; reflexivity |].
  split; [vm_compute; reflexivity |].
  apply (FilterArticles_is_a_filter Sample.host SampleNews.library SampleFeed.feeds
           SampleService.sorting SampleService.ns).
  vm_compute. reflexivity.
Defined.

(* ================================================================= *)
(** * Properties of the list of articles in markdown *)

Lemma prefix_extended (u s b : string) :
  String.prefix u s = true -> String.prefix u (s ++ b) = true.
Proof.
  revert s. induction u as [| x u IH]; intros s Hp; [now destruct (s ++ b) |].
  destruct s as [| y s]; [discriminate |]. cbn in *.
  destruct (ascii_dec x y); [now apply IH | discriminate].
Qed.

Lemma Contains_extended (s b u : string) :
  strings.Contains s u = true -> strings.Contains (s ++ b) u = true.
Proof.
  induction s as [| y s IH]; intros Hs.
  - cbn in Hs. rewrite orb_false_r in Hs.
    destruct u; [now destruct b | discriminate].
  - cbn [strings.Contains] in Hs. apply orb_true_iff in Hs.
    change (String.prefix u (String y s ++ b) || strings.Contains (s ++ b) u = true).
    destruct Hs as [Hp | Hs].
    + now rewrite (prefix_extended _ _ b Hp).
    + rewrite (IH Hs). apply orb_true_r.
Qed.

(** A text that is written stays in the document, whatever is written
    before and after it. *)
Lemma Contains_inside (a u b : string) : strings.Contains (a ++ u ++ b) u = true.
Proof. apply Contains_append, Contains_here. Qed.

(** The loop over the categories writes behind the text so far. *)
Lemma writeCategories_extends (cats : list string) : forall (i : Z) (md : string),
  writeCategories i cats md = md ++ writeCategories i cats "".
Proof.
  induction cats as [| cat rest IH]; intros i md.
  - cbn. now rewrite append_nil_r.
  - cbn [writeCategories].
    rewrite IH.
    rewrite (IH _ ((if 0 <? i then "" ++ ", " else "") ++ "`" ++ cat ++ "`")).
    destruct (0 <? i); rewrite ?append_assoc; reflexivity.
Qed.

(** What the loop of [RenderArticles] writes for an article: behind the
    text so far, its title as a heading and, at the end, its link. *)
Lemma writeArticle_writes (H : Host) (i : Z) (a : Article) (md : string) :
  exists before between : string,
    renderer.writeArticle i a md
    = md ++ before ++ ("## " ++ Title a ++ strings.nl ++ strings.nl)
         ++ between
         ++ ("ðŸ”— [Read full article](" ++ Link a ++ ")") ++ strings.nl ++ strings.nl.
Proof.
  unfold renderer.writeArticle.
  exists (if 0 <? i then strings.nl ++ "---" ++ strings.nl ++ strings.nl else "").
  exists (("*" ++ ("**" ++ Source a ++ "** â€¢ "
                   ++ renderer.formatTimeAgo (Published a))
           ++ "*" ++ strings.nl ++ strings.nl)
          ++ (if negb (ImageURL a =? "")%string
              then "![Article Image](" ++ ImageURL a ++ ")"
                   ++ strings.nl ++ strings.nl
              else "")
          ++ (if negb (Description a =? "")%string
              then Description a ++ strings.nl ++ strings.nl
              else if negb (Content a =? "")%string
                   then (if 500 <? Z.of_nat (String.length (Content a))
                         then substring 0 497 (Content a) ++ "..."
                         else Content a) ++ strings.nl ++ strings.nl
                   else "")
          ++ (if 0 <? GoInt.len (Categories a)
              then "**Categories:** " ++ writeCategories 0 (Categories a) ""
                   ++ strings.nl ++ strings.nl
              else "")).
  destruct (0 <? GoInt.len (Categories a));
    [rewrite writeCategories_extends |];
    destruct (0 <? i), (negb (ImageURL a =? "")%string),
      (negb (Description a =? "")%string), (negb (Content a =? "")%string);
    rewrite !append_assoc; reflexivity.
Qed.

(** The loop of [RenderArticles] writes every article behind the text so
    far. *)
Lemma writeArticles_writes (H : Host) (rest : list Article) :
  forall (i : Z) (md : string),
  exists written : string,
    renderer.writeArticles i rest md = md ++ written
    /\ forall a : Article,
         In a rest ->
         strings.Contains written ("## " ++ Title a ++ strings.nl ++ strings.nl) = true
         /\ strings.Contains written ("ðŸ”— [Read full article](" ++ Link a ++ ")") = true.
Proof.
  induction rest as [| a rest IH]; intros i md.
  - exists "". cbn. rewrite append_nil_r. split; [reflexivity | contradiction].
  - cbn [renderer.writeArticles].
    destruct (writeArticle_writes H i a md) as (before & between & ->).
    destruct (IH (i +! 1)
                 (md ++ before ++ ("## " ++ Title a ++ strings.nl ++ strings.nl)
                     ++ between
                     ++ ("ðŸ”— [Read full article](" ++ Link a ++ ")")
                     ++ strings.nl ++ strings.nl))
      as (written & -> & Hrest).
    remember ("## " ++ Title a ++ strings.nl ++ strings.nl) as heading eqn:Hheading.
    remember ("ðŸ”— [Read full article](" ++ Link a ++ ")") as link eqn:Hlink.
    exists (before ++ heading ++ between ++ link ++ strings.nl ++ strings.nl
            ++ written).
    split; [rewrite !append_assoc; reflexivity |].
    intros b [<- | Hb].
    + rewrite <- Hheading, <- Hlink. split.
      * apply Contains_inside.
      * do 3 apply Contains_append. apply Contains_here.
    + destruct (Hrest b Hb) as [Hb1 Hb2].
      split; do 6 apply Contains_append; assumption.
Qed.

(** [RenderArticles] hands to its renderer a document that has, for
    every article of the list, the title as a heading and the link to
    the full article, and that ends with the number of the articles; for
    no article it renders a message, whatever the title. *)
Theorem RenderArticles_lists_every_article (H : Host)
        (mr : renderer.MarkdownRenderer) (articles : list Article)
        (title : string) :
  (articles <> [] ->
   exists body : string,
     renderer.RenderArticles mr articles title
     = Render (renderer.glamour mr)
              (body ++ "*Found " ++ GoInt.itoa (GoInt.len articles)
                    ++ " articles â€¢ Generated with NWCLI*
")
     /\ forall a : Article,
          In a articles ->
          strings.Contains body ("## " ++ Title a ++ strings.nl ++ strings.nl) = true
          /\ strings.Contains body ("ðŸ”— [Read full article](" ++ Link a ++ ")") = true)
  /\ renderer.RenderArticles mr [] title
     = renderer.RenderMessage mr "ðŸ“° No articles found" "Try a different search query or check your sources.".
Proof.
  split; [| reflexivity].
  intros Hne. unfold renderer.RenderArticles.
  destruct (Z.eqb_spec (GoInt.len articles) 0) as [Hlen | _].
  { destruct articles; [contradiction | discriminate]. }
  match goal with
  | |- context [renderer.writeArticles 0 articles ?md] =>
      destruct (writeArticles_writes H articles 0 md) as (written & -> & Hall);
      remember md as header eqn:Hheader
  end.
  exists (header ++ written ++ "---" ++ strings.nl ++ strings.nl).
  split; [now rewrite !append_assoc |].
  intros a Ha. destruct (Hall a Ha) as [Ha1 Ha2].
  split; apply Contains_append; apply Contains_extended; assumption.
Qed.

Lemma RenderArticles_lists_every_article_witness :
  exists body : string,
    @renderer.RenderArticles Sample.host
       (renderer.mkMarkdownRenderer Sample.plainRenderer)
       [SampleNews.first; SampleNews.second] "News"
    = Render Sample.plainRenderer
             (body ++ "*Found " ++ GoInt.itoa 2 ++ " articles â€¢ Generated with NWCLI*
")
    /\ forall a : Article,
         In a [SampleNews.first; SampleNews.second] ->
         strings.Contains body ("## " ++ Title a ++ strings.nl ++ strings.nl) = true
         /\ strings.Contains body ("ðŸ”— [Read full article](" ++ Link a ++ ")") = true.
Proof.
  apply (proj1 (RenderArticles_lists_every_article Sample.host
                  (renderer.mkMarkdownRenderer Sample.plainRenderer)
                  [SampleNews.first; SampleNews.second] "News")).
  discriminate.
Defined.
